(** * A news-driven trading loop: decision engine, threshold store, news ledger

    Shallow embedding of [trading_system.py] (decision cycle, threshold
    adaptation, outcome simulation) and of [insert_news_data] from
    [data_collector.py].

    Conventions of the embedding.
    - Numeric readings, thresholds and profit/loss figures are rationals
      ([Q]); the decimal literals of the source ([0.1], [-2.5], ...) are the
      corresponding fractions.  [NULL] readings are outside the model.
    - The MySQL tables are lists of rows in table order; a [WHERE col = %s]
      clause on a text column is equality of strings.  Every statement
      against the database succeeds (connection errors are not modelled).
    - Columns filled from the wall clock ([datetime.now()]) are left out of
      the rows.
    - [print] is modelled by appending a typed event to [stdout].
    - [random()] is a stream of draws held in the world together with a
      cursor. *)

From Stdlib Require Import QArith Qround ZArith List String Bool Lia Lqa.
Import ListNotations.

Local Open Scope Z_scope.
Local Open Scope Q_scope.
Local Open Scope string_scope.
Local Open Scope list_scope.

(** ** Numbers as Python sees them *)

Module Py.

(** [x < y] and [x > y] on numbers. *)
Definition ltb (x y : Q) : bool := (Qnum x * QDen y <? Qnum y * QDen x)%Z.
Definition gtb (x y : Q) : bool := ltb y x.

(** [round(x)] to an integer: nearest, ties to the even neighbour. *)
Definition round_half_even (x : Q) : Z :=
  let f := Qfloor x in
  let d := x - inject_Z f in
  if ltb d (1 # 2) then f
  else if ltb (1 # 2) d then (f + 1)%Z
  else if Z.even f then f else (f + 1)%Z.

(** [round(x, 2)]. *)
Definition round2 (x : Q) : Q := round_half_even (x * 100) # 100.

(** [uniform(a, b)] is [a + (b - a) * random()]. *)
Definition uniform_of (a b u : Q) : Q := a + (b - a) * u.

(** [d.get(key, None)] and the [items()] view: a dict is kept as its
    sequence of items in insertion order. *)
Definition dict (V : Type) : Type := list (string * V).

Fixpoint get {V : Type} (key : string) (d : dict V) : option V :=
  match d with
  | [] => None
  | (k, v) :: rest => if (k =? key)%string then Some v else get key rest
  end.

End Py.

(** ** trading_system.py *)

Inductive action : Type := buy | sell | hold.

Definition action_eqb (a b : action) : bool :=
  match a, b with
  | buy, buy | sell, sell | hold, hold => true
  | _, _ => false
  end.

(** The dict returned by [get_dynamic_thresholds] and built by
    [update_dynamic_thresholds]: six fixed keys. *)
Record thresholds : Type := {
  th_SMA : Q;
  th_RSI_buy : Q;
  th_RSI_sell : Q;
  th_MACD : Q;
  th_Bollinger_band : Q;
  th_EMA : Q
}.

(** The dict [fibonacci_levels]: five fixed keys. *)
Record fibonacci_levels : Type := {
  level_23_6 : Q;
  level_38_2 : Q;
  level_50_0 : Q;
  level_61_8 : Q;
  level_100 : Q
}.

(** A row of [trade_log]. *)
Record trade_row : Type := {
  tr_id : Z;
  tr_action : action;
  tr_currency : string;
  tr_sma : option Q;
  tr_rsi : option Q;
  tr_macd : option Q;
  tr_bollinger_band : option Q;
  tr_ema : option Q;
  tr_result : Q;
  tr_position_size : Z;
  tr_risk_level : string;
  tr_strategy : string;
  tr_performance_score : option Q
}.

(** A row of [indicators_effect]: indicator_name, value, impact. *)
Definition effect_row : Type := (string * Q * string)%type.

(** A row of [performance_log]: trade_id, profit_loss. *)
Definition performance_row : Type := (Z * Q)%type.

(** A row of [dynamic_thresholds]: currency and its six columns. *)
Definition threshold_row : Type := (string * thresholds)%type.

(** A row of the news query of [fetch_news_and_impact]
    ([news_data JOIN impact_data]). *)
Record news_impact_row : Type := {
  ni_title : string;
  ni_currency : string;
  ni_actual : string;
  ni_forecast : string;
  ni_previous : string;
  ni_impact : string
}.

(** A row of the indicator query of [fetch_news_and_impact] (the join of
    the five indicator tables with [ohlc_data]). *)
Record indicator_data : Type := {
  sma_value : Q;
  rsi : Q;
  macd_value : Q;
  upper_band : Q;
  middle_band : Q;
  lower_band : Q;
  bb_period : Q;
  bb_deviation : Q;
  ema_value : Q
}.

(** What the program prints, one constructor per [print] statement. *)
Inductive output : Type :=
| NewsTitle (title : string)
| NewsValues (currency actual forecast previous : string)
| ImpactLevel (impact : string)
| Separator
| AnalyzingNews (news_title currency : string)
| EvaluatingTrade (currency : string) (a : action)
| UpdatedBadDecision (trade_id : Z)
| DeletedBadDecision (trade_id : Z)
| Executing (a : action) (currency : string)
| NoTradeExecuted.

(** The database [trading_data], the terminal and the random generator. *)
Record world : Type := {
  trade_log : list trade_row;
  trade_log_auto_increment : Z;
  indicators_effect : list effect_row;
  performance_log : list performance_row;
  dynamic_thresholds : list threshold_row;
  news_impact : list news_impact_row;
  indicator_rows : list (string * indicator_data);
  fibonacci_rows : list (string * fibonacci_levels);
  stdout : list output;
  random : nat -> Q;
  random_pos : nat
}.

Definition with_trade_log (w : world) (t : list trade_row) (n : Z) : world :=
  {| trade_log := t; trade_log_auto_increment := n;
     indicators_effect := indicators_effect w;
     performance_log := performance_log w;
     dynamic_thresholds := dynamic_thresholds w;
     news_impact := news_impact w;
     indicator_rows := indicator_rows w;
     fibonacci_rows := fibonacci_rows w;
     stdout := stdout w; random := random w; random_pos := random_pos w |}.

Definition with_indicators_effect (w : world) (e : list effect_row) : world :=
  {| trade_log := trade_log w;
     trade_log_auto_increment := trade_log_auto_increment w;
     indicators_effect := e;
     performance_log := performance_log w;
     dynamic_thresholds := dynamic_thresholds w;
     news_impact := news_impact w;
     indicator_rows := indicator_rows w;
     fibonacci_rows := fibonacci_rows w;
     stdout := stdout w; random := random w; random_pos := random_pos w |}.

Definition with_performance_log (w : world) (p : list performance_row) : world :=
  {| trade_log := trade_log w;
     trade_log_auto_increment := trade_log_auto_increment w;
     indicators_effect := indicators_effect w;
     performance_log := p;
     dynamic_thresholds := dynamic_thresholds w;
     news_impact := news_impact w;
     indicator_rows := indicator_rows w;
     fibonacci_rows := fibonacci_rows w;
     stdout := stdout w; random := random w; random_pos := random_pos w |}.

Definition with_dynamic_thresholds (w : world) (d : list threshold_row) : world :=
  {| trade_log := trade_log w;
     trade_log_auto_increment := trade_log_auto_increment w;
     indicators_effect := indicators_effect w;
     performance_log := performance_log w;
     dynamic_thresholds := d;
     news_impact := news_impact w;
     indicator_rows := indicator_rows w;
     fibonacci_rows := fibonacci_rows w;
     stdout := stdout w; random := random w; random_pos := random_pos w |}.

Definition with_stdout (w : world) (o : list output) : world :=
  {| trade_log := trade_log w;
     trade_log_auto_increment := trade_log_auto_increment w;
     indicators_effect := indicators_effect w;
     performance_log := performance_log w;
     dynamic_thresholds := dynamic_thresholds w;
     news_impact := news_impact w;
     indicator_rows := indicator_rows w;
     fibonacci_rows := fibonacci_rows w;
     stdout := o; random := random w; random_pos := random_pos w |}.

Definition with_random_pos (w : world) (n : nat) : world :=
  {| trade_log := trade_log w;
     trade_log_auto_increment := trade_log_auto_increment w;
     indicators_effect := indicators_effect w;
     performance_log := performance_log w;
     dynamic_thresholds := dynamic_thresholds w;
     news_impact := news_impact w;
     indicator_rows := indicator_rows w;
     fibonacci_rows := fibonacci_rows w;
     stdout := stdout w; random := random w; random_pos := n |}.

(** *** Computations: a state monad with exceptions

    A raised exception keeps the world reached so far: every statement of
    the source commits as it goes. *)

Inductive exn : Type := KeyError (key : string).

Inductive outcome (A : Type) : Type :=
| Returned (a : A)
| Raised (e : exn).
Arguments Returned {A} a.
Arguments Raised {A} e.

Definition M (A : Type) : Type := world -> outcome A * world.

Definition ret {A : Type} (a : A) : M A := fun w => (Returned a, w).

Definition raise {A : Type} (e : exn) : M A := fun w => (Raised e, w).

Definition bind {A B : Type} (m : M A) (k : A -> M B) : M B :=
  fun w =>
    match m w with
    | (Returned a, w') => k a w'
    | (Raised e, w') => (Raised e, w')
    end.

Declare Scope prog_scope.
Delimit Scope prog_scope with prog.
Notation "x <- m ;; k" := (bind m (fun x => k))
  (at level 61, m at next level, right associativity) : prog_scope.
Notation "m ;; k" := (bind m (fun _ => k))
  (at level 61, right associativity) : prog_scope.
Local Open Scope prog_scope.

Definition print (o : output) : M unit :=
  fun w => (Returned tt, with_stdout w (stdout w ++ [o])).

(** [d[key]]. *)
Definition subscript (key : string) (d : Py.dict Q) : M Q :=
  match Py.get key d with
  | Some v => ret v
  | None => raise (KeyError key)
  end.

(** [uniform(a, b)]: consumes the next draw of [random()]. *)
Definition uniform (a b : Q) : M Q :=
  fun w => (Returned (Py.uniform_of a b (random w (random_pos w))),
            with_random_pos w (S (random_pos w))).

(** *** ts1 [log_trade_action]

    [INSERT INTO trade_log (...)] followed by [SELECT LAST_INSERT_ID()].
    The column [performance_score] is not in the column list. *)
Definition log_trade_action (act : action) (currency : string)
    (indicators : Py.dict Q) (result : Q) (position_size : Z)
    (risk_level strategy : string) : M Z :=
  fun w =>
    let trade_id := trade_log_auto_increment w in
    let row :=
      {| tr_id := trade_id; tr_action := act; tr_currency := currency;
         tr_sma := Py.get "SMA" indicators;
         tr_rsi := Py.get "RSI" indicators;
         tr_macd := Py.get "MACD" indicators;
         tr_bollinger_band := Py.get "Bollinger Band" indicators;
         tr_ema := Py.get "EMA" indicators;
         tr_result := result; tr_position_size := position_size;
         tr_risk_level := risk_level; tr_strategy := strategy;
         tr_performance_score := None |} in
    (Returned trade_id, with_trade_log w (trade_log w ++ [row]) (trade_id + 1)%Z).

(** *** ts2 [delete_bad_decision]: [DELETE FROM trade_log WHERE id = %s]. *)
Definition delete_bad_decision (trade_id : Z) : M unit :=
  fun w =>
    (Returned tt,
     with_trade_log w
       (filter (fun r => negb (tr_id r =? trade_id)%Z) (trade_log w))
       (trade_log_auto_increment w)).

(** *** ts3 [log_indicator_effect]: [INSERT INTO indicators_effect]. *)
Definition log_indicator_effect (indicator_name : string) (value : Q)
    (impact : string) : M unit :=
  fun w =>
    (Returned tt,
     with_indicators_effect w
       (indicators_effect w ++ [(indicator_name, value, impact)])).

(** *** ts4 [log_performance]: [INSERT INTO performance_log]. *)
Definition log_performance (trade_id : Z) (profit_loss : Q) : M unit :=
  fun w =>
    (Returned tt,
     with_performance_log w (performance_log w ++ [(trade_id, profit_loss)])).

(** *** ts9 [get_dynamic_thresholds]

    [SELECT ... FROM dynamic_thresholds WHERE currency = %s], [fetchone()],
    and the default dict when no row comes back. *)
Definition default_thresholds : thresholds :=
  {| th_SMA := 50; th_RSI_buy := 30; th_RSI_sell := 70;
     th_MACD := 0; th_Bollinger_band := -2; th_EMA := 0 |}.

Definition get_dynamic_thresholds (currency : string) : M thresholds :=
  fun w =>
    match find (fun r => (fst r =? currency)%string) (dynamic_thresholds w) with
    | Some r => (Returned (snd r), w)
    | None => (Returned default_thresholds, w)
    end.

(** *** ts11 [save_dynamic_thresholds]

    [UPDATE dynamic_thresholds SET ... WHERE currency = %s]: every row of
    the currency gets the six columns; there is no INSERT. *)
Definition save_dynamic_thresholds (currency : string) (t : thresholds) : M unit :=
  fun w =>
    (Returned tt,
     with_dynamic_thresholds w
       (map (fun r => if (fst r =? currency)%string then (fst r, t) else r)
            (dynamic_thresholds w))).

(** *** ts10 [update_dynamic_thresholds] *)
Definition aggressive_thresholds : thresholds :=
  {| th_SMA := 55; th_RSI_buy := 32; th_RSI_sell := 68;
     th_MACD := 1 # 10; th_Bollinger_band := - (5 # 2); th_EMA := 1 # 20 |}.

Definition conservative_thresholds : thresholds :=
  {| th_SMA := 45; th_RSI_buy := 28; th_RSI_sell := 72;
     th_MACD := - (1 # 10); th_Bollinger_band := - (3 # 2);
     th_EMA := - (1 # 20) |}.

Definition update_dynamic_thresholds (currency : string)
    (performance_score : Q) : M unit :=
  let new_thresholds :=
    if Py.gtb performance_score 0 then aggressive_thresholds
    else conservative_thresholds in
  save_dynamic_thresholds currency new_thresholds.

(** *** ts13 [evaluate_trade] *)
Definition evaluate_trade (act : action) (currency : string) : M Q :=
  match act with
  | buy | sell =>
      print (EvaluatingTrade currency act) ;;
      x <- uniform (-50) 100 ;;
      ret (Py.round2 x)
  | hold => ret 0
  end.

(** *** ts15 [execute_trade] *)
Definition execute_trade (currency : string) (act : action) : M unit :=
  match act with
  | buy => print (Executing buy currency)
  | sell => print (Executing sell currency)
  | hold => print NoTradeExecuted
  end.

(** *** ts16 [update_bad_decision]

    [UPDATE trade_log SET action = %s, performance_score = %s WHERE id = %s]. *)
Definition update_bad_decision (trade_id : Z) (new_action : action)
    (performance_score : Q) : M unit :=
  fun w =>
    (Returned tt,
     with_trade_log w
       (map (fun r =>
               if (tr_id r =? trade_id)%Z then
                 {| tr_id := tr_id r; tr_action := new_action;
                    tr_currency := tr_currency r;
                    tr_sma := tr_sma r; tr_rsi := tr_rsi r;
                    tr_macd := tr_macd r;
                    tr_bollinger_band := tr_bollinger_band r;
                    tr_ema := tr_ema r; tr_result := tr_result r;
                    tr_position_size := tr_position_size r;
                    tr_risk_level := tr_risk_level r;
                    tr_strategy := tr_strategy r;
                    tr_performance_score := Some performance_score |}
               else r)
            (trade_log w))
       (trade_log_auto_increment w)).

(** *** ts14 [make_trading_decision] *)

(** One pass of the [if]/[elif] chain in the body of the [for] loop. *)
Definition signal_rule (t : thresholds) (indicator : string) (value : Q)
    (act : action) : action :=
  if (indicator =? "SMA")%string && Py.gtb value (th_SMA t) then buy
  else if (indicator =? "RSI")%string && Py.ltb value (th_RSI_buy t) then buy
  else if (indicator =? "RSI")%string && Py.gtb value (th_RSI_sell t) then sell
  else if (indicator =? "MACD")%string && Py.gtb value (th_MACD t) then buy
  else if (indicator =? "Bollinger_upper")%string
          && Py.ltb value (th_Bollinger_band t) then buy
  else if (indicator =? "EMA")%string && Py.gtb value (th_EMA t) then buy
  else act.

(** The [for indicator, value in indicators.items()] loop. *)
Fixpoint evaluate_indicators (t : thresholds) (impact : string)
    (items : Py.dict Q) (act : action) : M action :=
  match items with
  | [] => ret act
  | (indicator, value) :: rest =>
      log_indicator_effect indicator value impact ;;
      evaluate_indicators t impact rest (signal_rule t indicator value act)
  end.

(** The Fibonacci [if]/[elif]; [a < b < c] evaluates [a < b] and then,
    only when that holds, [b < c]. *)
Definition range_filter (indicators : Py.dict Q) (fib : fibonacci_levels)
    (act : action) : M action :=
  s <- subscript "SMA" indicators ;;
  if Py.ltb (level_38_2 fib) s && Py.ltb s (level_61_8 fib) then ret buy
  else
    s' <- subscript "SMA" indicators ;;
    if Py.ltb (level_50_0 fib) s' && Py.ltb s' (level_100 fib) then ret sell
    else ret act.

(** The action of the cycle: the loop, then the Fibonacci override. *)
Definition decide (t : thresholds) (impact : string) (indicators : Py.dict Q)
    (fib : fibonacci_levels) : M action :=
  act <- evaluate_indicators t impact indicators hold ;;
  range_filter indicators fib act.

(** The handling of failed decisions at the end of the cycle. *)
Definition handle_failed_decision (trade_id : Z) (profit_loss : Q) : M unit :=
  if Py.ltb profit_loss 0 then
    update_bad_decision trade_id hold 0 ;;
    print (UpdatedBadDecision trade_id)
  else if Py.ltb profit_loss (-10) then
    delete_bad_decision trade_id ;;
    print (DeletedBadDecision trade_id)
  else ret tt.

Definition make_trading_decision (news_title currency impact : string)
    (indicators : Py.dict Q) (fib : fibonacci_levels) : M unit :=
  print (AnalyzingNews news_title currency) ;;
  let strategy := "dynamic" in
  let performance_score := 0 in
  dynamic_thresholds <- get_dynamic_thresholds currency ;;
  act <- decide dynamic_thresholds impact indicators fib ;;
  result <- evaluate_trade act currency ;;
  trade_id <- log_trade_action act currency indicators result 100 "medium"
                strategy ;;
  let profit_loss := result in
  log_performance trade_id profit_loss ;;
  update_dynamic_thresholds currency performance_score ;;
  handle_failed_decision trade_id profit_loss ;;
  if negb (action_eqb act hold) then execute_trade currency act else ret tt.

(** *** ts12 [fetch_news_and_impact] *)

(** The dict [indicators] built from a row of the indicator query. *)
Definition indicators_of (d : indicator_data) : Py.dict Q :=
  [ ("SMA", sma_value d);
    ("RSI", rsi d);
    ("MACD", macd_value d);
    ("Bollinger Band - Upper", upper_band d);
    ("Bollinger Band - Middle", middle_band d);
    ("Bollinger Band - Lower", lower_band d);
    ("Bollinger Band Period", bb_period d);
    ("Bollinger Band Deviation", bb_deviation d);
    ("EMA", ema_value d) ].

(** [cursor.execute(... WHERE ohlc_data.timestamp = %s, (title,))] and
    [fetchone()], for the indicator query and for the Fibonacci query. *)
Definition fetchone {R : Type} (key : string) (rows : list (string * R))
    : option R :=
  option_map snd (find (fun r => (fst r =? key)%string) rows).

(** The body of [for row in results]. *)
Definition news_iteration (row : news_impact_row) : M unit :=
  let title := ni_title row in
  let currency := ni_currency row in
  let impact := ni_impact row in
  print (NewsTitle title) ;;
  print (NewsValues currency (ni_actual row) (ni_forecast row)
           (ni_previous row)) ;;
  print (ImpactLevel impact) ;;
  print Separator ;;
  fun w =>
    match fetchone title (indicator_rows w) with
    | Some indicator_data =>
        let indicators := indicators_of indicator_data in
        match fetchone title (fibonacci_rows w) with
        | Some fibonacci_data =>
            make_trading_decision title currency impact indicators
              fibonacci_data w
        | None => (Returned tt, w)
        end
    | None => (Returned tt, w)
    end.

Fixpoint for_each {A : Type} (body : A -> M unit) (l : list A) : M unit :=
  match l with
  | [] => ret tt
  | x :: rest => body x ;; for_each body rest
  end.

Definition fetch_news_and_impact : M unit :=
  fun w => for_each news_iteration (news_impact w) w.

(** ** data_collector.py *)

Module DataCollector.

(** An element of the list [news_data] built by the scraper. *)
Record news_item : Type := {
  date : string;
  time : string;
  event : string;
  impact : string;
  currency : string;
  actual : string;
  forecast : string;
  previous : string
}.

(** A row of the table [news_data]. *)
Record news_row : Type := {
  news_time : string;
  title : string;
  nr_impact : string;
  nr_currency : string;
  nr_actual : string;
  nr_forecast : string;
  nr_previous : string;
  impact_id : option Z
}.

Inductive output : Type :=
| ErrorCombining
| NewsInserted (event : string).

(** The table [news_data] and the terminal. *)
Record state : Type := {
  news_data : list news_row;
  stdout : list output
}.

Section InsertNews.

(** The [try] block that parses [date] and [time] with [strptime] and
    formats the combined [datetime] as [%Y-%m-%d %H:%M:%S]; [None]
    when the block raises.  The year comes from the wall clock. *)
Variable combine_date_time : string -> string -> option string.

Definition impact_id_of (impact : string) : option Z :=
  if (impact =? "Low Impact Expected")%string then Some 1%Z
  else if (impact =? "Medium Impact Expected")%string then Some 2%Z
  else if (impact =? "High Impact Expected")%string then Some 3%Z
  else None.

(** [SELECT COUNT( * ) FROM news_data WHERE title = %s AND news_time = %s]. *)
Definition count_news (ttl tm : string) (table : list news_row) : nat :=
  List.length
    (filter (fun r => (title r =? ttl)%string && (news_time r =? tm)%string)
            table).

(** The body of [for news_item in news_data]. *)
Definition insert_news_item (s : state) (it : news_item) : state :=
  let raw_time := time it in
  let current_date := date it in
  if (raw_time =? "")%string || (current_date =? "")%string then s
  else
    match combine_date_time current_date raw_time with
    | None =>
        {| news_data := news_data s;
           stdout := stdout s ++ [ErrorCombining] |}
    | Some tm =>
        let iid := impact_id_of (impact it) in
        let exists_ := count_news (event it) tm (news_data s) in
        if Nat.eqb exists_ 0 then
          {| news_data :=
               news_data s ++
               [ {| news_time := tm; title := event it;
                    nr_impact := impact it; nr_currency := currency it;
                    nr_actual := actual it; nr_forecast := forecast it;
                    nr_previous := previous it; impact_id := iid |} ];
             stdout := stdout s ++ [NewsInserted (event it)] |}
        else s
    end.

Definition insert_news_data (items : list news_item) (s : state) : state :=
  fold_left insert_news_item items s.

(** The item passes the emptiness test and its date and time parse to
    the timestamp [tm]. *)
Definition event_time (it : news_item) (tm : string) : Prop :=
  time it <> "" /\ date it <> "" /\
  combine_date_time (date it) (time it) = Some tm.

End InsertNews.

End DataCollector.


(** ** Vocabulary of the statements *)

(** The currency has a row in [dynamic_thresholds]. *)
Definition seeded (currency : string) (w : world) : Prop :=
  exists r, In r (dynamic_thresholds w) /\ fst r = currency.

(** The thresholds [get_dynamic_thresholds] reads from the table. *)
Definition stored_thresholds (currency : string) (rows : list threshold_row)
    : thresholds :=
  match find (fun r => (fst r =? currency)%string) rows with
  | Some r => snd r
  | None => default_thresholds
  end.

(** The action left by the [for] loop, without its logging. *)
Definition signals (t : thresholds) (items : Py.dict Q) (act : action)
    : action :=
  fold_left (fun a kv => signal_rule t (fst kv) (snd kv) a) items act.

(** The rows the [for] loop appends to [indicators_effect]. *)
Definition effects_of (impact : string) (items : Py.dict Q)
    : list effect_row :=
  map (fun kv => (fst kv, snd kv, impact)) items.

(** What [make_trading_decision] does once the action is chosen: the
    statements from [evaluate_trade] to [execute_trade]. *)
Definition settle (currency : string) (indicators : Py.dict Q)
    (act : action) : M unit :=
  result <- evaluate_trade act currency ;;
  trade_id <- log_trade_action act currency indicators result 100 "medium"
                "dynamic" ;;
  log_performance trade_id result ;;
  update_dynamic_thresholds currency 0 ;;
  handle_failed_decision trade_id result ;;
  if negb (action_eqb act hold) then execute_trade currency act else ret tt.

(** The action after the Fibonacci [if]/[elif] on an SMA reading [s]. *)
Definition override (fib : fibonacci_levels) (s : Q) (act : action) : action :=
  if Py.ltb (level_38_2 fib) s && Py.ltb s (level_61_8 fib) then buy
  else if Py.ltb (level_50_0 fib) s && Py.ltb s (level_100 fib) then sell
  else act.

(** The two Fibonacci bands around an SMA reading [s]. *)
Definition in_buy_band (fib : fibonacci_levels) (s : Q) : Prop :=
  level_38_2 fib < s /\ s < level_61_8 fib.

Definition in_sell_band (fib : fibonacci_levels) (s : Q) : Prop :=
  level_50_0 fib < s /\ s < level_100 fib.

(** The voting rules of the Signal Evaluator, one constructor per rule:
    [rule t name value a] says that the reading [value] of the indicator
    [name] meets the condition of a rule that votes [a]. *)
Inductive rule (t : thresholds) : string -> Q -> action -> Prop :=
| rule_SMA v : th_SMA t < v -> rule t "SMA" v buy
| rule_RSI_buy v : v < th_RSI_buy t -> rule t "RSI" v buy
| rule_RSI_sell v : th_RSI_sell t < v -> rule t "RSI" v sell
| rule_MACD v : th_MACD t < v -> rule t "MACD" v buy
| rule_Bollinger v :
    v < th_Bollinger_band t -> rule t "Bollinger_upper" v buy
| rule_EMA v : th_EMA t < v -> rule t "EMA" v buy.

(** No rule condition holds for any reading of [items]. *)
Definition silent (t : thresholds) (items : Py.dict Q) : Prop :=
  forall name v a, In (name, v) items -> ~ rule t name v a.

(** [a] is the vote of the last reading of [items] that meets a rule
    condition, and [hold] when there is none. *)
Inductive last_vote (t : thresholds) : Py.dict Q -> action -> Prop :=
| last_vote_none items : silent t items -> last_vote t items hold
| last_vote_at before name v after a :
    rule t name v a -> silent t after ->
    last_vote t (before ++ (name, v) :: after) a.

(** The five readings in the documented order. *)
Definition readings (s r m b e : Q) : Py.dict Q :=
  [ ("SMA", s); ("RSI", r); ("MACD", m); ("Bollinger_upper", b); ("EMA", e) ].

(** A row of the indicator query with another upper band. *)
Definition with_upper_band (d : indicator_data) (b : Q) : indicator_data :=
  {| sma_value := sma_value d; rsi := rsi d; macd_value := macd_value d;
     upper_band := b; middle_band := middle_band d;
     lower_band := lower_band d; bb_period := bb_period d;
     bb_deviation := bb_deviation d; ema_value := ema_value d |}.

(** The four lines printed for every news row. *)
Definition news_header (row : news_impact_row) : list output :=
  [ NewsTitle (ni_title row);
    NewsValues (ni_currency row) (ni_actual row) (ni_forecast row)
      (ni_previous row);
    ImpactLevel (ni_impact row);
    Separator ].

(** ** Sample data *)

Module Sample.

(** An empty database; the next draw of [random()] is [u]. *)
Definition empty_world (u : Q) : world :=
  {| trade_log := []; trade_log_auto_increment := 1;
     indicators_effect := []; performance_log := [];
     dynamic_thresholds := [];
     news_impact := []; indicator_rows := []; fibonacci_rows := [];
     stdout := []; random := fun _ => u; random_pos := 0 |}.

(** The same with a threshold row for EURUSD. *)
Definition seeded_world (u : Q) : world :=
  with_dynamic_thresholds (empty_world u) [("EURUSD", default_thresholds)].

(** SMA 60, RSI 25, MACD 0.2, Bollinger upper -3, EMA 0.1. *)
Definition indicators : Py.dict Q :=
  readings 60 25 (2 # 10) (-3) (1 # 10).

(** 38.2 % at 55 and 61.8 % at 65: an SMA of 60 is in the buy band;
    50 % at 58 and 100 % at 100: it is in the sell band as well. *)
Definition fib_both : fibonacci_levels :=
  {| level_23_6 := 50; level_38_2 := 55; level_50_0 := 58;
     level_61_8 := 65; level_100 := 100 |}.

(** An SMA of 60 is in the sell band only. *)
Definition fib_sell : fibonacci_levels :=
  {| level_23_6 := 30; level_38_2 := 40; level_50_0 := 50;
     level_61_8 := 60; level_100 := 100 |}.

Definition row : indicator_data :=
  {| sma_value := 60; rsi := 25; macd_value := 2 # 10;
     upper_band := -3; middle_band := -4; lower_band := -5;
     bb_period := 20; bb_deviation := 2; ema_value := 1 # 10 |}.

Definition news : news_impact_row :=
  {| ni_title := "2024-01-05 13:30:00"; ni_currency := "EURUSD";
     ni_actual := "216K"; ni_forecast := "170K"; ni_previous := "173K";
     ni_impact := "High Impact Expected" |}.

(** A database with the indicator row of the news item and without
    its Fibonacci row. *)
Definition world_without_fibonacci : world :=
  {| trade_log := []; trade_log_auto_increment := 1;
     indicators_effect := []; performance_log := [];
     dynamic_thresholds := [];
     news_impact := [news];
     indicator_rows := [("2024-01-05 13:30:00", row)];
     fibonacci_rows := [("2024-01-04 13:30:00", fib_both)];
     stdout := []; random := fun _ => 1 # 2; random_pos := 0 |}.

(** The same with the Fibonacci row. *)
Definition world_with_fibonacci : world :=
  {| trade_log := []; trade_log_auto_increment := 1;
     indicators_effect := []; performance_log := [];
     dynamic_thresholds := [];
     news_impact := [news];
     indicator_rows := [("2024-01-05 13:30:00", row)];
     fibonacci_rows := [("2024-01-05 13:30:00", fib_both)];
     stdout := []; random := fun _ => 1 # 2; random_pos := 0 |}.

(** A stand-in for the date and time parser: it refuses the time
    25:61 and otherwise glues the year, the date and the time. *)
Definition combine (date time : string) : option string :=
  if (time =? "25:61")%string then None
  else Some (String.append "2024 "
               (String.append date (String.append " " time))).

(** The same release scraped twice, the second time with its actual
    figure. *)
Definition release : DataCollector.news_item :=
  {| DataCollector.date := "FriJan 5";
     DataCollector.time := "01:30PM";
     DataCollector.event := "Non-Farm Employment Change";
     DataCollector.impact := "High Impact Expected";
     DataCollector.currency := "USD";
     DataCollector.actual := "";
     DataCollector.forecast := "170K";
     DataCollector.previous := "173K" |}.

Definition release_again : DataCollector.news_item :=
  {| DataCollector.date := "FriJan 5";
     DataCollector.time := "01:30PM";
     DataCollector.event := "Non-Farm Employment Change";
     DataCollector.impact := "High Impact Expected";
     DataCollector.currency := "USD";
     DataCollector.actual := "216K";
     DataCollector.forecast := "170K";
     DataCollector.previous := "173K" |}.

Definition no_news : DataCollector.state :=
  {| DataCollector.news_data := []; DataCollector.stdout := [] |}.

End Sample.

(** ** Further vocabulary *)

(** Every row of [trade_log] has an identifier below the AUTO_INCREMENT
    counter, as MySQL keeps it. *)
Definition fresh_ids (w : world) : Prop :=
  forall r, In r (trade_log w) -> (tr_id r < trade_log_auto_increment w)%Z.

(** The row [log_trade_action] inserts. *)
Definition new_trade_row (trade_id : Z) (act : action) (currency : string)
    (indicators : Py.dict Q) (result : Q) : trade_row :=
  {| tr_id := trade_id; tr_action := act; tr_currency := currency;
     tr_sma := Py.get "SMA" indicators;
     tr_rsi := Py.get "RSI" indicators;
     tr_macd := Py.get "MACD" indicators;
     tr_bollinger_band := Py.get "Bollinger Band" indicators;
     tr_ema := Py.get "EMA" indicators;
     tr_result := result; tr_position_size := 100;
     tr_risk_level := "medium"; tr_strategy := "dynamic";
     tr_performance_score := None |}.

(** The same row after [update_bad_decision trade_id hold 0]. *)
Definition corrected_trade_row (trade_id : Z) (currency : string)
    (indicators : Py.dict Q) (result : Q) : trade_row :=
  {| tr_id := trade_id; tr_action := hold; tr_currency := currency;
     tr_sma := Py.get "SMA" indicators;
     tr_rsi := Py.get "RSI" indicators;
     tr_macd := Py.get "MACD" indicators;
     tr_bollinger_band := Py.get "Bollinger Band" indicators;
     tr_ema := Py.get "EMA" indicators;
     tr_result := result; tr_position_size := 100;
     tr_risk_level := "medium"; tr_strategy := "dynamic";
     tr_performance_score := Some 0 |}.

(** The news item has a row in the indicator query and in the Fibonacci
    query. *)
Definition has_data (w : world) (row : news_impact_row) : bool :=
  match fetchone (ni_title row) (indicator_rows w),
        fetchone (ni_title row) (fibonacci_rows w) with
  | Some _, Some _ => true
  | _, _ => false
  end.

(** The action a cycle settles on when the SMA reading is [s]. *)
Definition cycle_action (currency : string) (indicators : Py.dict Q)
    (fib : fibonacci_levels) (s : Q) (w : world) : action :=
  override fib s
    (signals (stored_thresholds currency (dynamic_thresholds w))
       indicators hold).

(** The profit or loss [evaluate_trade] simulates for that action from the
    next draw of the world. *)
Definition cycle_profit (act : action) (w : world) : Q :=
  match act with
  | hold => 0
  | _ => Py.round2 (Py.uniform_of (-50) 100 (random w (random_pos w)))
  end.

(** The SET clause of [update_bad_decision] on one row. *)
Definition correct_row (trade_id : Z) (new_action : action)
    (performance_score : Q) (r : trade_row) : trade_row :=
  if (tr_id r =? trade_id)%Z then
    {| tr_id := tr_id r; tr_action := new_action;
       tr_currency := tr_currency r;
       tr_sma := tr_sma r; tr_rsi := tr_rsi r; tr_macd := tr_macd r;
       tr_bollinger_band := tr_bollinger_band r;
       tr_ema := tr_ema r; tr_result := tr_result r;
       tr_position_size := tr_position_size r;
       tr_risk_level := tr_risk_level r;
       tr_strategy := tr_strategy r;
       tr_performance_score := Some performance_score |}
  else r.

(** The events of the 'News inserted' lines among the printed lines. *)
Definition inserted_events (outs : list DataCollector.output) : list string :=
  flat_map (fun o => match o with
                     | DataCollector.NewsInserted e => [e]
                     | DataCollector.ErrorCombining => []
                     end) outs.

(** The item cannot add a row to the table: it fails the emptiness test,
    or its date and time do not parse, or its title and timestamp are on
    record. *)
Definition absorbed (combine : string -> string -> option string)
    (table : list DataCollector.news_row) (it : DataCollector.news_item)
    : Prop :=
  DataCollector.time it = "" \/ DataCollector.date it = "" \/
  combine (DataCollector.date it) (DataCollector.time it) = None \/
  exists tm,
    combine (DataCollector.date it) (DataCollector.time it) = Some tm /\
    DataCollector.count_news (DataCollector.event it) tm table <> 0%nat.

(** The item is dropped before the table is consulted. *)
Definition rejected (combine : string -> string -> option string)
    (it : DataCollector.news_item) : Prop :=
  DataCollector.time it = "" \/ DataCollector.date it = "" \/
  combine (DataCollector.date it) (DataCollector.time it) = None.

(** ** data_collector.py: the ingestion endpoint

    [clean_raw_data], the seven INSERT functions and the route
    [receive_ohlc_data].  The library calls are parameters of the
    embedding: the UTF-8 decoder, the character tests of [str],
    [json.loads], the timestamp parser.  Unlike in the first part, an
    INSERT may fail here: the verdict of the database on a row is the
    parameter [accepts], and a refused row takes the [except] branch of
    its function.  The news thread the route starts is counted, not
    run. *)

Module Ingest.

#[local] Set Warnings "-register-all".

(** A value produced by [json.loads]. *)
Inductive json : Type :=
| JNull
| JBool (b : bool)
| JNum (q : Q)
| JStr (s : string)
| JArr (items : list json)
| JObj (fields : list (string * json)).

(** [bool(v)], the test [all] applies to each element. *)
Definition truthy (v : json) : bool :=
  match v with
  | JNull => false
  | JBool b => b
  | JNum q => negb (Qeq_bool q 0)
  | JStr s => negb (s =? "")%string
  | JArr items => match items with [] => false | _ => true end
  | JObj fields => match fields with [] => false | _ => true end
  end.

(** A row as its INSERT statement writes it: the identifier (the
    AUTO_INCREMENT id of [ohlc_data], the column [ohlc_id] of the other
    tables) and the remaining columns in the order of the statement. *)
Definition row : Type := (Z * list json)%type.

Inductive output : Type :=
| Inserted (table : string)
| DatabaseError (table : string)
| JsonDecodingError
| MissingOrInvalidFields
| FailedToInsertOhlc
| ErrorProcessingData.

(** The database as the sequence of rows inserted so far, each with its
    table; the AUTO_INCREMENT counter of [ohlc_data]; the terminal; the
    number of news threads started. *)
Record server : Type := {
  rows : list (string * row);
  ohlc_auto_increment : Z;
  console : list output;
  news_threads : nat
}.

(** The rows of one table, in insertion order. *)
Definition table (name : string) (s : server) : list row :=
  map snd (filter (fun r => (fst r =? name)%string) (rows s)).

(** The HTTP answer: status code and the pair of the JSON body. *)
Definition response : Type := (Z * (string * string))%type.

(** The text of a request body: a sequence of code points. *)
Definition text : Type := list N.

Fixpoint drop_while {A : Type} (f : A -> bool) (l : list A) : list A :=
  match l with
  | [] => []
  | x :: rest => if f x then drop_while f rest else l
  end.

Section Endpoint.

(** [bytes.decode('utf-8', errors='ignore')]. *)
Variable decode : list Byte.byte -> text.

(** [str.isprintable] and [str.isspace] on one character. *)
Variable isprintable : N -> bool.
Variable isspace : N -> bool.

(** [json.loads]; [None] when it raises. *)
Variable loads : text -> option json.

(** [datetime.strptime(s, '%Y.%m.%d %H:%M')] followed by
    [strftime('%Y-%m-%d %H:%M:%S')]; [None] when the parse raises. *)
Variable reformat_timestamp : string -> option string.

(** Whether the database executes the INSERT of these columns into this
    table; when it does not, [execute] raises [pymysql.MySQLError]. *)
Variable accepts : string -> list json -> bool.

(** *** dc9 [clean_raw_data] *)

(** [s.strip()]. *)
Definition strip (s : text) : text :=
  rev (drop_while isspace (rev (drop_while isspace s))).

Definition clean_raw_data (raw_data : list Byte.byte) : text :=
  let decoded_data := decode raw_data in
  (* re.sub(r'[^\x00-\x7F]+', '', decoded_data) *)
  let cleaned_data := filter (fun c => (c <=? 127)%N) decoded_data in
  (* .replace('\x00', '').replace('\r', '').replace('\n', '') *)
  let cleaned_data := filter (fun c => negb (c =? 0)%N) cleaned_data in
  let cleaned_data := filter (fun c => negb (c =? 13)%N) cleaned_data in
  let cleaned_data := filter (fun c => negb (c =? 10)%N) cleaned_data in
  let cleaned_data := filter isprintable cleaned_data in
  strip cleaned_data.

(** *** dc2 to dc8: the INSERT functions *)

(** The common body of the seven functions: [execute], [commit] and the
    success message, or the message of the [except] branch. *)
Definition insert_row (name : string) (id : Z) (columns : list json)
    (s : server) : server :=
  if accepts name columns then
    {| rows := rows s ++ [(name, (id, columns))];
       ohlc_auto_increment := ohlc_auto_increment s;
       console := console s ++ [Inserted name];
       news_threads := news_threads s |}
  else
    {| rows := rows s;
       ohlc_auto_increment := ohlc_auto_increment s;
       console := console s ++ [DatabaseError name];
       news_threads := news_threads s |}.

(** [insert_ohlc_data] returns [cursor.lastrowid], and [None] from the
    [except] branch. *)
Definition insert_ohlc_data (timestamp open_price high low close volume
    currency_pair : json) (s : server) : option Z * server :=
  let columns := [timestamp; open_price; high; low; close; volume;
                  currency_pair] in
  if accepts "ohlc_data" columns then
    let id := ohlc_auto_increment s in
    (Some id,
     {| rows := rows s ++ [("ohlc_data", (id, columns))];
        ohlc_auto_increment := (id + 1)%Z;
        console := console s ++ [Inserted "ohlc_data"];
        news_threads := news_threads s |})
  else
    (None,
     {| rows := rows s;
        ohlc_auto_increment := ohlc_auto_increment s;
        console := console s ++ [DatabaseError "ohlc_data"];
        news_threads := news_threads s |}).

Definition insert_ema_data (ohlc_id : Z) (ema_value ema_period : json) :=
  insert_row "ema_data" ohlc_id [ema_value; ema_period].

Definition insert_fibonacci_data (ohlc_id : Z)
    (fib_23_6 fib_38_2 fib_50 fib_61_8 fib_100 : json) :=
  insert_row "fibonacci_retracement_data" ohlc_id
    [fib_23_6; fib_38_2; fib_50; fib_61_8; fib_100].

Definition insert_bollinger_band_data (ohlc_id : Z)
    (upper_band middle_band lower_band bb_period bb_deviation : json) :=
  insert_row "bollinger_band_data" ohlc_id
    [upper_band; middle_band; lower_band; bb_period; bb_deviation].

Definition insert_rsi_data (ohlc_id : Z) (rsi rsi_period : json) :=
  insert_row "rsi_data" ohlc_id [rsi; rsi_period].

Definition insert_macd_data (ohlc_id : Z)
    (macd_value macd_signal macd_histogram : json) :=
  insert_row "macd_data" ohlc_id [macd_value; macd_signal; macd_histogram].

Definition insert_sma_data (ohlc_id : Z) (sma_value sma_period : json) :=
  insert_row "sma_data" ohlc_id [sma_value; sma_period].

(** *** dc10 [receive_ohlc_data] *)

(** [data.get(key)] and [data.get(key, default)] on a dict. *)
Definition get (key : string) (fields : list (string * json)) : json :=
  match Py.get key fields with
  | Some v => v
  | None => JNull
  end.

Definition get_default (key : string) (default : json)
    (fields : list (string * json)) : json :=
  match Py.get key fields with
  | Some v => v
  | None => default
  end.

(** [currency_pair[:6]]; [None] when the value cannot be sliced. *)
Definition first_six (v : json) : option json :=
  match v with
  | JStr s => Some (JStr (substring 0 6 s))
  | JArr items => Some (JArr (firstn 6 items))
  | _ => None
  end.

Definition say (o : output) (s : server) : server :=
  {| rows := rows s; ohlc_auto_increment := ohlc_auto_increment s;
     console := console s ++ [o]; news_threads := news_threads s |}.

(** The [except Exception] of the endpoint. *)
Definition internal_server_error (s : server) : response * server :=
  ((500%Z, ("error", "Internal Server Error")), say ErrorProcessingData s).

Definition receive_ohlc_data (raw_data : list Byte.byte) (s : server)
    : response * server :=
  let clean_data := clean_raw_data raw_data in
  match loads clean_data with
  | None =>
      ((400%Z, ("error", "Invalid JSON format")), say JsonDecodingError s)
  | Some (JObj data) =>
      let currency_pair := get "currency_pair" data in
      let timestamp := get "timestamp" data in
      let open_price := get "open" data in
      let high := get "high" data in
      let low := get "low" data in
      let close := get "close" data in
      let volume := get "volume" data in
      let rsi := get "rsi" data in
      let rsi_period := get_default "rsi_period" (JNum 14) data in
      let macd_value := get "macd_value" data in
      let macd_signal := get "macd_signal" data in
      let macd_histogram := get "macd_histogram" data in
      let sma := get "sma" data in
      let sma_period := get_default "sma_period" (JNum 14) data in
      let upper_band := get "upper_band" data in
      let middle_band := get "middle_band" data in
      let lower_band := get "lower_band" data in
      let bb_period := get_default "bb_period" (JNum 20) data in
      let bb_deviation := get_default "bb_deviation" (JNum 2) data in
      let ema_value := get "ema_value" data in
      let ema_period := get_default "ema_period" (JNum 14) data in
      let fib_23_6 := get "fib_23_6" data in
      let fib_38_2 := get "fib_38_2" data in
      let fib_50 := get "fib_50" data in
      let fib_61_8 := get "fib_61_8" data in
      let fib_100 := get "fib_100" data in
      if negb (forallb truthy
                 [currency_pair; timestamp; open_price; high; low; close;
                  volume; rsi; macd_value; macd_signal; macd_histogram; sma;
                  upper_band; middle_band; lower_band; ema_value; fib_23_6;
                  fib_38_2; fib_50; fib_61_8; fib_100])
      then
        ((400%Z, ("error", "Invalid data")), say MissingOrInvalidFields s)
      else
        match timestamp with
        | JStr stamp =>
            match reformat_timestamp stamp with
            | None => internal_server_error s
            | Some timestamp_str =>
                match first_six currency_pair with
                | None => internal_server_error s
                | Some currency_pair =>
                    match insert_ohlc_data (JStr timestamp_str) open_price
                            high low close volume currency_pair s with
                    | (Some ohlc_id, s1) =>
                        if (ohlc_id =? 0)%Z then
                          ((500%Z, ("error", "Database error")),
                           say FailedToInsertOhlc s1)
                        else
                          let s2 := insert_rsi_data ohlc_id rsi rsi_period s1 in
                          let s3 := insert_macd_data ohlc_id macd_value
                                      macd_signal macd_histogram s2 in
                          let s4 := insert_sma_data ohlc_id sma sma_period s3 in
                          let s5 := insert_bollinger_band_data ohlc_id
                                      upper_band middle_band lower_band
                                      bb_period bb_deviation s4 in
                          let s6 := insert_ema_data ohlc_id ema_value
                                      ema_period s5 in
                          let s7 := insert_fibonacci_data ohlc_id fib_23_6
                                      fib_38_2 fib_50 fib_61_8 fib_100 s6 in
                          ((200%Z, ("status", "success")),
                           {| rows := rows s7;
                              ohlc_auto_increment := ohlc_auto_increment s7;
                              console := console s7;
                              news_threads := S (news_threads s7) |})
                    | (None, s1) =>
                        ((500%Z, ("error", "Database error")),
                         say FailedToInsertOhlc s1)
                    end
                end
            end
        | _ => internal_server_error s
        end
  | Some _ => internal_server_error s
  end.

End Endpoint.

End Ingest.

(** ** trading_system.py: the readers of the ingested tables *)

Module Readers.

(** [cursor.execute(... WHERE ohlc_id = %s)] and [fetchone()] on one
    table: the columns of the first row of that identifier. *)
Definition fetchone (name : string) (ohlc_id : Z) (s : Ingest.server)
    : option (list Ingest.json) :=
  option_map snd
    (find (fun r : Ingest.row => (fst r =? ohlc_id)%Z) (Ingest.table name s)).

(** ts7 [get_fibonacci_retracement]: the dict of the five levels, and the
    empty dict when there is no row. *)
Definition get_fibonacci_retracement (ohlc_id : Z) (s : Ingest.server)
    : Py.dict Ingest.json :=
  match fetchone "fibonacci_retracement_data" ohlc_id s with
  | Some [fib_23_6; fib_38_2; fib_50; fib_61_8; fib_100] =>
      [ ("level_23_6", fib_23_6); ("level_38_2", fib_38_2);
        ("level_50_0", fib_50); ("level_61_8", fib_61_8);
        ("level_100", fib_100) ]
  | _ => []
  end.

(** ts6 [get_technical_indicators]: the join of the five indicator tables
    on [ohlc_id]; the empty dict when one of them has no row. *)
Definition get_technical_indicators (ohlc_id : Z) (s : Ingest.server)
    : Py.dict Ingest.json :=
  match fetchone "sma_data" ohlc_id s,
        fetchone "rsi_data" ohlc_id s,
        fetchone "macd_data" ohlc_id s,
        fetchone "bollinger_band_data" ohlc_id s,
        fetchone "ema_data" ohlc_id s with
  | Some [sma_value; _],
    Some [rsi; rsi_period],
    Some [macd_value; macd_signal; macd_histogram],
    Some [upper_band; middle_band; lower_band; _; _],
    Some [ema_value; _] =>
      [ ("SMA", sma_value); ("RSI", rsi); ("RSI_period", rsi_period);
        ("MACD", macd_value); ("MACD_signal", macd_signal);
        ("MACD_histogram", macd_histogram);
        ("Bollinger_upper", upper_band); ("Bollinger_middle", middle_band);
        ("Bollinger_lower", lower_band); ("EMA", ema_value) ]
  | _, _, _, _, _ => []
  end.

End Readers.

(** ** Vocabulary of the ingestion statements *)

(** Printable ASCII without a space at either end: what
    [clean_raw_data] returns. *)
Definition clean_text (s : Ingest.text) : Prop :=
  Forall (fun c => (32 <= c <= 126)%N) s /\
  hd_error s <> Some 32%N /\
  hd_error (rev s) <> Some 32%N.

(** [str.isprintable] and [str.isspace] as Python defines them on the
    ASCII characters. *)
Definition ascii_isprintable (isprintable : N -> bool) : Prop :=
  forall c, (c <= 127)%N ->
    isprintable c = ((32 <=? c)%N && (c <=? 126)%N)%bool.

Definition ascii_isspace (isspace : N -> bool) : Prop :=
  forall c, (c <= 127)%N ->
    isspace c = (((9 <=? c)%N && (c <=? 13)%N)
                 || ((28 <=? c)%N && (c <=? 32)%N))%bool.

(** The keys whose values go through the [all] test. *)
Definition required_keys : list string :=
  [ "currency_pair"; "timestamp"; "open"; "high"; "low"; "close"; "volume";
    "rsi"; "macd_value"; "macd_signal"; "macd_histogram"; "sma";
    "upper_band"; "middle_band"; "lower_band"; "ema_value"; "fib_23_6";
    "fib_38_2"; "fib_50"; "fib_61_8"; "fib_100" ].

(** The columns of the OHLC row of a payload, given the reformatted
    timestamp and the trimmed currency pair. *)
Definition ohlc_columns (data : list (string * Ingest.json))
    (timestamp_str : string) (currency_pair : Ingest.json)
    : list Ingest.json :=
  [ Ingest.JStr timestamp_str; Ingest.get "open" data; Ingest.get "high" data;
    Ingest.get "low" data; Ingest.get "close" data; Ingest.get "volume" data;
    currency_pair ].

(** The six indicator rows of a payload, in the order of the INSERTs. *)
Definition indicator_columns (data : list (string * Ingest.json))
    : list (string * list Ingest.json) :=
  [ ("rsi_data",
     [Ingest.get "rsi" data;
      Ingest.get_default "rsi_period" (Ingest.JNum 14) data]);
    ("macd_data",
     [Ingest.get "macd_value" data; Ingest.get "macd_signal" data;
      Ingest.get "macd_histogram" data]);
    ("sma_data",
     [Ingest.get "sma" data;
      Ingest.get_default "sma_period" (Ingest.JNum 14) data]);
    ("bollinger_band_data",
     [Ingest.get "upper_band" data; Ingest.get "middle_band" data;
      Ingest.get "lower_band" data;
      Ingest.get_default "bb_period" (Ingest.JNum 20) data;
      Ingest.get_default "bb_deviation" (Ingest.JNum 2) data]);
    ("ema_data",
     [Ingest.get "ema_value" data;
      Ingest.get_default "ema_period" (Ingest.JNum 14) data]);
    ("fibonacci_retracement_data",
     [Ingest.get "fib_23_6" data; Ingest.get "fib_38_2" data;
      Ingest.get "fib_50" data; Ingest.get "fib_61_8" data;
      Ingest.get "fib_100" data]) ].

(** The rows the endpoint stores for a payload under the identifier [id]:
    the OHLC row, then the indicator rows the database accepts. *)
Definition stored_rows (accepts : string -> list Ingest.json -> bool)
    (id : Z) (data : list (string * Ingest.json))
    (timestamp_str : string) (currency_pair : Ingest.json)
    : list (string * Ingest.row) :=
  ("ohlc_data", (id, ohlc_columns data timestamp_str currency_pair))
  :: map (fun nc => (fst nc, (id, snd nc)))
       (filter (fun nc => accepts (fst nc) (snd nc))
          (indicator_columns data)).

(** ** data_collector.py: the calendar scraper

    The loop of [fetch_news_with_selenium] over the rows of the calendar
    table, and its caller [fetch_news_with_selenium_and_store].  The
    browser and the HTML parser are outside the embedding: the page comes
    as the list of its rows, each row as the texts the loop extracts. *)

Module Scraper.

(** A row of the calendar table as the loop reads it: the stripped text
    of each cell, with the value the code puts in its place when the cell
    is missing (the empty string for date and time, 'N/A' for the
    others); [impact_title] is the title of the impact icon. *)
Record calendar_row : Type := {
  date_text : string;
  time_text : string;
  event_text : string;
  impact_title : string;
  currency_text : string;
  actual_text : string;
  forecast_text : string;
  previous_text : string
}.

Inductive output : Type :=
| CouldNotFindNews
| ErrorParsingTime (raw_time : string)
| ErrorDuringFetching
| NewsSavedToDatabase.

(** The table [news_data] with its terminal, and the terminal of the
    scraper. *)
Record session : Type := {
  database : DataCollector.state;
  terminal : list output
}.

(** The variables of the loop over the rows. *)
Record cursor : Type := {
  current_date : option string;
  current_time : string;
  news_data : list DataCollector.news_item;
  printed : list output
}.

Section Fetch.

(** [strptime(raw_time, '%I:%M%p')], on failure
    [strptime(raw_time, '%H:%M')], then [strftime('%I:%M%p')]; [None]
    when both parses raise. *)
Variable reformat_time : string -> option string.

(** The date and time parser of [insert_news_data]. *)
Variable combine_date_time : string -> string -> option string.

(** The body of [for row in news_rows]. *)
Definition read_row (c : cursor) (row : calendar_row) : cursor :=
  let current_date :=
    if negb (date_text row =? "")%string then Some (date_text row)
    else current_date c in
  match current_date with
  | None => c
  | Some date =>
      let raw_time :=
        if (time_text row =? "")%string then current_time c
        else time_text row in
      let current_time := raw_time in
      let raw_time :=
        if existsb (String.eqb raw_time)
             ["Day 1"; "Day 2"; "Tentative"; "All Day"]
        then "00:00" else raw_time in
      match reformat_time raw_time with
      | None =>
          {| current_date := Some date; current_time := current_time;
             news_data := news_data c;
             printed := printed c ++ [ErrorParsingTime raw_time] |}
      | Some formatted_time =>
          let event := event_text row in
          let impact := impact_title row in
          let currency := currency_text row in
          if existsb (String.eqb event) ["Edit"; "Copy"; "Delete"]
             || (impact =? "N/A")%string || (currency =? "N/A")%string
          then
            {| current_date := Some date; current_time := current_time;
               news_data := news_data c; printed := printed c |}
          else
            {| current_date := Some date; current_time := current_time;
               news_data :=
                 news_data c ++
                 [ {| DataCollector.date := date;
                      DataCollector.time := formatted_time;
                      DataCollector.event := event;
                      DataCollector.impact := impact;
                      DataCollector.currency := currency;
                      DataCollector.actual := actual_text row;
                      DataCollector.forecast := forecast_text row;
                      DataCollector.previous := previous_text row |} ];
               printed := printed c |}
      end
  end.

Definition read_rows (news_rows : list calendar_row) : cursor :=
  fold_left read_row news_rows
    {| current_date := None; current_time := "00:00"; news_data := [];
       printed := [] |}.

(** dc11 [fetch_news_with_selenium].  [page] is the list of rows found in
    the page, [None] when loading the page raises.  The result is what
    the function returns: [Some []] for its [return []], [None] when it
    ends without a [return]. *)
Definition fetch_news_with_selenium (page : option (list calendar_row))
    (s : session)
    : option (list DataCollector.news_item) * session :=
  match page with
  | None =>
      (None,
       {| database := database s;
          terminal := terminal s ++ [ErrorDuringFetching] |})
  | Some [] =>
      (Some [],
       {| database := database s;
          terminal := terminal s ++ [CouldNotFindNews] |})
  | Some news_rows =>
      let c := read_rows news_rows in
      let db :=
        match news_data c with
        | [] => database s
        | items =>
            DataCollector.insert_news_data combine_date_time items
              (database s)
        end in
      (None, {| database := db; terminal := terminal s ++ printed c |})
  end.

(** dc12 [fetch_news_with_selenium_and_store]. *)
Definition fetch_news_with_selenium_and_store
    (page : option (list calendar_row)) (s : session) : session :=
  let (news_data, s1) := fetch_news_with_selenium page s in
  match news_data with
  | Some (item :: items) =>
      {| database :=
           DataCollector.insert_news_data combine_date_time (item :: items)
             (database s1);
         terminal := terminal s1 ++ [NewsSavedToDatabase] |}
  | _ => s1
  end.

End Fetch.

End Scraper.

(** A scraped item is complete: it has a date, an impact and a currency,
    its event is not one of the page's buttons, and its time is a
    reformatted one. *)
Definition complete_item (reformat_time : string -> option string)
    (it : DataCollector.news_item) : Prop :=
  DataCollector.date it <> "" /\
  DataCollector.impact it <> "N/A" /\
  DataCollector.currency it <> "N/A" /\
  ~ In (DataCollector.event it) ["Edit"; "Copy"; "Delete"] /\
  exists raw_time, reformat_time raw_time = Some (DataCollector.time it).

(** What the loop of the scraper keeps true of its variables. *)
Definition scraper_invariant (reformat_time : string -> option string)
    (c : Scraper.cursor) : Prop :=
  (forall d, Scraper.current_date c = Some d -> d <> "") /\
  Forall (complete_item reformat_time) (Scraper.news_data c) /\
  Forall (fun o => exists t, o = Scraper.ErrorParsingTime t)
    (Scraper.printed c).

(** ** More sample data *)

Module Cases.

(** Readings that meet no rule of the default thresholds, with an SMA of
    40 below both Fibonacci bands of [Sample.fib_both]. *)
Definition quiet_indicators : Py.dict Q :=
  readings 40 50 (-1) 0 (-1).

(** An item whose time the stand-in parser refuses, and one without a
    date. *)
Definition bad_time : DataCollector.news_item :=
  {| DataCollector.date := "FriJan 5";
     DataCollector.time := "25:61";
     DataCollector.event := "Bank Holiday";
     DataCollector.impact := "Non-Economic";
     DataCollector.currency := "JPY";
     DataCollector.actual := "";
     DataCollector.forecast := "";
     DataCollector.previous := "" |}.

Definition no_date : DataCollector.news_item :=
  {| DataCollector.date := "";
     DataCollector.time := "01:30PM";
     DataCollector.event := "Unemployment Rate";
     DataCollector.impact := "High Impact Expected";
     DataCollector.currency := "USD";
     DataCollector.actual := "3.7%";
     DataCollector.forecast := "3.8%";
     DataCollector.previous := "3.7%" |}.

(** Stand-ins for the library functions of the endpoint: a decoder for
    ASCII bodies, the two character tests on ASCII, a parser that knows
    one body, a timestamp parser that appends the seconds. *)
Definition decode (raw : list Byte.byte) : Ingest.text := map Byte.to_N raw.

Definition isprintable (c : N) : bool := ((32 <=? c)%N && (c <=? 126)%N)%bool.

Definition isspace (c : N) : bool :=
  (((9 <=? c)%N && (c <=? 13)%N) || ((28 <=? c)%N && (c <=? 32)%N))%bool.

(** The body ' p', carriage return, line feed; cleaned it is 'p'. *)
Definition body : list Byte.byte :=
  [Byte.x20; Byte.x70; Byte.x0d; Byte.x0a].

Definition payload : list (string * Ingest.json) :=
  [ ("currency_pair", Ingest.JStr "EURUSDm");
    ("timestamp", Ingest.JStr "2024.01.05 13:30");
    ("open", Ingest.JNum (10921 # 10000));
    ("high", Ingest.JNum (10934 # 10000));
    ("low", Ingest.JNum (10915 # 10000));
    ("close", Ingest.JNum (10928 # 10000));
    ("volume", Ingest.JNum 1520);
    ("rsi", Ingest.JNum 61);
    ("macd_value", Ingest.JNum (3 # 10000));
    ("macd_signal", Ingest.JNum (2 # 10000));
    ("macd_histogram", Ingest.JNum (1 # 10000));
    ("sma", Ingest.JNum (10920 # 10000));
    ("upper_band", Ingest.JNum (10950 # 10000));
    ("middle_band", Ingest.JNum (10920 # 10000));
    ("lower_band", Ingest.JNum (10890 # 10000));
    ("bb_period", Ingest.JNum 25);
    ("ema_value", Ingest.JNum (10922 # 10000));
    ("fib_23_6", Ingest.JNum (10900 # 10000));
    ("fib_38_2", Ingest.JNum (10910 # 10000));
    ("fib_50", Ingest.JNum (10920 # 10000));
    ("fib_61_8", Ingest.JNum (10930 # 10000));
    ("fib_100", Ingest.JNum (10960 # 10000)) ].

(** The same snapshot with a MACD histogram of exactly 0. *)
Definition flat_payload : list (string * Ingest.json) :=
  ("macd_histogram", Ingest.JNum 0) :: payload.

Definition loads (t : Ingest.text) : option Ingest.json :=
  match t with
  | [112%N] => Some (Ingest.JObj payload)
  | _ => None
  end.

Definition loads_flat (t : Ingest.text) : option Ingest.json :=
  match t with
  | [112%N] => Some (Ingest.JObj flat_payload)
  | _ => None
  end.

Definition reformat_timestamp (stamp : string) : option string :=
  Some (String.append stamp ":00").

Definition accept_all (name : string) (columns : list Ingest.json) : bool :=
  true.

Definition refuse_rsi (name : string) (columns : list Ingest.json) : bool :=
  negb (name =? "rsi_data")%string.

Definition new_server : Ingest.server :=
  {| Ingest.rows := []; Ingest.ohlc_auto_increment := 1;
     Ingest.console := []; Ingest.news_threads := 0 |}.

End Cases.
(** * Properties *)

(** ** Comparisons and rounding *)

Lemma ltb_lt (x y : Q) : Py.ltb x y = true <-> x < y.
Proof. unfold Py.ltb, Qlt. apply Z.ltb_lt. Qed.

Lemma ltb_ge (x y : Q) : Py.ltb x y = false <-> y <= x.
Proof. unfold Py.ltb, Qle. rewrite Z.ltb_ge. reflexivity. Qed.

Lemma gtb_gt (x y : Q) : Py.gtb x y = true <-> y < x.
Proof. apply ltb_lt. Qed.

(** ** Worlds *)

Lemma with_indicators_effect_same (w : world) :
  with_indicators_effect w (indicators_effect w) = w.
Proof. destruct w; reflexivity. Qed.

Lemma with_dynamic_thresholds_same (w : world) :
  with_dynamic_thresholds w (dynamic_thresholds w) = w.
Proof. destruct w; reflexivity. Qed.

(** ** The threshold store *)

Lemma update_rows_unseeded (currency : string) (t : thresholds)
    (rows : list threshold_row) :
  (forall r, In r rows -> fst r <> currency) ->
  map (fun r => if (fst r =? currency)%string then (fst r, t) else r) rows
  = rows.
Proof.
  induction rows as [|r rows IH]; intros Hno; simpl.
  - reflexivity.
  - rewrite IH by (intros r' Hr'; apply Hno; now right).
    destruct (String.eqb_spec (fst r) currency) as [Heq|_].
    + exfalso. apply (Hno r); [now left | exact Heq].
    + reflexivity.
Qed.

Lemma find_unseeded (currency : string) (rows : list threshold_row) :
  (forall r, In r rows -> fst r <> currency) ->
  find (fun r => (fst r =? currency)%string) rows = None.
Proof.
  induction rows as [|r rows IH]; intros Hno; simpl.
  - reflexivity.
  - destruct (String.eqb_spec (fst r) currency) as [Heq|_].
    + exfalso. apply (Hno r); [now left | exact Heq].
    + apply IH. intros r' Hr'. apply Hno. now right.
Qed.

Lemma find_updated (currency : string) (t : thresholds)
    (rows : list threshold_row) :
  (exists r, In r rows /\ fst r = currency) ->
  exists c,
    find (fun r => (fst r =? currency)%string)
      (map (fun r => if (fst r =? currency)%string then (fst r, t) else r) rows)
    = Some (c, t).
Proof.
  induction rows as [|r rows IH]; intros [r0 [Hin Hr0]]; simpl.
  - destruct Hin.
  - destruct (String.eqb_spec (fst r) currency) as [Heq|Hne]; simpl.
    + rewrite Heq, String.eqb_refl. now exists currency.
    + apply String.eqb_neq in Hne. rewrite Hne.
      apply IH. destruct Hin as [->|Hin].
      * apply String.eqb_neq in Hne. contradiction.
      * now exists r0.
Qed.

Lemma save_dynamic_thresholds_unseeded (currency : string) (t : thresholds)
    (w : world) :
  (forall r, In r (dynamic_thresholds w) -> fst r <> currency) ->
  save_dynamic_thresholds currency t w = (Returned tt, w).
Proof.
  intros Hno. unfold save_dynamic_thresholds.
  rewrite update_rows_unseeded by exact Hno.
  now rewrite with_dynamic_thresholds_same.
Qed.

(** C7: for a currency with no row in [dynamic_thresholds], the UPDATE of
    [save_dynamic_thresholds] matches nothing and leaves the world as it
    was, and [update_dynamic_thresholds] followed by
    [get_dynamic_thresholds] still returns the default thresholds
    (50, 30, 70, 0, -2, 0), whatever the performance score. *)
Theorem C7_unseeded_currency_keeps_defaults
    (currency : string) (t : thresholds) (performance_score : Q) (w : world) :
  (forall r, In r (dynamic_thresholds w) -> fst r <> currency) ->
  save_dynamic_thresholds currency t w = (Returned tt, w) /\
  (update_dynamic_thresholds currency performance_score ;;
   get_dynamic_thresholds currency) w
  = (Returned
       {| th_SMA := 50; th_RSI_buy := 30; th_RSI_sell := 70;
          th_MACD := 0; th_Bollinger_band := -2; th_EMA := 0 |}, w).
Proof.
  intros Hno. split.
  - now apply save_dynamic_thresholds_unseeded.
  - unfold bind, update_dynamic_thresholds.
    rewrite save_dynamic_thresholds_unseeded by exact Hno.
    unfold get_dynamic_thresholds.
    now rewrite find_unseeded by exact Hno.
Qed.

Lemma C7_unseeded_currency_keeps_defaults_witness :
  (forall r, In r (dynamic_thresholds (Sample.seeded_world 0)) ->
             fst r <> "USDJPY") /\
  (update_dynamic_thresholds "USDJPY" 25 ;;
   get_dynamic_thresholds "USDJPY") (Sample.seeded_world 0)
  = (Returned default_thresholds, Sample.seeded_world 0).
Proof.
  assert (H : forall r, In r (dynamic_thresholds (Sample.seeded_world 0)) ->
                        fst r <> "USDJPY").
  { intros r [<-|[]]. discriminate. }
  split; [exact H|].
  exact (proj2 (C7_unseeded_currency_keeps_defaults "USDJPY"
                  aggressive_thresholds 25 (Sample.seeded_world 0) H)).
Defined.

(** A currency that has a row does adopt the new thresholds. *)
Example seeded_currency_adapts :
  fst ((update_dynamic_thresholds "EURUSD" 25 ;;
        get_dynamic_thresholds "EURUSD") (Sample.seeded_world 0))
  = Returned aggressive_thresholds.
Proof. reflexivity. Qed.

(** ** The indicator loop *)

Lemma evaluate_indicators_run (t : thresholds) (impact : string)
    (items : Py.dict Q) (act : action) (w : world) :
  evaluate_indicators t impact items act w
  = (Returned (signals t items act),
     with_indicators_effect w (indicators_effect w ++ effects_of impact items)).
Proof.
  revert act w. induction items as [|[name v] items IH]; intros act w; simpl.
  - unfold ret. now rewrite app_nil_r, with_indicators_effect_same.
  - unfold bind, log_indicator_effect. rewrite IH.
    unfold signals; simpl. f_equal.
    unfold with_indicators_effect; simpl. now rewrite <- app_assoc.
Qed.

Lemma signals_app (t : thresholds) (xs ys : Py.dict Q) (act : action) :
  signals t (xs ++ ys) act = signals t ys (signals t xs act).
Proof. unfold signals. apply fold_left_app. Qed.

(** A reading changes the action exactly when it meets a rule condition,
    and then the new action is a vote of that rule. *)
Lemma signal_rule_cases (t : thresholds) (name : string) (v : Q)
    (act : action) :
  rule t name v (signal_rule t name v act) \/
  (signal_rule t name v act = act /\ forall a, ~ rule t name v a).
Proof.
  unfold signal_rule.
  destruct (String.eqb_spec name "SMA") as [->|Hsma]; simpl.
  { destruct (Py.gtb v (th_SMA t)) eqn:E.
    - left. constructor. now apply gtb_gt.
    - right. split; [reflexivity|]. intros a H. inversion H; subst.
      apply ltb_ge in E. now apply (Qle_not_lt _ _ E). }
  destruct (String.eqb_spec name "RSI") as [->|Hrsi]; simpl.
  { destruct (Py.ltb v (th_RSI_buy t)) eqn:E1.
    - left. constructor. now apply ltb_lt.
    - destruct (Py.gtb v (th_RSI_sell t)) eqn:E2.
      + left. constructor. now apply gtb_gt.
      + right. split; [reflexivity|]. intros a H. inversion H; subst.
        * apply ltb_ge in E1. now apply (Qle_not_lt _ _ E1).
        * apply ltb_ge in E2. now apply (Qle_not_lt _ _ E2). }
  destruct (String.eqb_spec name "MACD") as [->|Hmacd]; simpl.
  { destruct (Py.gtb v (th_MACD t)) eqn:E.
    - left. constructor. now apply gtb_gt.
    - right. split; [reflexivity|]. intros a H. inversion H; subst.
      apply ltb_ge in E. now apply (Qle_not_lt _ _ E). }
  destruct (String.eqb_spec name "Bollinger_upper") as [->|Hboll]; simpl.
  { destruct (Py.ltb v (th_Bollinger_band t)) eqn:E.
    - left. constructor. now apply ltb_lt.
    - right. split; [reflexivity|]. intros a H. inversion H; subst.
      apply ltb_ge in E. now apply (Qle_not_lt _ _ E). }
  destruct (String.eqb_spec name "EMA") as [->|Hema]; simpl.
  { destruct (Py.gtb v (th_EMA t)) eqn:E.
    - left. constructor. now apply gtb_gt.
    - right. split; [reflexivity|]. intros a H. inversion H; subst.
      apply ltb_ge in E. now apply (Qle_not_lt _ _ E). }
  right. split; [reflexivity|]. intros a H. inversion H; subst; congruence.
Qed.

Lemma signals_silent (t : thresholds) (items : Py.dict Q) (act : action) :
  silent t items -> signals t items act = act.
Proof.
  revert act. induction items as [|[name v] items IH]; intros act Hs.
  - reflexivity.
  - unfold signals; simpl. fold (signals t items (signal_rule t name v act)).
    rewrite IH by (intros n' v' a' Hin; apply Hs; now right).
    destruct (signal_rule_cases t name v act) as [Hr|[Heq _]].
    + exfalso. apply (Hs name v _ (or_introl eq_refl) Hr).
    + exact Heq.
Qed.

Lemma signals_last_vote (t : thresholds) (items : Py.dict Q) :
  last_vote t items (signals t items hold).
Proof.
  induction items as [|[name v] items IH] using rev_ind.
  - apply last_vote_none. intros n v a [].
  - rewrite signals_app. unfold signals at 1; simpl.
    destruct (signal_rule_cases t name v (signals t items hold))
      as [Hr|[Heq Hno]].
    + apply last_vote_at; [exact Hr | intros n' v' a' []].
    + rewrite Heq. inversion IH as [its Hs Hits Ha | bef n0 v0 aft a Hr Hs Hits Ha].
      * apply last_vote_none. intros n' v' a' Hin.
        apply in_app_or in Hin. destruct Hin as [Hin|[Hin|[]]].
        -- now apply Hs.
        -- inversion Hin; subst. apply Hno.
      * rewrite <- app_assoc. simpl. apply last_vote_at; [exact Hr|].
        intros n' v' a' Hin.
        apply in_app_or in Hin. destruct Hin as [Hin|[Hin|[]]].
        -- now apply Hs.
        -- inversion Hin; subst. apply Hno.
Qed.

(** C4: the loop over the indicators returns, for every sequence of
    readings and in particular for SMA, RSI, MACD, Bollinger upper, EMA in
    that order, the vote of the last reading that meets a rule condition
    (SMA > sma, RSI < rsi_buy, RSI > rsi_sell, MACD > macd,
    Bollinger upper < bollinger_band, EMA > ema), and hold when none does. *)
Theorem C4_candidate_is_last_vote (t : thresholds) (impact : string) (w : world) :
  (forall items : Py.dict Q,
     exists a, fst (evaluate_indicators t impact items hold w) = Returned a /\
               last_vote t items a) /\
  (forall s r m b e : Q,
     exists a, fst (evaluate_indicators t impact (readings s r m b e) hold w)
               = Returned a /\
               last_vote t (readings s r m b e) a).
Proof.
  assert (H : forall items : Py.dict Q,
             exists a, fst (evaluate_indicators t impact items hold w)
                       = Returned a /\ last_vote t items a).
  { intros items. exists (signals t items hold). split.
    - now rewrite evaluate_indicators_run.
    - apply signals_last_vote. }
  split; [exact H | intros; apply H].
Qed.

(** With thresholds whose RSI buy level lies above the sell level, a
    reading between the two meets both RSI conditions; the [elif] chain
    stops at the first, so the vote is buy. *)
Example rsi_between_crossed_levels_votes_buy :
  let t := {| th_SMA := 50; th_RSI_buy := 70; th_RSI_sell := 30;
              th_MACD := 0; th_Bollinger_band := -2; th_EMA := 0 |} in
  signals t [("RSI", 50)] hold = buy.
Proof. reflexivity. Qed.

(** The end-to-end scenario of the design notes: every reading votes buy
    under the default thresholds. *)
Example scenario_candidate :
  signals default_thresholds Sample.indicators hold = buy.
Proof. reflexivity. Qed.

(** ** The Fibonacci override *)

Lemma subscript_present (key : string) (d : Py.dict Q) (v : Q) (w : world) :
  Py.get key d = Some v -> subscript key d w = (Returned v, w).
Proof. intros H. unfold subscript. now rewrite H. Qed.

Lemma band_true (lo hi s : Q) :
  Py.ltb lo s && Py.ltb s hi = true <-> lo < s /\ s < hi.
Proof. rewrite andb_true_iff, !ltb_lt. reflexivity. Qed.

Lemma band_false (lo hi s : Q) :
  ~ (lo < s /\ s < hi) -> Py.ltb lo s && Py.ltb s hi = false.
Proof.
  intros H. destruct (Py.ltb lo s && Py.ltb s hi) eqn:E; [|reflexivity].
  apply band_true in E. contradiction.
Qed.

Lemma range_filter_buy (indicators : Py.dict Q) (fib : fibonacci_levels)
    (act : action) (w : world) (s : Q) :
  Py.get "SMA" indicators = Some s -> in_buy_band fib s ->
  range_filter indicators fib act w = (Returned buy, w).
Proof.
  intros Hs Hb. unfold range_filter, bind.
  rewrite (subscript_present _ _ _ _ Hs).
  now rewrite (proj2 (band_true _ _ _) Hb).
Qed.

Lemma range_filter_sell (indicators : Py.dict Q) (fib : fibonacci_levels)
    (act : action) (w : world) (s : Q) :
  Py.get "SMA" indicators = Some s ->
  ~ in_buy_band fib s -> in_sell_band fib s ->
  range_filter indicators fib act w = (Returned sell, w).
Proof.
  intros Hs Hnb Hsell. unfold range_filter, bind.
  rewrite (subscript_present _ _ _ _ Hs).
  rewrite (band_false _ _ _ Hnb).
  rewrite (subscript_present _ _ _ _ Hs).
  now rewrite (proj2 (band_true _ _ _) Hsell).
Qed.

Lemma range_filter_keep (indicators : Py.dict Q) (fib : fibonacci_levels)
    (act : action) (w : world) (s : Q) :
  Py.get "SMA" indicators = Some s ->
  ~ in_buy_band fib s -> ~ in_sell_band fib s ->
  range_filter indicators fib act w = (Returned act, w).
Proof.
  intros Hs Hnb Hns. unfold range_filter, bind.
  rewrite (subscript_present _ _ _ _ Hs).
  rewrite (band_false _ _ _ Hnb).
  rewrite (subscript_present _ _ _ _ Hs).
  now rewrite (band_false _ _ _ Hns).
Qed.

Lemma range_filter_missing (indicators : Py.dict Q) (fib : fibonacci_levels)
    (act : action) (w : world) :
  Py.get "SMA" indicators = None ->
  range_filter indicators fib act w = (Raised (KeyError "SMA"), w).
Proof.
  intros Hs. unfold range_filter, bind, subscript. now rewrite Hs.
Qed.

(** C2, as the code has it: the sell band is an [elif] of the buy band,
    so for an SMA strictly inside both bands the Range Filter returns buy,
    whatever the action before it, and changes nothing else. *)
Theorem C2_both_bands_give_buy (indicators : Py.dict Q) (fib : fibonacci_levels)
    (act : action) (w : world) (s : Q) :
  Py.get "SMA" indicators = Some s ->
  level_38_2 fib < s /\ s < level_61_8 fib ->
  level_50_0 fib < s /\ s < level_100 fib ->
  range_filter indicators fib act w = (Returned buy, w).
Proof. intros Hs Hb _. now apply range_filter_buy with (s := s). Qed.

Lemma C2_both_bands_give_buy_witness :
  (Py.get "SMA" Sample.indicators = Some 60 /\
   (level_38_2 Sample.fib_both < 60 /\ 60 < level_61_8 Sample.fib_both) /\
   (level_50_0 Sample.fib_both < 60 /\ 60 < level_100 Sample.fib_both)) /\
  range_filter Sample.indicators Sample.fib_both hold (Sample.empty_world 0)
  = (Returned buy, Sample.empty_world 0).
Proof.
  assert (H1 : Py.get "SMA" Sample.indicators = Some 60) by reflexivity.
  assert (H2 : level_38_2 Sample.fib_both < 60 /\ 60 < level_61_8 Sample.fib_both)
    by (split; reflexivity).
  assert (H3 : level_50_0 Sample.fib_both < 60 /\ 60 < level_100 Sample.fib_both)
    by (split; reflexivity).
  split; [now repeat split |].
  exact (C2_both_bands_give_buy Sample.indicators Sample.fib_both hold
           (Sample.empty_world 0) 60 H1 H2 H3).
Defined.

(** C2, as the claim has it, fails: with the SMA at 60 strictly inside the
    buy band (55, 65) and the sell band (58, 100), the action after the
    Range Filter is buy, not sell. *)
Lemma C2_counterexample :
  (level_38_2 Sample.fib_both < 60 /\ 60 < level_61_8 Sample.fib_both) /\
  (level_50_0 Sample.fib_both < 60 /\ 60 < level_100 Sample.fib_both) /\
  Py.get "SMA" Sample.indicators = Some 60 /\
  fst (range_filter Sample.indicators Sample.fib_both hold
         (Sample.empty_world 0)) = Returned buy /\
  fst (range_filter Sample.indicators Sample.fib_both hold
         (Sample.empty_world 0)) <> Returned sell /\
  fst (decide default_thresholds "High Impact Expected" Sample.indicators
         Sample.fib_both (Sample.empty_world 0)) <> Returned sell.
Proof.
  repeat split; try reflexivity; vm_compute; discriminate.
Qed.

(** ** The action of the cycle *)

Lemma decide_run (t : thresholds) (impact : string) (indicators : Py.dict Q)
    (fib : fibonacci_levels) (w : world) :
  decide t impact indicators fib w
  = range_filter indicators fib (signals t indicators hold)
      (with_indicators_effect w
         (indicators_effect w ++ effects_of impact indicators)).
Proof. unfold decide, bind. now rewrite evaluate_indicators_run. Qed.

(** C5: the Range Filter runs after the indicator loop and overrides it:
    with the SMA strictly between level_38_2 and level_61_8 the action of
    the cycle is buy whatever the thresholds and the other readings; with
    the SMA strictly between level_50_0 and level_100 and not in the buy
    band it is sell. *)
Theorem C5_range_filter_overrides (t : thresholds) (impact : string)
    (indicators : Py.dict Q) (fib : fibonacci_levels) (w : world) (s : Q) :
  Py.get "SMA" indicators = Some s ->
  (level_38_2 fib < s /\ s < level_61_8 fib ->
   fst (decide t impact indicators fib w) = Returned buy) /\
  (level_50_0 fib < s /\ s < level_100 fib ->
   ~ (level_38_2 fib < s /\ s < level_61_8 fib) ->
   fst (decide t impact indicators fib w) = Returned sell).
Proof.
  intros Hs. split.
  - intros Hb. rewrite decide_run.
    now rewrite (range_filter_buy _ _ _ _ s Hs Hb).
  - intros Hsell Hnb. rewrite decide_run.
    now rewrite (range_filter_sell _ _ _ _ s Hs Hnb Hsell).
Qed.

Lemma C5_range_filter_overrides_witness :
  fst (decide default_thresholds "High Impact Expected" Sample.indicators
         Sample.fib_both (Sample.empty_world 0)) = Returned buy /\
  fst (decide default_thresholds "High Impact Expected" Sample.indicators
         Sample.fib_sell (Sample.empty_world 0)) = Returned sell.
Proof.
  split.
  - apply (proj1 (C5_range_filter_overrides default_thresholds
                    "High Impact Expected" Sample.indicators Sample.fib_both
                    (Sample.empty_world 0) 60 eq_refl)).
    split; reflexivity.
  - apply (proj2 (C5_range_filter_overrides default_thresholds
                    "High Impact Expected" Sample.indicators Sample.fib_sell
                    (Sample.empty_world 0) 60 eq_refl)).
    + split; reflexivity.
    + intros [_ H]. discriminate H.
Defined.

Lemma range_filter_run (indicators : Py.dict Q) (fib : fibonacci_levels)
    (act : action) (w : world) (s : Q) :
  Py.get "SMA" indicators = Some s ->
  range_filter indicators fib act w = (Returned (override fib s act), w).
Proof.
  intros Hs. unfold range_filter, override, bind.
  rewrite (subscript_present _ _ _ _ Hs).
  destruct (Py.ltb (level_38_2 fib) s && Py.ltb s (level_61_8 fib));
    [reflexivity|].
  rewrite (subscript_present _ _ _ _ Hs).
  now destruct (Py.ltb (level_50_0 fib) s && Py.ltb s (level_100 fib)).
Qed.

(** ** The whole cycle *)

Lemma make_trading_decision_unfold (news_title currency impact : string)
    (indicators : Py.dict Q) (fib : fibonacci_levels) :
  make_trading_decision news_title currency impact indicators fib
  = (print (AnalyzingNews news_title currency) ;;
     t <- get_dynamic_thresholds currency ;;
     act <- decide t impact indicators fib ;;
     settle currency indicators act).
Proof. reflexivity. Qed.

Lemma get_dynamic_thresholds_run (currency : string) (w : world) :
  get_dynamic_thresholds currency w
  = (Returned (stored_thresholds currency (dynamic_thresholds w)), w).
Proof.
  unfold get_dynamic_thresholds, stored_thresholds.
  match goal with
  | |- context [find ?f ?l] => destruct (find f l)
  end; reflexivity.
Qed.

(** With an SMA reading the cycle reaches [settle], on a world that
    differs from the initial one by the printed line and the rows of
    [indicators_effect]. *)
Lemma make_trading_decision_run (news_title currency impact : string)
    (indicators : Py.dict Q) (fib : fibonacci_levels) (w : world) (s : Q) :
  Py.get "SMA" indicators = Some s ->
  make_trading_decision news_title currency impact indicators fib w
  = settle currency indicators
      (override fib s
         (signals (stored_thresholds currency (dynamic_thresholds w))
            indicators hold))
      (with_indicators_effect
         (with_stdout w (stdout w ++ [AnalyzingNews news_title currency]))
         (indicators_effect w ++ effects_of impact indicators)).
Proof.
  intros Hs.
  rewrite make_trading_decision_unfold. unfold bind at 1. unfold print.
  unfold bind at 1. rewrite get_dynamic_thresholds_run.
  unfold bind at 1. rewrite decide_run.
  rewrite (range_filter_run _ _ _ _ s Hs). reflexivity.
Qed.

Lemma settle_returns (currency : string) (indicators : Py.dict Q)
    (act : action) (w : world) :
  fst (settle currency indicators act w) = Returned tt.
Proof.
  unfold settle, bind, evaluate_trade, handle_failed_decision.
  destruct act; simpl;
    repeat match goal with
           | |- context [Py.ltb ?a ?b] => destruct (Py.ltb a b); simpl
           end; reflexivity.
Qed.

Lemma settle_thresholds (currency : string) (indicators : Py.dict Q)
    (act : action) (w : world) :
  dynamic_thresholds (snd (settle currency indicators act w))
  = dynamic_thresholds (snd (update_dynamic_thresholds currency 0 w)).
Proof.
  unfold settle, bind, evaluate_trade, handle_failed_decision.
  destruct act; simpl;
    repeat match goal with
           | |- context [Py.ltb ?a ?b] => destruct (Py.ltb a b); simpl
           end; reflexivity.
Qed.

(** ** Threshold adaptation in the cycle *)

Lemma update_dynamic_thresholds_zero (currency : string) (w : world) :
  update_dynamic_thresholds currency 0 w
  = save_dynamic_thresholds currency conservative_thresholds w.
Proof. reflexivity. Qed.

Lemma seeded_dec (currency : string) (w : world) :
  seeded currency w \/
  (forall r, In r (dynamic_thresholds w) -> fst r <> currency).
Proof.
  destruct (find (fun r : threshold_row => (fst r =? currency)%string)
              (dynamic_thresholds w)) as [r|] eqn:E.
  - left. apply find_some in E. destruct E as [Hin Heq].
    exists r. split; [exact Hin | now apply String.eqb_eq].
  - right. intros r Hin. apply String.eqb_neq.
    exact (find_none _ _ E r Hin).
Qed.

(** C3, as the code has it: in every cycle that reaches the adaptation
    step (the indicators carry an SMA reading) [update_dynamic_thresholds]
    receives the score 0, whatever the simulated profit or loss, so the
    rows of the currency are overwritten with the conservative tuple
    (45, 28, 72, -0.1, -1.5, -0.05); for a currency that has a row the
    thresholds read afterwards are the conservative ones, and in no case
    the aggressive ones. *)
Theorem C3_score_zero_adopts_conservative (news_title currency impact : string)
    (indicators : Py.dict Q) (fib : fibonacci_levels) (w : world) (s : Q) :
  Py.get "SMA" indicators = Some s ->
  let w' := snd (make_trading_decision news_title currency impact indicators
                   fib w) in
  dynamic_thresholds w'
  = dynamic_thresholds (snd (update_dynamic_thresholds currency 0 w)) /\
  dynamic_thresholds w'
  = map (fun r => if (fst r =? currency)%string
                  then (fst r, conservative_thresholds) else r)
        (dynamic_thresholds w) /\
  (seeded currency w ->
   fst (get_dynamic_thresholds currency w')
   = Returned {| th_SMA := 45; th_RSI_buy := 28; th_RSI_sell := 72;
                 th_MACD := - (1 # 10); th_Bollinger_band := - (3 # 2);
                 th_EMA := - (1 # 20) |}) /\
  fst (get_dynamic_thresholds currency w') <> Returned aggressive_thresholds.
Proof.
  intros Hs w'.
  assert (Hrows : dynamic_thresholds w'
                  = map (fun r => if (fst r =? currency)%string
                                  then (fst r, conservative_thresholds) else r)
                        (dynamic_thresholds w)).
  { unfold w'. rewrite (make_trading_decision_run _ _ _ _ _ _ s Hs).
    rewrite settle_thresholds. reflexivity. }
  split; [exact Hrows|]. split; [exact Hrows|].
  assert (Hseeded : seeded currency w ->
                    fst (get_dynamic_thresholds currency w')
                    = Returned conservative_thresholds).
  { intros Hsd. rewrite get_dynamic_thresholds_run. simpl.
    unfold stored_thresholds. rewrite Hrows.
    destruct (find_updated currency conservative_thresholds _ Hsd) as [c Hc].
    now rewrite Hc. }
  split; [exact Hseeded|].
  destruct (seeded_dec currency w) as [Hsd|Hno].
  - rewrite (Hseeded Hsd). discriminate.
  - rewrite get_dynamic_thresholds_run. simpl.
    unfold stored_thresholds. rewrite Hrows.
    rewrite update_rows_unseeded by exact Hno.
    rewrite find_unseeded by exact Hno. discriminate.
Qed.

Lemma C3_score_zero_adopts_conservative_witness :
  Py.get "SMA" Sample.indicators = Some 60 /\
  seeded "EURUSD" (Sample.seeded_world (1 # 2)) /\
  fst (get_dynamic_thresholds "EURUSD"
         (snd (make_trading_decision "2024-01-05 13:30:00" "EURUSD"
                 "High Impact Expected" Sample.indicators Sample.fib_both
                 (Sample.seeded_world (1 # 2)))))
  = Returned conservative_thresholds.
Proof.
  assert (Hs : Py.get "SMA" Sample.indicators = Some 60) by reflexivity.
  assert (Hsd : seeded "EURUSD" (Sample.seeded_world (1 # 2))).
  { exists ("EURUSD", default_thresholds). split; [now left | reflexivity]. }
  split; [exact Hs|]. split; [exact Hsd|].
  exact (proj1 (proj2 (proj2
           (C3_score_zero_adopts_conservative "2024-01-05 13:30:00" "EURUSD"
              "High Impact Expected" Sample.indicators Sample.fib_both
              (Sample.seeded_world (1 # 2)) 60 Hs))) Hsd).
Defined.

(** C3, as the claim has it, fails for a currency without a row: after a
    complete cycle on an empty [dynamic_thresholds] the thresholds of the
    currency are still the defaults, not the conservative tuple. *)
Lemma C3_counterexample :
  let run := make_trading_decision "2024-01-05 13:30:00" "EURUSD"
               "High Impact Expected" Sample.indicators Sample.fib_both
               (Sample.empty_world (1 # 2)) in
  fst run = Returned tt /\
  dynamic_thresholds (snd run) = [] /\
  fst (get_dynamic_thresholds "EURUSD" (snd run))
  = Returned default_thresholds /\
  fst (get_dynamic_thresholds "EURUSD" (snd run))
  <> Returned conservative_thresholds.
Proof.
  vm_compute. repeat split; discriminate.
Qed.

(** ** Failed decisions *)

(** The [elif] that deletes is never reached: a loss below -10 is below 0
    as well, so the first branch takes it. *)
Lemma handle_failed_decision_loss (trade_id : Z) (profit_loss : Q) (w : world) :
  profit_loss < 0 ->
  handle_failed_decision trade_id profit_loss w
  = (update_bad_decision trade_id hold 0 ;;
     print (UpdatedBadDecision trade_id)) w.
Proof.
  intros H. unfold handle_failed_decision.
  now rewrite (proj2 (ltb_lt _ _) H).
Qed.

Lemma handle_failed_decision_keeps_rows (trade_id : Z) (profit_loss : Q)
    (w : world) :
  map tr_id (trade_log (snd (handle_failed_decision trade_id profit_loss w)))
  = map tr_id (trade_log w).
Proof.
  unfold handle_failed_decision.
  destruct (Py.ltb profit_loss 0) eqn:E0.
  - unfold bind, update_bad_decision, print; simpl.
    rewrite map_map. apply map_ext. intros r.
    now destruct (tr_id r =? trade_id)%Z.
  - destruct (Py.ltb profit_loss (-10)) eqn:E10; [|reflexivity].
    apply ltb_ge in E0. apply ltb_lt in E10.
    exfalso. apply (Qlt_not_le _ _ E10).
    apply Qle_trans with (y := 0); [discriminate | exact E0].
Qed.

(** C1 at a loss of 15: the draw 7/30 of [random()] makes
    [uniform(-50, 100)] return -15, below -10.  The cycle rewrites the
    trade record to hold and keeps it in [trade_log]; nothing is deleted. *)
Theorem C1_loss_of_15_keeps_record :
  let run := make_trading_decision "2024-01-05 13:30:00" "EURUSD"
               "High Impact Expected" Sample.indicators Sample.fib_both
               (Sample.empty_world (7 # 30)) in
  fst run = Returned tt /\
  performance_log (snd run) = [(1%Z, (-1500) # 100)] /\
  (-1500) # 100 < -10 /\
  map (fun r => (tr_id r, tr_action r, tr_performance_score r))
      (trade_log (snd run))
  = [(1%Z, hold, Some 0)] /\
  stdout (snd run)
  = [ AnalyzingNews "2024-01-05 13:30:00" "EURUSD";
      EvaluatingTrade "EURUSD" buy;
      UpdatedBadDecision 1;
      Executing buy "EURUSD" ].
Proof.
  vm_compute. repeat split; reflexivity.
Qed.

(** [evaluate_trade] always returns and leaves the trade log alone. *)
Lemma evaluate_trade_frame (act : action) (currency : string) (w : world) :
  exists result w1,
    evaluate_trade act currency w = (Returned result, w1) /\
    trade_log w1 = trade_log w /\
    trade_log_auto_increment w1 = trade_log_auto_increment w.
Proof.
  destruct act; simpl; unfold bind, print, uniform, ret; simpl;
    eexists; eexists; repeat split; reflexivity.
Qed.

(** Every cycle that reaches [settle] adds one row to [trade_log], under
    the next identifier, and that row is still there when the cycle ends,
    whatever the simulated loss. *)
Lemma settle_keeps_record (currency : string) (indicators : Py.dict Q)
    (act : action) (w : world) :
  map tr_id (trade_log (snd (settle currency indicators act w)))
  = map tr_id (trade_log w) ++ [trade_log_auto_increment w].
Proof.
  unfold settle. unfold bind at 1.
  destruct (evaluate_trade_frame act currency w)
    as [result [w1 [-> [Hlog Hinc]]]].
  unfold bind at 1. unfold log_trade_action at 1.
  unfold bind at 1. unfold log_performance at 1.
  unfold bind at 1. unfold update_dynamic_thresholds, save_dynamic_thresholds.
  unfold bind at 1.
  match goal with
  | |- context [handle_failed_decision ?i ?r ?w0] =>
      pose proof (handle_failed_decision_keeps_rows i r w0) as Hk;
      destruct (handle_failed_decision i r w0) as [[[]|e] w2]
  end.
  - simpl in Hk.
    assert (Hexec : forall m : M unit,
              (m = execute_trade currency act \/ m = ret tt) ->
              trade_log (snd (m w2)) = trade_log w2).
    { intros m [->| ->]; [destruct act|]; reflexivity. }
    rewrite Hexec by (destruct (negb (action_eqb act hold)); auto).
    rewrite Hk, map_app, Hlog, Hinc. reflexivity.
  - simpl in *. rewrite Hk, map_app, Hlog, Hinc. reflexivity.
Qed.

Lemma make_trading_decision_keeps_record (news_title currency impact : string)
    (indicators : Py.dict Q) (fib : fibonacci_levels) (w : world) (s : Q) :
  Py.get "SMA" indicators = Some s ->
  map tr_id
    (trade_log (snd (make_trading_decision news_title currency impact
                       indicators fib w)))
  = map tr_id (trade_log w) ++ [trade_log_auto_increment w].
Proof.
  intros Hs. rewrite (make_trading_decision_run _ _ _ _ _ _ s Hs).
  now rewrite settle_keeps_record.
Qed.

Lemma decide_action (t : thresholds) (impact : string) (indicators : Py.dict Q)
    (fib : fibonacci_levels) (w : world) (s : Q) :
  Py.get "SMA" indicators = Some s ->
  fst (decide t impact indicators fib w)
  = Returned (override fib s (signals t indicators hold)).
Proof.
  intros Hs. rewrite decide_run.
  now rewrite (range_filter_run _ _ _ _ s Hs).
Qed.

(** A buy or sell chosen by [settle]'s caller is the last line printed:
    the action of the cycle is the one handed to [execute_trade]. *)
Lemma settle_executes (currency : string) (indicators : Py.dict Q)
    (act : action) (w : world) :
  act <> hold ->
  exists out,
    stdout (snd (settle currency indicators act w))
    = out ++ [Executing act currency].
Proof.
  intros Hact.
  unfold settle, bind, evaluate_trade, log_trade_action, log_performance,
    handle_failed_decision, update_dynamic_thresholds,
    save_dynamic_thresholds, update_bad_decision, delete_bad_decision,
    uniform, print, ret, bind.
  destruct act; [| |now elim Hact];
    cbn [fst snd with_indicators_effect with_stdout
         with_random_pos with_trade_log with_performance_log
         with_dynamic_thresholds trade_log
         trade_log_auto_increment indicators_effect
         performance_log dynamic_thresholds stdout random
         random_pos negb action_eqb execute_trade];
    repeat match goal with
           | |- context [Py.ltb ?a ?b] => destruct (Py.ltb a b)
           end;
    cbn [fst snd with_stdout with_trade_log stdout];
    eexists; reflexivity.
Qed.

Lemma make_trading_decision_executes (news_title currency impact : string)
    (indicators : Py.dict Q) (fib : fibonacci_levels) (w : world) (s : Q)
    (act : action) :
  Py.get "SMA" indicators = Some s ->
  fst (decide (stored_thresholds currency (dynamic_thresholds w)) impact
         indicators fib w) = Returned act ->
  act <> hold ->
  exists out,
    stdout (snd (make_trading_decision news_title currency impact indicators
                   fib w))
    = out ++ [Executing act currency].
Proof.
  intros Hs Hd Hact.
  rewrite (decide_action _ _ _ _ _ s Hs) in Hd. inversion Hd as [Ha].
  rewrite (make_trading_decision_run _ _ _ _ _ _ s Hs), Ha.
  now apply settle_executes.
Qed.

(** ** Inputs built by [fetch_news_and_impact] *)

Lemma pipeline_sma (d : indicator_data) :
  Py.get "SMA" (indicators_of d) = Some (sma_value d).
Proof. reflexivity. Qed.

(** None of the nine keys of the pipeline dict is the key the Bollinger
    rule tests. *)
Lemma pipeline_keys (d : indicator_data) (name : string) (v : Q) :
  In (name, v) (indicators_of d) -> name <> "Bollinger_upper".
Proof.
  unfold indicators_of. simpl. intros H.
  repeat (destruct H as [H|H]; [inversion H; discriminate|]).
  destruct H.
Qed.

(** On a pipeline dict the loop only sees SMA, RSI, MACD and EMA. *)
Lemma pipeline_signals (t : thresholds) (d : indicator_data) (act : action) :
  signals t (indicators_of d) act
  = signals t [ ("SMA", sma_value d); ("RSI", rsi d);
                ("MACD", macd_value d); ("EMA", ema_value d) ] act.
Proof. reflexivity. Qed.

(** [settle] reads the indicators only through the five [get]s of
    [log_trade_action], and never reads [indicators_effect]. *)
Lemma settle_frame (currency : string) (inds1 inds2 : Py.dict Q)
    (act : action) (w : world) (e1 e2 : list effect_row) :
  Py.get "SMA" inds1 = Py.get "SMA" inds2 ->
  Py.get "RSI" inds1 = Py.get "RSI" inds2 ->
  Py.get "MACD" inds1 = Py.get "MACD" inds2 ->
  Py.get "Bollinger Band" inds1 = Py.get "Bollinger Band" inds2 ->
  Py.get "EMA" inds1 = Py.get "EMA" inds2 ->
  let r1 := settle currency inds1 act (with_indicators_effect w e1) in
  let r2 := settle currency inds2 act (with_indicators_effect w e2) in
  fst r1 = fst r2 /\
  trade_log (snd r1) = trade_log (snd r2) /\
  performance_log (snd r1) = performance_log (snd r2) /\
  dynamic_thresholds (snd r1) = dynamic_thresholds (snd r2) /\
  stdout (snd r1) = stdout (snd r2) /\
  random_pos (snd r1) = random_pos (snd r2).
Proof.
  intros H1 H2 H3 H4 H5.
  unfold settle, bind, evaluate_trade, log_trade_action, log_performance,
    handle_failed_decision, update_dynamic_thresholds,
    save_dynamic_thresholds, uniform, print, ret, bind.
  destruct act; cbn [fst snd with_indicators_effect with_stdout
                     with_random_pos with_trade_log with_performance_log
                     with_dynamic_thresholds trade_log
                     trade_log_auto_increment indicators_effect
                     performance_log dynamic_thresholds stdout random
                     random_pos negb action_eqb execute_trade];
    rewrite H1, H2, H3, H4, H5;
    repeat match goal with
           | |- context [Py.ltb ?a ?b] => destruct (Py.ltb a b)
           end;
    repeat split; reflexivity.
Qed.

(** C6: [fetch_news_and_impact] files the upper band under the key
    'Bollinger Band - Upper', while the loop of [make_trading_decision]
    tests the key 'Bollinger_upper': on a pipeline dict the Bollinger rule
    never fires, and two cycles whose inputs differ only in the upper band
    (same world, same draw) choose the same action and leave the same
    trade log, performance log, thresholds and printed lines. *)
Theorem C6_upper_band_has_no_influence (news_title currency impact : string)
    (d : indicator_data) (b1 b2 : Q) (fib : fibonacci_levels) (w : world) :
  let inds b := indicators_of (with_upper_band d b) in
  let run b := make_trading_decision news_title currency impact (inds b) fib w in
  (forall b name v, In (name, v) (inds b) -> name <> "Bollinger_upper") /\
  (forall t act b,
     signal_rule t "Bollinger Band - Upper" b act = act) /\
  (forall t,
     fst (decide t impact (inds b1) fib w)
     = fst (decide t impact (inds b2) fib w)) /\
  fst (run b1) = fst (run b2) /\
  trade_log (snd (run b1)) = trade_log (snd (run b2)) /\
  performance_log (snd (run b1)) = performance_log (snd (run b2)) /\
  dynamic_thresholds (snd (run b1)) = dynamic_thresholds (snd (run b2)) /\
  stdout (snd (run b1)) = stdout (snd (run b2)).
Proof.
  intros inds run.
  split; [intros b name v; apply pipeline_keys|].
  split; [reflexivity|].
  split.
  { intros t. rewrite !decide_run.
    rewrite (range_filter_run _ _ _ _ _ (pipeline_sma (with_upper_band d b1))).
    rewrite (range_filter_run _ _ _ _ _ (pipeline_sma (with_upper_band d b2))).
    reflexivity. }
  unfold run.
  rewrite (make_trading_decision_run _ _ _ _ _ _ _
             (pipeline_sma (with_upper_band d b1))).
  rewrite (make_trading_decision_run _ _ _ _ _ _ _
             (pipeline_sma (with_upper_band d b2))).
  unfold inds. rewrite !pipeline_signals.
  cbn [with_upper_band sma_value rsi macd_value ema_value].
  match goal with
  | |- context [settle _ _ ?a (with_indicators_effect ?w0 ?e1)] =>
      pose proof (settle_frame currency
                    (indicators_of (with_upper_band d b1))
                    (indicators_of (with_upper_band d b2))
                    a w0
                    (indicators_effect w ++
                     effects_of impact (indicators_of (with_upper_band d b1)))
                    (indicators_effect w ++
                     effects_of impact (indicators_of (with_upper_band d b2)))
                    eq_refl eq_refl eq_refl eq_refl eq_refl) as H
  end.
  cbn zeta in H. destruct H as (H1 & H2 & H3 & H4 & H5 & _).
  repeat split; assumption.
Qed.

(** ** The outcome simulator *)

Lemma round_half_even_bounds (lo hi : Z) (x : Q) :
  inject_Z lo <= x -> x <= inject_Z hi ->
  (lo <= Py.round_half_even x <= hi)%Z.
Proof.
  intros Hlo Hhi.
  assert (Hf1 : (lo <= Qfloor x)%Z).
  { rewrite <- (Qfloor_Z lo). now apply Qfloor_resp_le. }
  assert (Hf2 : (Qfloor x <= hi)%Z).
  { rewrite <- (Qfloor_Z hi). now apply Qfloor_resp_le. }
  assert (Hstep : Py.ltb (x - inject_Z (Qfloor x)) (1 # 2) = false ->
                  (Qfloor x + 1 <= hi)%Z).
  { intros E. apply ltb_ge in E.
    destruct (Z.eq_dec (Qfloor x) hi) as [Heq|Hne]; [|lia].
    exfalso. rewrite Heq in E. lra. }
  unfold Py.round_half_even.
  destruct (Py.ltb (x - inject_Z (Qfloor x)) (1 # 2)) eqn:E1; [lia|].
  specialize (Hstep eq_refl).
  destruct (Py.ltb (1 # 2) (x - inject_Z (Qfloor x))); [lia|].
  destruct (Z.even (Qfloor x)); lia.
Qed.

Lemma round2_bounds (x : Q) :
  -50 <= x -> x <= 100 ->
  -50 <= Py.round2 x /\ Py.round2 x <= 100.
Proof.
  intros Hlo Hhi. unfold Py.round2.
  destruct (round_half_even_bounds (-5000) 10000 (x * 100)) as [H1 H2].
  - change (inject_Z (-5000)) with (-5000 # 1). lra.
  - change (inject_Z 10000) with (10000 # 1). lra.
  - unfold Qle; simpl. split; lia.
Qed.

(** C8: [evaluate_trade] returns exactly 0 for hold, in every currency,
    without reading the random generator or changing anything; for buy and
    sell, with [random()] in [0, 1), it returns a whole number of
    hundredths between -50.00 and 100.00. *)
Theorem C8_evaluate_trade_range (currency : string) (w : world) :
  evaluate_trade hold currency w = (Returned 0, w) /\
  (forall act, act = buy \/ act = sell ->
     0 <= random w (random_pos w) -> random w (random_pos w) < 1 ->
     exists n : Z,
       fst (evaluate_trade act currency w) = Returned (n # 100) /\
       -50 <= n # 100 /\ n # 100 <= 100).
Proof.
  split; [reflexivity|].
  intros act Hact H0 H1.
  set (u := random w (random_pos w)) in *.
  exists (Py.round_half_even (Py.uniform_of (-50) 100 u * 100)).
  split.
  - destruct Hact as [-> | ->]; reflexivity.
  - apply (round2_bounds (Py.uniform_of (-50) 100 u));
      unfold Py.uniform_of; lra.
Qed.

Lemma C8_evaluate_trade_range_witness :
  (0 <= random (Sample.empty_world (7 # 30)) 0 /\
   random (Sample.empty_world (7 # 30)) 0 < 1) /\
  exists n : Z,
    fst (evaluate_trade buy "EURUSD" (Sample.empty_world (7 # 30)))
    = Returned (n # 100) /\
    -50 <= n # 100 /\ n # 100 <= 100.
Proof.
  assert (H0 : 0 <= random (Sample.empty_world (7 # 30)) 0) by discriminate.
  assert (H1 : random (Sample.empty_world (7 # 30)) 0 < 1) by reflexivity.
  split; [now split|].
  exact (proj2 (C8_evaluate_trade_range "EURUSD" (Sample.empty_world (7 # 30)))
           buy (or_introl eq_refl) H0 H1).
Defined.

(** ** Snapshots without data *)

Lemma print_header (row : news_impact_row) (w : world) :
  (print (NewsTitle (ni_title row)) ;;
   print (NewsValues (ni_currency row) (ni_actual row) (ni_forecast row)
            (ni_previous row)) ;;
   print (ImpactLevel (ni_impact row)) ;;
   print Separator) w
  = (Returned tt, with_stdout w (stdout w ++ news_header row)).
Proof.
  unfold bind, print, news_header; simpl.
  unfold with_stdout; simpl. now rewrite <- !app_assoc.
Qed.

Lemma news_iteration_missing (row : news_impact_row) (w : world) :
  fetchone (ni_title row) (indicator_rows w) = None \/
  fetchone (ni_title row) (fibonacci_rows w) = None ->
  news_iteration row w
  = (Returned tt, with_stdout w (stdout w ++ news_header row)).
Proof.
  intros Habsent. unfold news_iteration.
  repeat (unfold bind at 1; unfold print at 1).
  cbn [with_stdout indicator_rows fibonacci_rows stdout].
  destruct Habsent as [Hi|Hf].
  - rewrite Hi. unfold news_header, with_stdout; simpl.
    now rewrite <- !app_assoc.
  - rewrite Hf. destruct (fetchone (ni_title row) (indicator_rows w));
      unfold news_header, with_stdout; simpl; now rewrite <- !app_assoc.
Qed.

(** C9: when the indicator query or the Fibonacci query returns no row
    for the news item, the iteration prints the four header lines and
    nothing else happens: [make_trading_decision] is not entered (no
    'Analyzing news' line), and the trade log, the performance log, the
    indicator-effect log and the thresholds are what they were. *)
Theorem C9_missing_rows_skip_cycle (row : news_impact_row) (w : world) :
  fetchone (ni_title row) (indicator_rows w) = None \/
  fetchone (ni_title row) (fibonacci_rows w) = None ->
  let w' := snd (news_iteration row w) in
  news_iteration row w
  = (Returned tt, with_stdout w (stdout w ++ news_header row)) /\
  ~ In (AnalyzingNews (ni_title row) (ni_currency row)) (news_header row) /\
  trade_log w' = trade_log w /\
  trade_log_auto_increment w' = trade_log_auto_increment w /\
  performance_log w' = performance_log w /\
  indicators_effect w' = indicators_effect w /\
  dynamic_thresholds w' = dynamic_thresholds w.
Proof.
  intros Habsent w'.
  pose proof (news_iteration_missing row w Habsent) as Hrun.
  split; [exact Hrun|]. split.
  - unfold news_header. simpl. intros [H|[H|[H|[H|[]]]]]; discriminate H.
  - unfold w'. rewrite Hrun. repeat split; reflexivity.
Qed.

Lemma C9_missing_rows_skip_cycle_witness :
  (fetchone (ni_title Sample.news)
     (indicator_rows Sample.world_without_fibonacci) = None \/
   fetchone (ni_title Sample.news)
     (fibonacci_rows Sample.world_without_fibonacci) = None) /\
  news_iteration Sample.news Sample.world_without_fibonacci
  = (Returned tt,
     with_stdout Sample.world_without_fibonacci
       (stdout Sample.world_without_fibonacci ++ news_header Sample.news)).
Proof.
  assert (H : fetchone (ni_title Sample.news)
                (indicator_rows Sample.world_without_fibonacci) = None \/
              fetchone (ni_title Sample.news)
                (fibonacci_rows Sample.world_without_fibonacci) = None)
    by (right; reflexivity).
  split; [exact H|].
  exact (proj1 (C9_missing_rows_skip_cycle Sample.news
                  Sample.world_without_fibonacci H)).
Defined.

(** With both rows on record the same news item does start a cycle. *)
Example both_rows_start_cycle :
  let w' := snd (fetch_news_and_impact Sample.world_with_fibonacci) in
  map tr_id (trade_log w') = [1%Z] /\
  map fst (performance_log w') = [1%Z] /\
  In (AnalyzingNews "2024-01-05 13:30:00" "EURUSD") (stdout w').
Proof. vm_compute. repeat split; auto 10. Qed.

(** A whole pass over news items that all lack a row records nothing. *)
Lemma fetch_news_and_impact_all_missing (w : world) :
  (forall row, In row (news_impact w) ->
     fetchone (ni_title row) (indicator_rows w) = None \/
     fetchone (ni_title row) (fibonacci_rows w) = None) ->
  fetch_news_and_impact w
  = (Returned tt,
     with_stdout w (stdout w ++ flat_map news_header (news_impact w))).
Proof.
  unfold fetch_news_and_impact.
  generalize (news_impact w) as rows.
  intros rows. revert w.
  induction rows as [|row rows IH]; intros w Habsent.
  - simpl. unfold ret. rewrite app_nil_r. now destruct w.
  - cbn [for_each flat_map]. unfold bind at 1.
    rewrite (news_iteration_missing row w (Habsent row (or_introl eq_refl))).
    rewrite IH by (intros r Hr; apply (Habsent r); now right).
    unfold with_stdout; simpl. now rewrite <- app_assoc.
Qed.

(** ** The news ledger *)

Section NewsLedger.

Import DataCollector.

Variable combine : string -> string -> option string.

Lemma count_news_app (ttl tm : string) (xs ys : list news_row) :
  count_news ttl tm (xs ++ ys)
  = (count_news ttl tm xs + count_news ttl tm ys)%nat.
Proof. unfold count_news. now rewrite filter_app, length_app. Qed.

Lemma count_news_stored (ttl tm : string) (table : list news_row) :
  (exists r, In r table /\ title r = ttl /\ news_time r = tm) <->
  count_news ttl tm table <> 0%nat.
Proof.
  unfold count_news. split.
  - intros [r [Hin [Ht Hm]]] Hz.
    apply length_zero_iff_nil in Hz.
    assert (Hr : In r (filter (fun r => (title r =? ttl)%string
                                        && (news_time r =? tm)%string)
                              table)).
    { apply filter_In. split; [exact Hin|].
      rewrite Ht, Hm, !String.eqb_refl. reflexivity. }
    rewrite Hz in Hr. destruct Hr.
  - intros Hnz.
    destruct (filter (fun r => (title r =? ttl)%string
                               && (news_time r =? tm)%string) table)
      as [|r rest] eqn:E; [now elim Hnz|].
    assert (Hr : In r (r :: rest)) by now left.
    rewrite <- E in Hr. apply filter_In in Hr. destruct Hr as [Hin Hb].
    apply andb_true_iff in Hb. destruct Hb as [Ht Hm].
    exists r. repeat split;
      [exact Hin | now apply String.eqb_eq | now apply String.eqb_eq].
Qed.

Lemma event_time_passes (it : news_item) (tm : string) :
  event_time combine it tm ->
  ((time it =? "")%string || (date it =? "")%string) = false /\
  combine (date it) (time it) = Some tm.
Proof.
  intros [Ht [Hd Hc]]. split; [|exact Hc].
  apply String.eqb_neq in Ht. apply String.eqb_neq in Hd.
  now rewrite Ht, Hd.
Qed.

(** An event whose title and timestamp are on record is left out. *)
Lemma insert_news_item_stored (s : state) (it : news_item) (tm : string) :
  event_time combine it tm ->
  count_news (event it) tm (news_data s) <> 0%nat ->
  insert_news_item combine s it = s.
Proof.
  intros Hev Hnz. destruct (event_time_passes it tm Hev) as [He Hc].
  unfold insert_news_item. rewrite He, Hc.
  apply Nat.eqb_neq in Hnz. now rewrite Hnz.
Qed.

(** An event that is not on record is appended, once. *)
Lemma insert_news_item_fresh (s : state) (it : news_item) (tm : string) :
  event_time combine it tm ->
  count_news (event it) tm (news_data s) = 0%nat ->
  exists r,
    title r = event it /\ news_time r = tm /\
    news_data (insert_news_item combine s it) = news_data s ++ [r].
Proof.
  intros Hev Hz. destruct (event_time_passes it tm Hev) as [He Hc].
  unfold insert_news_item. rewrite He, Hc, Hz. simpl.
  eexists. repeat split; reflexivity.
Qed.

Lemma count_news_one (ttl tm : string) (r : news_row) :
  title r = ttl -> news_time r = tm -> count_news ttl tm [r] = 1%nat.
Proof.
  intros Ht Hm. unfold count_news; simpl.
  now rewrite Ht, Hm, !String.eqb_refl.
Qed.

(** One step never takes a key from at most one row to more. *)
Lemma insert_news_item_unique (s : state) (it : news_item) :
  (forall ttl tm, (count_news ttl tm (news_data s) <= 1)%nat) ->
  forall ttl tm,
    (count_news ttl tm (news_data (insert_news_item combine s it)) <= 1)%nat.
Proof.
  intros Hu ttl tm. unfold insert_news_item.
  destruct ((time it =? "")%string || (date it =? "")%string); [apply Hu|].
  destruct (combine (date it) (time it)) as [tm'|]; [|apply Hu].
  destruct (Nat.eqb_spec (count_news (event it) tm' (news_data s)) 0)
    as [Hz|_]; [|apply Hu].
  cbn [news_data]. rewrite count_news_app.
  unfold count_news at 2; simpl.
  destruct (String.eqb_spec (event it) ttl) as [Het|_]; simpl.
  - destruct (String.eqb_spec tm' tm) as [Htm|_]; simpl.
    + subst. rewrite Hz. lia.
    + specialize (Hu ttl tm). lia.
  - specialize (Hu ttl tm). lia.
Qed.

Lemma insert_news_data_unique (items : list news_item) (s : state) :
  (forall ttl tm, (count_news ttl tm (news_data s) <= 1)%nat) ->
  forall ttl tm,
    (count_news ttl tm (news_data (insert_news_data combine items s)) <= 1)%nat.
Proof.
  unfold insert_news_data. revert s.
  induction items as [|it items IH]; intros s Hu; simpl.
  - exact Hu.
  - apply IH. now apply insert_news_item_unique.
Qed.

End NewsLedger.

(** C10: news events are deduplicated by (title, news_time).  An event
    whose title and timestamp match a stored row is not inserted again;
    two events with the same title and timestamp, neither on record, leave
    exactly one row (the table grows by one); and a table without
    duplicates has none after any insertion. *)
Theorem C10_news_deduplicated (combine : string -> string -> option string)
    (s : DataCollector.state) (e1 e2 : DataCollector.news_item) (tm : string) :
  DataCollector.event_time combine e1 tm ->
  DataCollector.event_time combine e2 tm ->
  DataCollector.event e1 = DataCollector.event e2 ->
  ((exists r, In r (DataCollector.news_data s) /\
              DataCollector.title r = DataCollector.event e1 /\
              DataCollector.news_time r = tm) ->
   DataCollector.insert_news_data combine [e1] s = s) /\
  (DataCollector.count_news (DataCollector.event e1) tm
     (DataCollector.news_data s) = 0%nat ->
   let s' := DataCollector.insert_news_data combine [e1; e2] s in
   DataCollector.count_news (DataCollector.event e1) tm
     (DataCollector.news_data s') = 1%nat /\
   List.length (DataCollector.news_data s')
   = S (List.length (DataCollector.news_data s))) /\
  ((forall ttl t, (DataCollector.count_news ttl t
                     (DataCollector.news_data s) <= 1)%nat) ->
   forall items ttl t,
     (DataCollector.count_news ttl t
        (DataCollector.news_data
           (DataCollector.insert_news_data combine items s)) <= 1)%nat).
Proof.
  intros H1 H2 Hev. split; [|split].
  - intros Hst. apply count_news_stored in Hst.
    unfold DataCollector.insert_news_data; simpl.
    now apply insert_news_item_stored with (tm := tm).
  - intros Hz s'.
    destruct (insert_news_item_fresh combine s e1 tm H1 Hz)
      as [r [Hrt [Hrm Hrows]]].
    assert (Hcount : DataCollector.count_news (DataCollector.event e1) tm
                       (DataCollector.news_data
                          (DataCollector.insert_news_item combine s e1))
                     = 1%nat).
    { rewrite Hrows, count_news_app, Hz.
      now rewrite (count_news_one _ _ r Hrt Hrm). }
    assert (Hs' : s' = DataCollector.insert_news_item combine s e1).
    { unfold s', DataCollector.insert_news_data; simpl.
      apply insert_news_item_stored with (tm := tm); [exact H2|].
      rewrite <- Hev, Hcount. discriminate. }
    rewrite Hs'. split; [exact Hcount|].
    rewrite Hrows, length_app. simpl. lia.
  - intros Hu items ttl t. now apply insert_news_data_unique.
Qed.

Lemma C10_news_deduplicated_witness :
  (DataCollector.event_time Sample.combine Sample.release
     "2024 FriJan 5 01:30PM" /\
   DataCollector.event_time Sample.combine Sample.release_again
     "2024 FriJan 5 01:30PM" /\
   DataCollector.event Sample.release
   = DataCollector.event Sample.release_again /\
   DataCollector.count_news (DataCollector.event Sample.release)
     "2024 FriJan 5 01:30PM" (DataCollector.news_data Sample.no_news)
   = 0%nat) /\
  DataCollector.count_news (DataCollector.event Sample.release)
    "2024 FriJan 5 01:30PM"
    (DataCollector.news_data
       (DataCollector.insert_news_data Sample.combine
          [Sample.release; Sample.release_again] Sample.no_news))
  = 1%nat /\
  List.length
    (DataCollector.news_data
       (DataCollector.insert_news_data Sample.combine
          [Sample.release; Sample.release_again] Sample.no_news))
  = 1%nat.
Proof.
  assert (H1 : DataCollector.event_time Sample.combine Sample.release
                 "2024 FriJan 5 01:30PM").
  { split; [discriminate | split; [discriminate | reflexivity]]. }
  assert (H2 : DataCollector.event_time Sample.combine Sample.release_again
                 "2024 FriJan 5 01:30PM").
  { split; [discriminate | split; [discriminate | reflexivity]]. }
  split; [split; [exact H1 | split; [exact H2 | split; reflexivity]] |].
  exact (proj1 (proj2 (C10_news_deduplicated Sample.combine Sample.no_news
                         Sample.release Sample.release_again
                         "2024 FriJan 5 01:30PM" H1 H2 eq_refl))
           eq_refl).
Defined.

(** The stored row is the first of the two; the second is dropped. *)
Example release_stored_once :
  map DataCollector.nr_actual
    (DataCollector.news_data
       (DataCollector.insert_news_data Sample.combine
          [Sample.release; Sample.release_again] Sample.no_news))
  = [""].
Proof. reflexivity. Qed.

(** * Further properties *)

(** ** The threshold store: adaptation, round trip, frame *)

Lemma find_other_currency (c c' : string) (t : thresholds)
    (rows : list threshold_row) :
  c' <> c ->
  find (fun r : threshold_row => (fst r =? c')%string)
    (map (fun r : threshold_row =>
            if (fst r =? c)%string then (fst r, t) else r) rows)
  = find (fun r : threshold_row => (fst r =? c')%string) rows.
Proof.
  intros Hne. induction rows as [|r rows IH]; simpl; [reflexivity|].
  destruct (String.eqb_spec (fst r) c) as [Heq|_]; simpl.
  - rewrite Heq. apply not_eq_sym in Hne. apply String.eqb_neq in Hne.
    rewrite Hne. exact IH.
  - now rewrite IH.
Qed.

Lemma save_then_get (currency : string) (t : thresholds) (w : world) :
  seeded currency w ->
  fst ((save_dynamic_thresholds currency t ;;
        get_dynamic_thresholds currency) w) = Returned t.
Proof.
  intros Hsd. unfold bind, save_dynamic_thresholds.
  rewrite get_dynamic_thresholds_run. simpl. unfold stored_thresholds.
  destruct (find_updated currency t _ Hsd) as [c Hc]. now rewrite Hc.
Qed.

(** X1: for a currency that has a threshold row, the thresholds read after
    [update_dynamic_thresholds] are the aggressive tuple when the score is
    positive and the conservative tuple when it is zero or negative. *)
Theorem X1_adapter_is_binary (currency : string) (performance_score : Q)
    (w : world) :
  seeded currency w ->
  let after := fst ((update_dynamic_thresholds currency performance_score ;;
                     get_dynamic_thresholds currency) w) in
  (0 < performance_score ->
   after = Returned {| th_SMA := 55; th_RSI_buy := 32; th_RSI_sell := 68;
                       th_MACD := 1 # 10; th_Bollinger_band := - (5 # 2);
                       th_EMA := 1 # 20 |}) /\
  (performance_score <= 0 ->
   after = Returned {| th_SMA := 45; th_RSI_buy := 28; th_RSI_sell := 72;
                       th_MACD := - (1 # 10); th_Bollinger_band := - (3 # 2);
                       th_EMA := - (1 # 20) |}).
Proof.
  intros Hsd after. unfold after, update_dynamic_thresholds. split.
  - intros Hpos. rewrite (proj2 (gtb_gt _ _) Hpos).
    now apply save_then_get.
  - intros Hneg. rewrite (proj2 (ltb_ge _ _) Hneg : Py.gtb _ _ = false).
    now apply save_then_get.
Qed.

Lemma X1_adapter_is_binary_witness :
  seeded "EURUSD" (Sample.seeded_world 0) /\
  fst ((update_dynamic_thresholds "EURUSD" (25 # 2) ;;
        get_dynamic_thresholds "EURUSD") (Sample.seeded_world 0))
  = Returned aggressive_thresholds /\
  fst ((update_dynamic_thresholds "EURUSD" (- (3 # 1)) ;;
        get_dynamic_thresholds "EURUSD") (Sample.seeded_world 0))
  = Returned conservative_thresholds.
Proof.
  assert (Hsd : seeded "EURUSD" (Sample.seeded_world 0)).
  { exists ("EURUSD", default_thresholds). split; [now left | reflexivity]. }
  split; [exact Hsd|]. split.
  - apply (proj1 (X1_adapter_is_binary "EURUSD" (25 # 2)
                    (Sample.seeded_world 0) Hsd)). reflexivity.
  - apply (proj2 (X1_adapter_is_binary "EURUSD" (- (3 # 1))
                    (Sample.seeded_world 0) Hsd)). discriminate.
Defined.

(** X2: [save_dynamic_thresholds] for one currency is invisible to every
    other currency: the thresholds read for another currency are the
    same before and after, the table keeps its rows' currencies in
    order (nothing is inserted or deleted), and no other table, nor the
    terminal, changes. *)
Theorem X2_save_thresholds_frame (currency other : string) (t : thresholds)
    (w : world) :
  other <> currency ->
  let w' := snd (save_dynamic_thresholds currency t w) in
  fst (get_dynamic_thresholds other w') = fst (get_dynamic_thresholds other w) /\
  map fst (dynamic_thresholds w') = map fst (dynamic_thresholds w) /\
  with_dynamic_thresholds w' (dynamic_thresholds w) = w.
Proof.
  intros Hne w'. unfold w', save_dynamic_thresholds; simpl.
  split; [|split].
  - rewrite !get_dynamic_thresholds_run; simpl. unfold stored_thresholds.
    now rewrite (find_other_currency currency other t _ Hne).
  - rewrite map_map. apply map_ext. intros r.
    now destruct (fst r =? currency)%string.
  - now destruct w.
Qed.

Lemma X2_save_thresholds_frame_witness :
  "EURUSD" <> "USDJPY" /\
  fst (get_dynamic_thresholds "EURUSD"
         (snd (save_dynamic_thresholds "USDJPY" aggressive_thresholds
                 (Sample.seeded_world 0))))
  = fst (get_dynamic_thresholds "EURUSD" (Sample.seeded_world 0)).
Proof.
  assert (H : "EURUSD" <> "USDJPY") by discriminate.
  split; [exact H|].
  exact (proj1 (X2_save_thresholds_frame "USDJPY" "EURUSD"
                  aggressive_thresholds (Sample.seeded_world 0) H)).
Defined.

Lemma save_twice_rows (currency : string) (t1 t2 : thresholds)
    (rows : list threshold_row) :
  map (fun r : threshold_row =>
         if (fst r =? currency)%string then (fst r, t2) else r)
    (map (fun r : threshold_row =>
            if (fst r =? currency)%string then (fst r, t1) else r) rows)
  = map (fun r : threshold_row =>
           if (fst r =? currency)%string then (fst r, t2) else r) rows.
Proof.
  rewrite map_map. apply map_ext. intros r.
  destruct (fst r =? currency)%string eqn:E; simpl; now rewrite E.
Qed.

(** X3: the threshold store is last-write-wins.  Saving a tuple for a
    currency that has a row and reading it back gives that tuple, and a
    second save for the same currency erases the first: the world is the
    one the second save alone would leave. *)
Theorem X3_threshold_round_trip (currency : string) (t1 t2 : thresholds)
    (w : world) :
  seeded currency w ->
  fst ((save_dynamic_thresholds currency t1 ;;
        get_dynamic_thresholds currency) w) = Returned t1 /\
  (save_dynamic_thresholds currency t1 ;;
   save_dynamic_thresholds currency t2) w
  = save_dynamic_thresholds currency t2 w /\
  seeded currency (snd (save_dynamic_thresholds currency t1 w)).
Proof.
  intros Hsd. split; [now apply save_then_get|]. split.
  - unfold bind, save_dynamic_thresholds; simpl.
    rewrite save_twice_rows. reflexivity.
  - destruct Hsd as [r [Hin Hr]].
    exists (fst r, t1). split; [|exact Hr].
    unfold save_dynamic_thresholds; simpl.
    apply in_map_iff. exists r. split; [|exact Hin].
    rewrite Hr, String.eqb_refl. reflexivity.
Qed.

Lemma X3_threshold_round_trip_witness :
  seeded "EURUSD" (Sample.seeded_world 0) /\
  fst ((save_dynamic_thresholds "EURUSD" aggressive_thresholds ;;
        get_dynamic_thresholds "EURUSD") (Sample.seeded_world 0))
  = Returned aggressive_thresholds.
Proof.
  assert (Hsd : seeded "EURUSD" (Sample.seeded_world 0)).
  { exists ("EURUSD", default_thresholds). split; [now left | reflexivity]. }
  split; [exact Hsd|].
  exact (proj1 (X3_threshold_round_trip "EURUSD" aggressive_thresholds
                  conservative_thresholds (Sample.seeded_world 0) Hsd)).
Defined.

(** ** The cycle, statement by statement *)

Lemma no_deep_loss_without_loss (profit_loss : Q) :
  Py.ltb profit_loss 0 = false -> Py.ltb profit_loss (-10) = false.
Proof.
  intros E0. apply ltb_ge in E0. apply ltb_ge.
  apply Qle_trans with (y := 0); [discriminate | exact E0].
Qed.

Lemma handle_failed_decision_run (trade_id : Z) (profit_loss : Q) (w : world) :
  handle_failed_decision trade_id profit_loss w
  = if Py.ltb profit_loss 0
    then (update_bad_decision trade_id hold 0 ;;
          print (UpdatedBadDecision trade_id)) w
    else (Returned tt, w).
Proof.
  unfold handle_failed_decision.
  destruct (Py.ltb profit_loss 0) eqn:E0; [reflexivity|].
  now rewrite (no_deep_loss_without_loss _ E0).
Qed.

Lemma evaluate_trade_run (act : action) (currency : string) (w : world) :
  evaluate_trade act currency w
  = (Returned (cycle_profit act w),
     match act with
     | hold => w
     | _ => with_random_pos
              (with_stdout w (stdout w ++ [EvaluatingTrade currency act]))
              (S (random_pos w))
     end).
Proof. destruct act; reflexivity. Qed.

Ltac settle_cases act :=
  unfold settle, bind;
  rewrite evaluate_trade_run;
  unfold log_trade_action, log_performance, update_dynamic_thresholds,
    save_dynamic_thresholds;
  rewrite handle_failed_decision_run;
  unfold bind, update_bad_decision, print, ret;
  destruct act;
  cbn [fst snd with_indicators_effect with_stdout
       with_random_pos with_trade_log with_performance_log
       with_dynamic_thresholds trade_log
       trade_log_auto_increment indicators_effect
       performance_log dynamic_thresholds stdout random
       random_pos negb action_eqb execute_trade cycle_profit
       news_impact indicator_rows fibonacci_rows];
  repeat match goal with
         | |- context [Py.ltb ?a ?b] => destruct (Py.ltb a b)
         end;
  unfold print;
  cbn [fst snd with_indicators_effect with_stdout
       with_random_pos with_trade_log with_performance_log
       with_dynamic_thresholds trade_log
       trade_log_auto_increment indicators_effect
       performance_log dynamic_thresholds stdout random
       random_pos news_impact indicator_rows fibonacci_rows].

Lemma settle_trade_log (currency : string) (indicators : Py.dict Q)
    (act : action) (w : world) :
  let trade_id := trade_log_auto_increment w in
  let profit_loss := cycle_profit act w in
  let rows := trade_log w
              ++ [new_trade_row trade_id act currency indicators profit_loss] in
  trade_log (snd (settle currency indicators act w))
  = if Py.ltb profit_loss 0 then map (correct_row trade_id hold 0) rows
    else rows.
Proof. settle_cases act; reflexivity. Qed.

Lemma settle_counter (currency : string) (indicators : Py.dict Q)
    (act : action) (w : world) :
  trade_log_auto_increment (snd (settle currency indicators act w))
  = (trade_log_auto_increment w + 1)%Z.
Proof. settle_cases act; reflexivity. Qed.

Lemma settle_performance_log (currency : string) (indicators : Py.dict Q)
    (act : action) (w : world) :
  performance_log (snd (settle currency indicators act w))
  = performance_log w ++ [(trade_log_auto_increment w, cycle_profit act w)].
Proof. settle_cases act; reflexivity. Qed.

Lemma settle_reads_only (currency : string) (indicators : Py.dict Q)
    (act : action) (w : world) :
  let w' := snd (settle currency indicators act w) in
  indicators_effect w' = indicators_effect w /\
  news_impact w' = news_impact w /\
  indicator_rows w' = indicator_rows w /\
  fibonacci_rows w' = fibonacci_rows w /\
  random w' = random w.
Proof. settle_cases act; repeat split; reflexivity. Qed.

Lemma settle_random_pos (currency : string) (indicators : Py.dict Q)
    (act : action) (w : world) :
  random_pos (snd (settle currency indicators act w))
  = match act with hold => random_pos w | _ => S (random_pos w) end.
Proof. settle_cases act; reflexivity. Qed.

Lemma settle_stdout (currency : string) (indicators : Py.dict Q)
    (act : action) (w : world) :
  stdout (snd (settle currency indicators act w))
  = stdout w
    ++ match act with
       | hold => []
       | _ => [EvaluatingTrade currency act]
       end
    ++ (if Py.ltb (cycle_profit act w) 0
        then [UpdatedBadDecision (trade_log_auto_increment w)] else [])
    ++ match act with
       | hold => []
       | _ => [Executing act currency]
       end.
Proof.
  settle_cases act; rewrite <- ?app_assoc; cbn [app];
    rewrite ?app_nil_r; reflexivity.
Qed.

Lemma cycle_profit_after_logging (act : action) (w : world)
    (o : list output) (e : list effect_row) :
  cycle_profit act (with_indicators_effect (with_stdout w o) e)
  = cycle_profit act w.
Proof. destruct act; reflexivity. Qed.

Lemma make_trading_decision_missing (news_title currency impact : string)
    (indicators : Py.dict Q) (fib : fibonacci_levels) (w : world) :
  Py.get "SMA" indicators = None ->
  make_trading_decision news_title currency impact indicators fib w
  = (Raised (KeyError "SMA"),
     with_indicators_effect
       (with_stdout w (stdout w ++ [AnalyzingNews news_title currency]))
       (indicators_effect w ++ effects_of impact indicators)).
Proof.
  intros Hs.
  rewrite make_trading_decision_unfold. unfold bind at 1. unfold print.
  unfold bind at 1. rewrite get_dynamic_thresholds_run.
  unfold bind at 1. rewrite decide_run.
  now rewrite (range_filter_missing _ _ _ _ Hs).
Qed.

(** X4: a dict of indicators without the key 'SMA' (the empty dict
    included) makes [make_trading_decision] raise KeyError('SMA') at the
    Fibonacci test.  By then every indicator has been logged to
    [indicators_effect]; no trade is recorded, no performance entry is
    written, the thresholds are not updated and no random number is
    drawn. *)
Theorem X4_missing_sma_raises_key_error (news_title currency impact : string)
    (indicators : Py.dict Q) (fib : fibonacci_levels) (w : world) :
  Py.get "SMA" indicators = None ->
  let r := make_trading_decision news_title currency impact indicators fib w in
  fst r = Raised (KeyError "SMA") /\
  indicators_effect (snd r)
  = indicators_effect w ++ map (fun kv => (fst kv, snd kv, impact)) indicators /\
  stdout (snd r) = stdout w ++ [AnalyzingNews news_title currency] /\
  trade_log (snd r) = trade_log w /\
  trade_log_auto_increment (snd r) = trade_log_auto_increment w /\
  performance_log (snd r) = performance_log w /\
  dynamic_thresholds (snd r) = dynamic_thresholds w /\
  random_pos (snd r) = random_pos w.
Proof.
  intros Hs r. unfold r.
  rewrite (make_trading_decision_missing _ _ _ _ _ _ Hs).
  repeat split; reflexivity.
Qed.

Lemma X4_missing_sma_raises_key_error_witness :
  Py.get "SMA" [("RSI", 25)] = None /\
  fst (make_trading_decision "2024-01-05 13:30:00" "EURUSD"
         "High Impact Expected" [("RSI", 25)] Sample.fib_both
         (Sample.empty_world 0))
  = Raised (KeyError "SMA").
Proof.
  assert (H : Py.get "SMA" [("RSI", 25)] = None) by reflexivity.
  split; [exact H|].
  exact (proj1 (X4_missing_sma_raises_key_error "2024-01-05 13:30:00"
                  "EURUSD" "High Impact Expected" [("RSI", 25)]
                  Sample.fib_both (Sample.empty_world 0) H)).
Defined.


(** ** The ledger *)

Lemma correct_row_other (trade_id : Z) (rows : list trade_row) :
  (forall r, In r rows -> (tr_id r < trade_id)%Z) ->
  map (correct_row trade_id hold 0) rows = rows.
Proof.
  intros Hlt. rewrite <- (map_id rows) at 2. apply map_ext_in.
  intros r Hin. unfold correct_row.
  destruct (Z.eqb_spec (tr_id r) trade_id) as [Heq|_]; [|reflexivity].
  specialize (Hlt r Hin). lia.
Qed.

Lemma make_trading_decision_trade_log (news_title currency impact : string)
    (indicators : Py.dict Q) (fib : fibonacci_levels) (w : world) (s : Q) :
  Py.get "SMA" indicators = Some s ->
  fresh_ids w ->
  let trade_id := trade_log_auto_increment w in
  let act := cycle_action currency indicators fib s w in
  let profit_loss := cycle_profit act w in
  trade_log
    (snd (make_trading_decision news_title currency impact indicators fib w))
  = trade_log w
    ++ [if Py.ltb profit_loss 0
        then corrected_trade_row trade_id currency indicators profit_loss
        else new_trade_row trade_id act currency indicators profit_loss].
Proof.
  intros Hs Hfresh trade_id act profit_loss.
  rewrite (make_trading_decision_run _ _ _ _ _ _ s Hs).
  fold (cycle_action currency indicators fib s w). fold act.
  rewrite settle_trade_log.
  cbn [trade_log trade_log_auto_increment with_indicators_effect with_stdout].
  rewrite cycle_profit_after_logging. fold trade_id profit_loss.
  destruct (Py.ltb profit_loss 0); [|reflexivity].
  rewrite map_app, (correct_row_other trade_id (trade_log w) Hfresh).
  cbn [map]. unfold correct_row, new_trade_row; cbn [tr_id].
  now rewrite Z.eqb_refl.
Qed.

Lemma cycle_appends_one (news_title currency impact : string)
    (indicators : Py.dict Q) (fib : fibonacci_levels) (w : world) (s : Q) :
  Py.get "SMA" indicators = Some s ->
  fresh_ids w ->
  let w' := snd (make_trading_decision news_title currency impact indicators
                   fib w) in
  exists row,
    trade_log w' = trade_log w ++ [row] /\
    tr_id row = trade_log_auto_increment w /\
    tr_currency row = currency /\
    performance_log w' = performance_log w ++ [(tr_id row, tr_result row)] /\
    trade_log_auto_increment w' = (trade_log_auto_increment w + 1)%Z.
Proof.
  intros Hs Hfresh w'.
  pose proof (make_trading_decision_trade_log news_title currency impact
                indicators fib w s Hs Hfresh) as Hlog.
  cbn zeta in Hlog. fold w' in Hlog.
  set (act := cycle_action currency indicators fib s w) in *.
  set (pl := cycle_profit act w) in *.
  assert (Hperf : performance_log w'
                  = performance_log w ++ [(trade_log_auto_increment w, pl)]).
  { unfold w'. rewrite (make_trading_decision_run _ _ _ _ _ _ s Hs).
    rewrite settle_performance_log.
    cbn [performance_log trade_log_auto_increment with_indicators_effect
         with_stdout].
    now rewrite cycle_profit_after_logging. }
  assert (Hcnt : trade_log_auto_increment w'
                 = (trade_log_auto_increment w + 1)%Z).
  { unfold w'. rewrite (make_trading_decision_run _ _ _ _ _ _ s Hs).
    now rewrite settle_counter. }
  eexists. split; [exact Hlog|].
  assert (Hrow : forall r,
            r = (if Py.ltb pl 0
                 then corrected_trade_row (trade_log_auto_increment w)
                        currency indicators pl
                 else new_trade_row (trade_log_auto_increment w) act
                        currency indicators pl) ->
            tr_id r = trade_log_auto_increment w /\
            tr_currency r = currency /\ tr_result r = pl).
  { intros r ->. destruct (Py.ltb pl 0); repeat split; reflexivity. }
  destruct (Hrow _ eq_refl) as [Hid [Hcur Hres]].
  split; [exact Hid|]. split; [exact Hcur|].
  split; [now rewrite Hid, Hres | exact Hcnt].
Qed.

Lemma fresh_ids_grow (w w' : world) (row : trade_row) :
  fresh_ids w ->
  trade_log w' = trade_log w ++ [row] ->
  tr_id row = trade_log_auto_increment w ->
  trade_log_auto_increment w' = (trade_log_auto_increment w + 1)%Z ->
  fresh_ids w'.
Proof.
  intros Hfresh Hlog Hid Hcnt r Hin. rewrite Hcnt. rewrite Hlog in Hin.
  apply in_app_or in Hin. destruct Hin as [Hin|[<-|[]]].
  - specialize (Hfresh r Hin). lia.
  - rewrite Hid. lia.
Qed.

(** X6: with identifiers below the AUTO_INCREMENT counter, a completed
    cycle appends exactly one row to [trade_log], under the counter's
    value, and exactly one entry to [performance_log], carrying that
    identifier and the row's result; earlier rows and entries are
    untouched, the counter advances by one and the identifiers stay below
    it. *)
Theorem X6_one_record_and_one_entry_per_cycle
    (news_title currency impact : string) (indicators : Py.dict Q)
    (fib : fibonacci_levels) (w : world) (s : Q) :
  Py.get "SMA" indicators = Some s ->
  fresh_ids w ->
  let w' := snd (make_trading_decision news_title currency impact indicators
                   fib w) in
  exists row,
    trade_log w' = trade_log w ++ [row] /\
    tr_id row = trade_log_auto_increment w /\
    tr_currency row = currency /\
    performance_log w' = performance_log w ++ [(tr_id row, tr_result row)] /\
    trade_log_auto_increment w' = (trade_log_auto_increment w + 1)%Z /\
    fresh_ids w'.
Proof.
  intros Hs Hfresh w'.
  destruct (cycle_appends_one news_title currency impact indicators fib w s
              Hs Hfresh) as [row (Hlog & Hid & Hcur & Hperf & Hcnt)].
  fold w' in Hlog, Hperf, Hcnt.
  exists row. repeat split; try assumption.
  exact (fresh_ids_grow w w' row Hfresh Hlog Hid Hcnt).
Qed.

Lemma X6_one_record_and_one_entry_per_cycle_witness :
  (Py.get "SMA" Sample.indicators = Some 60 /\
   fresh_ids (Sample.empty_world (1 # 2))) /\
  exists row,
    trade_log (snd (make_trading_decision "2024-01-05 13:30:00" "EURUSD"
                      "High Impact Expected" Sample.indicators Sample.fib_both
                      (Sample.empty_world (1 # 2))))
    = trade_log (Sample.empty_world (1 # 2)) ++ [row] /\
    tr_id row = 1%Z.
Proof.
  assert (Hs : Py.get "SMA" Sample.indicators = Some 60) by reflexivity.
  assert (Hf : fresh_ids (Sample.empty_world (1 # 2))) by (intros r []).
  split; [now split|].
  destruct (X6_one_record_and_one_entry_per_cycle "2024-01-05 13:30:00"
              "EURUSD" "High Impact Expected" Sample.indicators
              Sample.fib_both (Sample.empty_world (1 # 2)) 60 Hs Hf)
    as [row [H1 [H2 _]]].
  exists row. split; [exact H1 | exact H2].
Defined.

(** X7: what the ledger keeps of a cycle.  With a simulated result below
    zero, however small the loss, the new record ends with action hold
    and performance_score 0, keeping the loss as its result; with a
    result of zero or more it keeps the action of the cycle and no
    performance_score.  In both cases it records the decision that
    [decide] returned for the stored thresholds. *)
Theorem X7_losing_trades_are_recorded_as_hold
    (news_title currency impact : string) (indicators : Py.dict Q)
    (fib : fibonacci_levels) (w : world) (s : Q) :
  Py.get "SMA" indicators = Some s ->
  fresh_ids w ->
  let w' := snd (make_trading_decision news_title currency impact indicators
                   fib w) in
  let trade_id := trade_log_auto_increment w in
  let act := cycle_action currency indicators fib s w in
  let profit_loss := cycle_profit act w in
  fst (decide (stored_thresholds currency (dynamic_thresholds w)) impact
         indicators fib w) = Returned act /\
  (profit_loss < 0 ->
   trade_log w'
   = trade_log w
     ++ [corrected_trade_row trade_id currency indicators profit_loss]) /\
  (0 <= profit_loss ->
   trade_log w'
   = trade_log w
     ++ [new_trade_row trade_id act currency indicators profit_loss]).
Proof.
  intros Hs Hfresh w' trade_id act profit_loss.
  pose proof (make_trading_decision_trade_log news_title currency impact
                indicators fib w s Hs Hfresh) as Hlog.
  cbn zeta in Hlog. fold w' trade_id act profit_loss in Hlog.
  split; [apply (decide_action _ _ _ _ _ s Hs)|]. split.
  - intros Hloss. now rewrite Hlog, (proj2 (ltb_lt _ _) Hloss).
  - intros Hgain. now rewrite Hlog, (proj2 (ltb_ge _ _) Hgain).
Qed.

Lemma X7_losing_trades_are_recorded_as_hold_witness :
  (Py.get "SMA" Sample.indicators = Some 60 /\
   fresh_ids (Sample.empty_world (3 # 10)) /\
   cycle_profit
     (cycle_action "EURUSD" Sample.indicators Sample.fib_both 60
        (Sample.empty_world (3 # 10)))
     (Sample.empty_world (3 # 10)) < 0) /\
  map tr_action
    (trade_log (snd (make_trading_decision "2024-01-05 13:30:00" "EURUSD"
                       "High Impact Expected" Sample.indicators
                       Sample.fib_both (Sample.empty_world (3 # 10)))))
  = [hold].
Proof.
  assert (Hs : Py.get "SMA" Sample.indicators = Some 60) by reflexivity.
  assert (Hf : fresh_ids (Sample.empty_world (3 # 10))) by (intros r []).
  assert (Hl : cycle_profit
                 (cycle_action "EURUSD" Sample.indicators Sample.fib_both 60
                    (Sample.empty_world (3 # 10)))
                 (Sample.empty_world (3 # 10)) < 0) by reflexivity.
  split; [repeat split; assumption|].
  rewrite (proj1 (proj2 (X7_losing_trades_are_recorded_as_hold
                           "2024-01-05 13:30:00" "EURUSD"
                           "High Impact Expected" Sample.indicators
                           Sample.fib_both (Sample.empty_world (3 # 10)) 60
                           Hs Hf)) Hl).
  reflexivity.
Defined.

(** X8: the correction does not reach the execution.  When the cycle
    settles on buy or sell, one random number is drawn and the last thing
    the cycle does is [execute_trade] with that action, also when the
    simulated result is a loss and every record of the trade in the ledger
    has just been rewritten to hold. *)
Theorem X8_executes_action_even_after_correction
    (news_title currency impact : string) (indicators : Py.dict Q)
    (fib : fibonacci_levels) (w : world) (s : Q) :
  Py.get "SMA" indicators = Some s ->
  let act := cycle_action currency indicators fib s w in
  act <> hold ->
  let w' := snd (make_trading_decision news_title currency impact indicators
                   fib w) in
  let trade_id := trade_log_auto_increment w in
  stdout w'
  = stdout w
    ++ [AnalyzingNews news_title currency; EvaluatingTrade currency act]
    ++ (if Py.ltb (cycle_profit act w) 0
        then [UpdatedBadDecision trade_id] else [])
    ++ [Executing act currency] /\
  random_pos w' = S (random_pos w) /\
  (cycle_profit act w < 0 ->
   forall r, In r (trade_log w') -> tr_id r = trade_id -> tr_action r = hold).
Proof.
  intros Hs act Hact w' trade_id.
  unfold w'. rewrite (make_trading_decision_run _ _ _ _ _ _ s Hs).
  fold (cycle_action currency indicators fib s w). fold act.
  split; [|split].
  - rewrite settle_stdout. rewrite cycle_profit_after_logging.
    cbn [stdout trade_log_auto_increment with_indicators_effect with_stdout].
    fold trade_id. rewrite <- app_assoc. cbn [app].
    destruct act; [reflexivity | reflexivity | now elim Hact].
  - rewrite settle_random_pos.
    destruct act; [reflexivity | reflexivity | now elim Hact].
  - intros Hloss r Hin Hid. rewrite settle_trade_log in Hin.
    rewrite cycle_profit_after_logging in Hin.
    rewrite (proj2 (ltb_lt _ _) Hloss) in Hin.
    apply in_map_iff in Hin. destruct Hin as [r0 [Hr0 _]].
    cbn [trade_log_auto_increment with_indicators_effect with_stdout] in Hr0.
    fold trade_id in Hr0. subst r. unfold correct_row in *.
    destruct (Z.eqb_spec (tr_id r0) trade_id) as [_|Hne]; [reflexivity|].
    contradiction.
Qed.

Lemma X8_executes_action_even_after_correction_witness :
  (Py.get "SMA" Sample.indicators = Some 60 /\
   cycle_action "EURUSD" Sample.indicators Sample.fib_both 60
     (Sample.empty_world (3 # 10)) <> hold) /\
  stdout (snd (make_trading_decision "2024-01-05 13:30:00" "EURUSD"
                 "High Impact Expected" Sample.indicators Sample.fib_both
                 (Sample.empty_world (3 # 10))))
  = [ AnalyzingNews "2024-01-05 13:30:00" "EURUSD";
      EvaluatingTrade "EURUSD" buy;
      UpdatedBadDecision 1;
      Executing buy "EURUSD" ].
Proof.
  assert (Hs : Py.get "SMA" Sample.indicators = Some 60) by reflexivity.
  assert (Ha : cycle_action "EURUSD" Sample.indicators Sample.fib_both 60
                 (Sample.empty_world (3 # 10)) <> hold) by discriminate.
  split; [now split|].
  rewrite (proj1 (X8_executes_action_even_after_correction
                    "2024-01-05 13:30:00" "EURUSD" "High Impact Expected"
                    Sample.indicators Sample.fib_both
                    (Sample.empty_world (3 # 10)) 60 Hs Ha)).
  reflexivity.
Defined.

(** X9: a cycle that settles on hold is quiet.  It draws no random
    number, prints nothing after the 'Analyzing news' line, executes
    nothing, and records a hold with result 0 that no correction touches;
    the performance entry is 0. *)
Theorem X9_hold_cycle_is_quiet
    (news_title currency impact : string) (indicators : Py.dict Q)
    (fib : fibonacci_levels) (w : world) (s : Q) :
  Py.get "SMA" indicators = Some s ->
  cycle_action currency indicators fib s w = hold ->
  let w' := snd (make_trading_decision news_title currency impact indicators
                   fib w) in
  let trade_id := trade_log_auto_increment w in
  stdout w' = stdout w ++ [AnalyzingNews news_title currency] /\
  random_pos w' = random_pos w /\
  trade_log w'
  = trade_log w ++ [new_trade_row trade_id hold currency indicators 0] /\
  performance_log w' = performance_log w ++ [(trade_id, 0)].
Proof.
  intros Hs Hact w' trade_id.
  unfold w'. rewrite (make_trading_decision_run _ _ _ _ _ _ s Hs).
  fold (cycle_action currency indicators fib s w). rewrite Hact.
  split; [|split; [|split]].
  - rewrite settle_stdout. cbn. now rewrite app_nil_r.
  - now rewrite settle_random_pos.
  - now rewrite settle_trade_log.
  - now rewrite settle_performance_log.
Qed.

Lemma X9_hold_cycle_is_quiet_witness :
  (Py.get "SMA" Cases.quiet_indicators = Some 40 /\
   cycle_action "EURUSD" Cases.quiet_indicators Sample.fib_both 40
     (Sample.empty_world (3 # 10)) = hold) /\
  stdout (snd (make_trading_decision "2024-01-05 13:30:00" "EURUSD"
                 "High Impact Expected" Cases.quiet_indicators
                 Sample.fib_both (Sample.empty_world (3 # 10))))
  = stdout (Sample.empty_world (3 # 10))
    ++ [AnalyzingNews "2024-01-05 13:30:00" "EURUSD"].
Proof.
  assert (Hs : Py.get "SMA" Cases.quiet_indicators = Some 40) by reflexivity.
  assert (Ha : cycle_action "EURUSD" Cases.quiet_indicators Sample.fib_both 40
                 (Sample.empty_world (3 # 10)) = hold) by reflexivity.
  split; [now split|].
  exact (proj1 (X9_hold_cycle_is_quiet "2024-01-05 13:30:00" "EURUSD"
                  "High Impact Expected" Cases.quiet_indicators
                  Sample.fib_both (Sample.empty_world (3 # 10)) 40 Hs Ha)).
Defined.

(** ** A whole pass of [fetch_news_and_impact] *)

Lemma news_iteration_with_data (row : news_impact_row) (w : world)
    (d : indicator_data) (f : fibonacci_levels) :
  fetchone (ni_title row) (indicator_rows w) = Some d ->
  fetchone (ni_title row) (fibonacci_rows w) = Some f ->
  news_iteration row w
  = make_trading_decision (ni_title row) (ni_currency row) (ni_impact row)
      (indicators_of d) f (with_stdout w (stdout w ++ news_header row)).
Proof.
  intros Hd Hf. unfold news_iteration.
  repeat (unfold bind at 1; unfold print at 1).
  cbn [with_stdout indicator_rows fibonacci_rows stdout].
  rewrite Hd, Hf. f_equal.
  unfold news_header, with_stdout; simpl. now rewrite <- !app_assoc.
Qed.

Lemma has_data_false (row : news_impact_row) (w : world) :
  has_data w row = false ->
  fetchone (ni_title row) (indicator_rows w) = None \/
  fetchone (ni_title row) (fibonacci_rows w) = None.
Proof.
  unfold has_data.
  destruct (fetchone (ni_title row) (indicator_rows w)); [|now left].
  destruct (fetchone (ni_title row) (fibonacci_rows w)); [discriminate|].
  now right.
Qed.

Lemma has_data_true (row : news_impact_row) (w : world) :
  has_data w row = true ->
  exists d f,
    fetchone (ni_title row) (indicator_rows w) = Some d /\
    fetchone (ni_title row) (fibonacci_rows w) = Some f.
Proof.
  unfold has_data.
  destruct (fetchone (ni_title row) (indicator_rows w)) as [d|];
    [|discriminate].
  destruct (fetchone (ni_title row) (fibonacci_rows w)) as [f|];
    [|discriminate].
  intros _. now exists d, f.
Qed.


Lemma make_trading_decision_tables (news_title currency impact : string)
    (indicators : Py.dict Q) (fib : fibonacci_levels) (w : world) (s : Q) :
  Py.get "SMA" indicators = Some s ->
  let r := make_trading_decision news_title currency impact indicators fib w in
  fst r = Returned tt /\
  indicator_rows (snd r) = indicator_rows w /\
  fibonacci_rows (snd r) = fibonacci_rows w.
Proof.
  intros Hs r. unfold r.
  rewrite (make_trading_decision_run _ _ _ _ _ _ s Hs).
  split; [apply settle_returns|].
  destruct (settle_reads_only currency indicators
              (override fib s
                 (signals (stored_thresholds currency (dynamic_thresholds w))
                    indicators hold))
              (with_indicators_effect
                 (with_stdout w (stdout w ++ [AnalyzingNews news_title currency]))
                 (indicators_effect w ++ effects_of impact indicators)))
    as (_ & _ & Hi & Hf & _).
  split; [exact Hi | exact Hf].
Qed.

(** One iteration: it returns, keeps the two query tables, and adds a
    trade record and a performance entry exactly when the news item has
    both rows. *)
Lemma news_iteration_step (row : news_impact_row) (w : world) :
  let r := news_iteration row w in
  let n := if has_data w row then 1%nat else 0%nat in
  fst r = Returned tt /\
  indicator_rows (snd r) = indicator_rows w /\
  fibonacci_rows (snd r) = fibonacci_rows w /\
  List.length (trade_log (snd r)) = (List.length (trade_log w) + n)%nat /\
  List.length (performance_log (snd r))
  = (List.length (performance_log w) + n)%nat.
Proof.
  intros r n. unfold r, n.
  destruct (has_data w row) eqn:Hd.
  - destruct (has_data_true row w Hd) as [d [f [Hi Hf]]].
    rewrite (news_iteration_with_data row w d f Hi Hf).
    destruct (make_trading_decision_tables (ni_title row) (ni_currency row)
                (ni_impact row) (indicators_of d) f
                (with_stdout w (stdout w ++ news_header row))
                (sma_value d) (pipeline_sma d)) as (Hr & Hti & Htf).
    split; [exact Hr|]. split; [exact Hti|]. split; [exact Htf|].
    rewrite (make_trading_decision_run _ _ _ _ _ _ _ (pipeline_sma d)).
    split.
    + rewrite <- (length_map tr_id), settle_keeps_record.
      rewrite length_app, length_map. reflexivity.
    + rewrite settle_performance_log, length_app. reflexivity.
  - rewrite (news_iteration_missing row w (has_data_false row w Hd)).
    cbn [fst snd with_stdout indicator_rows fibonacci_rows trade_log
         performance_log].
    repeat split; lia.
Qed.



Lemma fresh_ids_after_printing (w : world) (o : list output) :
  fresh_ids w -> fresh_ids (with_stdout w o).
Proof. intros H r Hin. exact (H r Hin). Qed.

Lemma news_iteration_appends (row : news_impact_row) (w : world) :
  fresh_ids w ->
  let w' := snd (news_iteration row w) in
  exists added,
    trade_log w' = trade_log w ++ added /\
    performance_log w'
    = performance_log w ++ map (fun r => (tr_id r, tr_result r)) added /\
    fresh_ids w'.
Proof.
  intros Hfresh w'. unfold w'.
  destruct (has_data w row) eqn:Hd.
  - destruct (has_data_true row w Hd) as [d [f [Hi Hf]]].
    rewrite (news_iteration_with_data row w d f Hi Hf).
    set (w0 := with_stdout w (stdout w ++ news_header row)).
    assert (Hfresh0 : fresh_ids w0) by now apply fresh_ids_after_printing.
    destruct (cycle_appends_one (ni_title row) (ni_currency row)
                (ni_impact row) (indicators_of d) f w0 (sma_value d)
                (pipeline_sma d) Hfresh0)
      as [r (Hlog & Hid & _ & Hperf & Hcnt)].
    exists [r]. split; [exact Hlog|]. split; [exact Hperf|].
    exact (fresh_ids_grow w0 _ r Hfresh0 Hlog Hid Hcnt).
  - rewrite (news_iteration_missing row w (has_data_false row w Hd)).
    exists []. cbn [snd trade_log performance_log with_stdout map].
    rewrite !app_nil_r. repeat split.
    now apply fresh_ids_after_printing.
Qed.

Lemma for_each_news_appends (rows : list news_impact_row) (w : world) :
  fresh_ids w ->
  let w' := snd (for_each news_iteration rows w) in
  exists added,
    trade_log w' = trade_log w ++ added /\
    performance_log w'
    = performance_log w ++ map (fun r => (tr_id r, tr_result r)) added /\
    fresh_ids w'.
Proof.
  revert w. induction rows as [|row rows IH]; intros w Hfresh.
  - exists []. cbn. rewrite !app_nil_r. now repeat split.
  - cbn [for_each]. unfold bind.
    destruct (news_iteration_appends row w Hfresh) as [a1 (Hl1 & Hp1 & Hf1)].
    destruct (news_iteration_step row w) as (Hr & _).
    destruct (news_iteration row w) as [[[]|e] w1]; [|discriminate Hr].
    cbn [fst snd] in *.
    destruct (IH w1 Hf1) as [a2 (Hl2 & Hp2 & Hf2)].
    exists (a1 ++ a2). split; [|split; [|exact Hf2]].
    + now rewrite Hl2, Hl1, app_assoc.
    + now rewrite Hp2, Hp1, map_app, app_assoc.
Qed.

(** X11: records are only ever appended.  Starting from identifiers below
    the AUTO_INCREMENT counter, a whole pass of [fetch_news_and_impact]
    leaves every earlier trade record and performance entry as it was (a
    record rewritten to hold is never changed back, nothing is deleted),
    appends the new records after them, writes for each new record one
    performance entry with its identifier and its result, in the same
    order, and keeps the identifiers below the counter. *)
Theorem X11_pass_only_appends (w : world) :
  fresh_ids w ->
  let w' := snd (fetch_news_and_impact w) in
  exists added,
    trade_log w' = trade_log w ++ added /\
    performance_log w'
    = performance_log w ++ map (fun r => (tr_id r, tr_result r)) added /\
    fresh_ids w'.
Proof.
  intros Hfresh. unfold fetch_news_and_impact.
  exact (for_each_news_appends (news_impact w) w Hfresh).
Qed.

Lemma X11_pass_only_appends_witness :
  fresh_ids Sample.world_with_fibonacci /\
  exists added,
    trade_log (snd (fetch_news_and_impact Sample.world_with_fibonacci))
    = trade_log Sample.world_with_fibonacci ++ added /\
    performance_log (snd (fetch_news_and_impact Sample.world_with_fibonacci))
    = performance_log Sample.world_with_fibonacci
      ++ map (fun r => (tr_id r, tr_result r)) added.
Proof.
  assert (Hf : fresh_ids Sample.world_with_fibonacci) by (intros r []).
  split; [exact Hf|].
  destruct (X11_pass_only_appends Sample.world_with_fibonacci Hf)
    as [added (H1 & H2 & _)].
  exists added. split; [exact H1 | exact H2].
Defined.

(** ** More on the decision *)

(** X12: outside the two Fibonacci bands the Range Filter changes
    nothing: with an SMA reading that is neither strictly inside
    (level_38_2, level_61_8) nor strictly inside (level_50_0, level_100),
    the action of the cycle is the vote of the last indicator that meets
    a rule condition, and hold when none does. *)
Theorem X12_outside_bands_last_vote_stands (t : thresholds) (impact : string)
    (indicators : Py.dict Q) (fib : fibonacci_levels) (w : world) (s : Q) :
  Py.get "SMA" indicators = Some s ->
  ~ (level_38_2 fib < s /\ s < level_61_8 fib) ->
  ~ (level_50_0 fib < s /\ s < level_100 fib) ->
  exists a,
    fst (decide t impact indicators fib w) = Returned a /\
    last_vote t indicators a.
Proof.
  intros Hs Hnb Hns. exists (signals t indicators hold). split.
  - rewrite decide_run.
    now rewrite (range_filter_keep _ _ _ _ s Hs Hnb Hns).
  - apply signals_last_vote.
Qed.

Lemma X12_outside_bands_last_vote_stands_witness :
  (Py.get "SMA" (readings 30 25 0 0 0) = Some 30 /\
   ~ (level_38_2 Sample.fib_both < 30 /\ 30 < level_61_8 Sample.fib_both) /\
   ~ (level_50_0 Sample.fib_both < 30 /\ 30 < level_100 Sample.fib_both)) /\
  exists a,
    fst (decide default_thresholds "High Impact Expected"
           (readings 30 25 0 0 0) Sample.fib_both (Sample.empty_world 0))
    = Returned a /\
    last_vote default_thresholds (readings 30 25 0 0 0) a.
Proof.
  assert (H1 : ~ (level_38_2 Sample.fib_both < 30
                  /\ 30 < level_61_8 Sample.fib_both))
    by (intros [H _]; discriminate H).
  assert (H2 : ~ (level_50_0 Sample.fib_both < 30
                  /\ 30 < level_100 Sample.fib_both))
    by (intros [H _]; discriminate H).
  split; [split; [reflexivity | now split]|].
  exact (X12_outside_bands_last_vote_stands default_thresholds
           "High Impact Expected" (readings 30 25 0 0 0) Sample.fib_both
           (Sample.empty_world 0) 30 eq_refl H1 H2).
Defined.

Lemma rule_functional (t : thresholds) (name : string) (v : Q) (a b : action) :
  th_RSI_buy t <= th_RSI_sell t ->
  rule t name v a -> rule t name v b -> a = b.
Proof.
  intros Hord Ha Hb.
  inversion Ha; subst; inversion Hb; subst; try reflexivity;
    exfalso; lra.
Qed.

Lemma last_vote_functional (t : thresholds) (items : Py.dict Q) (a b : action) :
  th_RSI_buy t <= th_RSI_sell t ->
  last_vote t items a -> last_vote t items b -> a = b.
Proof.
  intros Hord Ha Hb.
  destruct Ha as [items Hs | bef n v aft a Hr Hs].
  - inversion Hb as [its' Hs' Hits' Hact' | bef' n' v' aft' b' Hr' Hs' Hits' Hact'].
    + reflexivity.
    + exfalso. subst. apply (Hs n' v' b); [|exact Hr'].
      apply in_or_app. right. now left.
  - remember (bef ++ (n, v) :: aft) as items eqn:Hitems.
    destruct Hb as [items Hs' | bef' n' v' aft' b Hr' Hs'].
    + exfalso. subst. apply (Hs' n v a); [|exact Hr].
      apply in_or_app. right. now left.
    + apply app_eq_app in Hitems.
      destruct Hitems as [l [[Hb1 Hb2]|[Hb1 Hb2]]].
      * destruct l as [|x l]; cbn in Hb2; inversion Hb2; subst.
        -- exact (rule_functional t _ _ a b Hord Hr Hr').
        -- exfalso. refine (Hs _ _ _ _ Hr').
           apply in_or_app. right. now left.
      * destruct l as [|x l]; cbn in Hb2; inversion Hb2; subst.
        -- exact (rule_functional t _ _ a b Hord Hr Hr').
        -- exfalso. refine (Hs' _ _ _ _ Hr).
           apply in_or_app. right. now left.
Qed.

(** X13: when the RSI buy level is not above the RSI sell level, as in
    the default, the aggressive and the conservative thresholds, no
    reading meets two rules with different votes, so the vote of the last
    indicator that meets a rule condition is unique and the loop over the
    indicators returns it. *)
Theorem X13_candidate_is_the_unique_last_vote (t : thresholds)
    (impact : string) (items : Py.dict Q) (a : action) (w : world) :
  th_RSI_buy t <= th_RSI_sell t ->
  last_vote t items a ->
  fst (evaluate_indicators t impact items hold w) = Returned a.
Proof.
  intros Hord Ha. rewrite evaluate_indicators_run. cbn [fst]. f_equal.
  exact (last_vote_functional t items _ a Hord (signals_last_vote t items) Ha).
Qed.

Lemma X13_candidate_is_the_unique_last_vote_witness :
  (th_RSI_buy default_thresholds <= th_RSI_sell default_thresholds /\
   th_RSI_buy aggressive_thresholds <= th_RSI_sell aggressive_thresholds /\
   th_RSI_buy conservative_thresholds <= th_RSI_sell conservative_thresholds /\
   last_vote default_thresholds (readings 40 75 (-1) 0 (-1)) sell) /\
  fst (evaluate_indicators default_thresholds "High Impact Expected"
         (readings 40 75 (-1) 0 (-1)) hold (Sample.empty_world 0))
  = Returned sell.
Proof.
  assert (H1 : th_RSI_buy default_thresholds <= th_RSI_sell default_thresholds)
    by discriminate.
  assert (H2 : last_vote default_thresholds (readings 40 75 (-1) 0 (-1)) sell).
  { apply (last_vote_at default_thresholds [("SMA", 40)] "RSI" 75
             [("MACD", -1); ("Bollinger_upper", 0); ("EMA", -1)] sell).
    - constructor. reflexivity.
    - intros n v a' Hin Hr.
      destruct Hin as [Hin|[Hin|[Hin|[]]]]; inversion Hin; subst;
        inversion Hr; subst;
        match goal with H : _ < _ |- _ => discriminate H end. }
  split; [repeat split; try discriminate; exact H2|].
  exact (X13_candidate_is_the_unique_last_vote default_thresholds
           "High Impact Expected" (readings 40 75 (-1) 0 (-1)) sell
           (Sample.empty_world 0) H1 H2).
Defined.

(** ** Corrections on the ledger *)

Lemma filter_all_kept {A : Type} (f : A -> bool) (l : list A) :
  (forall x, In x l -> f x = true) -> filter f l = l.
Proof.
  induction l as [|x l IH]; intros H; simpl; [reflexivity|].
  rewrite (H x (or_introl eq_refl)).
  now rewrite IH by (intros y Hy; apply H; now right).
Qed.

(** X14: [delete_bad_decision] removes the rows of that identifier and no
    other: afterwards no row carries the identifier, and the rows with
    another identifier are the same, in the same order.  On a ledger with
    identifiers below the AUTO_INCREMENT counter, deleting the trade that
    [log_trade_action] has just inserted gives the earlier ledger back,
    with the counter one higher: the identifier is not used again. *)
Theorem X14_delete_undoes_log_trade_action (act : action) (currency : string)
    (indicators : Py.dict Q) (result : Q) (w : world) :
  fresh_ids w ->
  let r := (trade_id <- log_trade_action act currency indicators result 100
                          "medium" "dynamic" ;;
            delete_bad_decision trade_id) w in
  trade_log (snd r) = trade_log w /\
  trade_log_auto_increment (snd r) = (trade_log_auto_increment w + 1)%Z /\
  (forall trade_id w0,
     let w1 := snd (delete_bad_decision trade_id w0) in
     (forall x, In x (trade_log w1) -> tr_id x <> trade_id) /\
     filter (fun x => negb (tr_id x =? trade_id)%Z) (trade_log w0)
     = trade_log w1 /\
     snd (delete_bad_decision trade_id w1) = w1).
Proof.
  intros Hfresh r. unfold r, bind, log_trade_action, delete_bad_decision.
  cbn [fst snd trade_log trade_log_auto_increment with_trade_log].
  split; [|split; [reflexivity|]].
  - rewrite filter_app. cbn [filter tr_id]. rewrite Z.eqb_refl. cbn.
    rewrite app_nil_r. apply filter_all_kept. intros x Hx.
    specialize (Hfresh x Hx).
    destruct (Z.eqb_spec (tr_id x) (trade_log_auto_increment w)); [lia|].
    reflexivity.
  - intros trade_id w0. cbn [snd trade_log with_trade_log].
    split; [|split; [reflexivity|]].
    + intros x Hx. apply filter_In in Hx. destruct Hx as [_ Hx].
      destruct (Z.eqb_spec (tr_id x) trade_id); [discriminate | assumption].
    + unfold with_trade_log; cbn. f_equal.
      apply filter_all_kept. intros x Hx.
      apply filter_In in Hx. now destruct Hx.
Qed.

Lemma X14_delete_undoes_log_trade_action_witness :
  fresh_ids (Sample.empty_world 0) /\
  trade_log
    (snd ((trade_id <- log_trade_action buy "EURUSD" Sample.indicators 12 100
                         "medium" "dynamic" ;;
           delete_bad_decision trade_id) (Sample.empty_world 0)))
  = trade_log (Sample.empty_world 0).
Proof.
  assert (Hf : fresh_ids (Sample.empty_world 0)) by (intros r []).
  split; [exact Hf|].
  exact (proj1 (X14_delete_undoes_log_trade_action buy "EURUSD"
                  Sample.indicators 12 (Sample.empty_world 0) Hf)).
Defined.

(** X15: [update_bad_decision] rewrites the action and the
    performance_score of the rows of that identifier and nothing else:
    the rows keep their order, identifiers, currencies, readings and
    results, rows of another identifier are untouched, and every row of
    the identifier carries the new action and score.  Applying the same
    update twice is the same as applying it once. *)
Theorem X15_update_changes_action_and_score_only (trade_id : Z)
    (new_action : action) (performance_score : Q) (w : world) :
  let w' := snd (update_bad_decision trade_id new_action performance_score w) in
  map (fun r => (tr_id r, tr_currency r, tr_result r,
                 (tr_sma r, tr_rsi r, tr_macd r, tr_bollinger_band r,
                  tr_ema r),
                 (tr_position_size r, tr_risk_level r, tr_strategy r)))
      (trade_log w')
  = map (fun r => (tr_id r, tr_currency r, tr_result r,
                   (tr_sma r, tr_rsi r, tr_macd r, tr_bollinger_band r,
                    tr_ema r),
                   (tr_position_size r, tr_risk_level r, tr_strategy r)))
        (trade_log w) /\
  (forall r, In r (trade_log w) -> tr_id r <> trade_id -> In r (trade_log w')) /\
  (forall r, In r (trade_log w') -> tr_id r = trade_id ->
             tr_action r = new_action /\
             tr_performance_score r = Some performance_score) /\
  snd (update_bad_decision trade_id new_action performance_score w') = w'.
Proof.
  intros w'. unfold w', update_bad_decision.
  cbn [snd trade_log trade_log_auto_increment with_trade_log].
  fold (correct_row trade_id new_action performance_score).
  split; [|split; [|split]].
  - rewrite map_map. apply map_ext. intros r. unfold correct_row.
    now destruct (tr_id r =? trade_id)%Z.
  - intros r Hin Hne. apply in_map_iff. exists r. split; [|exact Hin].
    unfold correct_row. apply Z.eqb_neq in Hne. now rewrite Hne.
  - intros r Hin Hid. apply in_map_iff in Hin. destruct Hin as [r0 [<- _]].
    unfold correct_row in *.
    destruct (Z.eqb_spec (tr_id r0) trade_id) as [_|Hne];
      [now split | contradiction].
  - unfold with_trade_log; cbn. f_equal.
    rewrite map_map. apply map_ext. intros r. unfold correct_row.
    destruct (Z.eqb_spec (tr_id r) trade_id) as [Heq|Hne]; cbn [tr_id].
    + apply Z.eqb_eq in Heq. now rewrite Heq.
    + apply Z.eqb_neq in Hne. now rewrite Hne.
Qed.

(** ** The news ledger, continued *)

Section NewsLedgerMore.

Import DataCollector.

Variable combine : string -> string -> option string.

(** Each step leaves the table as it is or appends one row, and prints
    'News inserted' exactly in the second case. *)
Lemma insert_news_item_appends (s : state) (it : news_item) :
  exists added outs,
    news_data (insert_news_item combine s it) = news_data s ++ added /\
    stdout (insert_news_item combine s it) = stdout s ++ outs /\
    map title added = inserted_events outs /\
    (List.length added <= 1)%nat.
Proof.
  unfold insert_news_item.
  destruct ((time it =? "")%string || (date it =? "")%string).
  { exists [], []. rewrite !app_nil_r. repeat split. cbn; lia. }
  destruct (combine (date it) (time it)) as [tm|].
  - destruct (Nat.eqb (count_news (event it) tm (news_data s)) 0).
    + eexists [_], [_]. cbn [news_data stdout]. repeat split. cbn; lia.
    + exists [], []. rewrite !app_nil_r. repeat split. cbn; lia.
  - exists [], [ErrorCombining]. cbn [news_data stdout].
    rewrite app_nil_r. repeat split. cbn; lia.
Qed.

Lemma insert_news_data_appends (items : list news_item) (s : state) :
  exists added outs,
    news_data (insert_news_data combine items s) = news_data s ++ added /\
    stdout (insert_news_data combine items s) = stdout s ++ outs /\
    map title added = inserted_events outs /\
    (List.length added <= List.length items)%nat.
Proof.
  unfold insert_news_data. revert s.
  induction items as [|it items IH]; intros s; cbn [fold_left].
  - exists [], []. rewrite !app_nil_r. repeat split. cbn; lia.
  - destruct (insert_news_item_appends s it) as [a1 [o1 (Hd1 & Ho1 & He1 & Hl1)]].
    destruct (IH (insert_news_item combine s it))
      as [a2 [o2 (Hd2 & Ho2 & He2 & Hl2)]].
    exists (a1 ++ a2), (o1 ++ o2). split; [|split; [|split]].
    + now rewrite Hd2, Hd1, app_assoc.
    + now rewrite Ho2, Ho1, app_assoc.
    + unfold inserted_events in *.
      now rewrite map_app, flat_map_app, He1, He2.
    + rewrite length_app. cbn [List.length]. lia.
Qed.

Lemma absorbed_grows (table more : list news_row) (it : news_item) :
  absorbed combine table it -> absorbed combine (table ++ more) it.
Proof.
  intros [H|[H|[H|[tm [Hc Hn]]]]]; unfold absorbed; auto.
  right. right. right. exists tm. split; [exact Hc|].
  rewrite count_news_app. lia.
Qed.

Lemma absorbed_keeps_table (s : state) (it : news_item) :
  absorbed combine (news_data s) it ->
  news_data (insert_news_item combine s it) = news_data s.
Proof.
  intros Ha. unfold insert_news_item.
  destruct (String.eqb_spec (time it) "") as [Ht|Ht]; [reflexivity|].
  destruct (String.eqb_spec (date it) "") as [Hd|Hd]; [reflexivity|].
  cbn [orb].
  destruct Ha as [H|[H|[H|[tm [Hc Hn]]]]]; try contradiction.
  - now rewrite H.
  - rewrite Hc. apply Nat.eqb_neq in Hn. now rewrite Hn.
Qed.

Lemma insert_news_item_absorbs (s : state) (it : news_item) :
  absorbed combine (news_data (insert_news_item combine s it)) it.
Proof.
  unfold insert_news_item, absorbed.
  destruct (String.eqb_spec (time it) "") as [Ht|Ht]; [now left|].
  destruct (String.eqb_spec (date it) "") as [Hd|Hd]; [now (right; left)|].
  cbn [orb].
  destruct (combine (date it) (time it)) as [tm|] eqn:Hc;
    [|now (right; right; left)].
  right. right. right. exists tm. split; [reflexivity|].
  destruct (Nat.eqb_spec (count_news (event it) tm (news_data s)) 0)
    as [Hz|Hnz]; [|exact Hnz].
  cbn [news_data]. rewrite count_news_app.
  unfold count_news at 2. cbn [filter title news_time].
  rewrite !String.eqb_refl. cbn. lia.
Qed.

Lemma insert_news_data_absorbs_all (items : list news_item) (s : state) :
  Forall (absorbed combine (news_data (insert_news_data combine items s)))
    items.
Proof.
  revert s. induction items as [|it items IH]; intros s; [constructor|].
  unfold insert_news_data in *. cbn [fold_left]. constructor.
  - destruct (insert_news_data_appends items (insert_news_item combine s it))
      as [a [o (Hd & _)]].
    unfold insert_news_data in Hd. rewrite Hd.
    apply absorbed_grows. apply insert_news_item_absorbs.
  - apply IH.
Qed.

Lemma absorbed_list_keeps_table (items : list news_item) (s : state) :
  Forall (absorbed combine (news_data s)) items ->
  news_data (insert_news_data combine items s) = news_data s.
Proof.
  unfold insert_news_data. revert s.
  induction items as [|it items IH]; intros s Hall; [reflexivity|].
  cbn [fold_left]. inversion Hall as [|x l Hit Hrest]; subst.
  pose proof (absorbed_keeps_table s it Hit) as Hsame.
  rewrite IH; [exact Hsame|]. now rewrite Hsame.
Qed.

End NewsLedgerMore.

(** X16: [insert_news_data] is idempotent on the table: running it a
    second time on the same list, with the same parser, adds no row. *)
Theorem X16_reinserting_news_adds_nothing
    (combine : string -> string -> option string)
    (items : list DataCollector.news_item) (s : DataCollector.state) :
  let once := DataCollector.insert_news_data combine items s in
  DataCollector.news_data (DataCollector.insert_news_data combine items once)
  = DataCollector.news_data once.
Proof.
  intros once. apply absorbed_list_keeps_table.
  apply insert_news_data_absorbs_all.
Qed.

(** X17: [insert_news_data] only appends.  The rows on record stay as
    they are, in place; the new rows come after them, at most one per
    item of the list; and the 'News inserted' lines it prints name
    exactly the new rows, in the order of insertion. *)
Theorem X17_news_table_is_append_only
    (combine : string -> string -> option string)
    (items : list DataCollector.news_item) (s : DataCollector.state) :
  let s' := DataCollector.insert_news_data combine items s in
  exists added outs,
    DataCollector.news_data s' = DataCollector.news_data s ++ added /\
    DataCollector.stdout s' = DataCollector.stdout s ++ outs /\
    map DataCollector.title added = inserted_events outs /\
    (List.length added <= List.length items)%nat.
Proof.
  intros s'. unfold s'.
  destruct (insert_news_data_appends combine items s)
    as [added [outs H]].
  now exists added, outs.
Qed.

Lemma rejected_is_absorbed (combine : string -> string -> option string)
    (table : list DataCollector.news_row) (it : DataCollector.news_item) :
  rejected combine it -> absorbed combine table it.
Proof. intros [H|[H|H]]; unfold absorbed; auto. Qed.

(** X18: items that fail the emptiness test on date or time, or whose
    date and time do not parse, are skipped: a list made of such items
    leaves the table as it was, whatever it holds. *)
Theorem X18_unparseable_news_is_skipped
    (combine : string -> string -> option string)
    (items : list DataCollector.news_item) (s : DataCollector.state) :
  Forall (rejected combine) items ->
  DataCollector.news_data (DataCollector.insert_news_data combine items s)
  = DataCollector.news_data s.
Proof.
  intros Hall. apply absorbed_list_keeps_table.
  apply Forall_impl with (P := rejected combine); [|exact Hall].
  intros it. apply rejected_is_absorbed.
Qed.

Lemma X18_unparseable_news_is_skipped_witness :
  Forall (rejected Sample.combine) [Cases.bad_time; Cases.no_date] /\
  DataCollector.news_data
    (DataCollector.insert_news_data Sample.combine
       [Cases.bad_time; Cases.no_date] Sample.no_news)
  = DataCollector.news_data Sample.no_news.
Proof.
  assert (H : Forall (rejected Sample.combine)
                [Cases.bad_time; Cases.no_date]).
  { constructor; [right; right; reflexivity|].
    constructor; [right; left; reflexivity | constructor]. }
  split; [exact H|].
  exact (X18_unparseable_news_is_skipped Sample.combine
           [Cases.bad_time; Cases.no_date] Sample.no_news H).
Defined.

(** ** Cleaning a request body *)

Lemma drop_while_suffix {A : Type} (f : A -> bool) (l : list A) :
  exists p, l = p ++ Ingest.drop_while f l /\ Forall (fun x => f x = true) p.
Proof.
  induction l as [|x l IH]; cbn.
  - now exists [].
  - destruct (f x) eqn:E.
    + destruct IH as [p [Hp Hall]]. exists (x :: p). split.
      * cbn. now rewrite <- Hp.
      * now constructor.
    + now exists [].
Qed.

Lemma drop_while_head {A : Type} (f : A -> bool) (l : list A) (x : A) :
  hd_error (Ingest.drop_while f l) = Some x -> f x = false.
Proof.
  induction l as [|y l IH]; cbn; [discriminate|].
  destruct (f y) eqn:E; [exact IH|].
  cbn. intros H. inversion H; subst. exact E.
Qed.

Lemma drop_while_nothing {A : Type} (f : A -> bool) (l : list A) :
  (forall x, hd_error l = Some x -> f x = false) ->
  Ingest.drop_while f l = l.
Proof.
  destruct l as [|y l]; cbn; [reflexivity|].
  intros H. now rewrite (H y eq_refl).
Qed.

Lemma Forall_drop_while {A : Type} (P : A -> Prop) (f : A -> bool)
    (l : list A) :
  Forall P l -> Forall P (Ingest.drop_while f l).
Proof.
  intros H. destruct (drop_while_suffix f l) as [p [Hp _]].
  rewrite Hp in H. now apply Forall_app in H.
Qed.

Lemma hd_error_app_left {A : Type} (l m : list A) (x : A) :
  hd_error l = Some x -> hd_error (l ++ m) = Some x.
Proof. destruct l; cbn; [discriminate | auto]. Qed.

Section CleanRawData.

Variable decode : list Byte.byte -> Ingest.text.
Variable isprintable : N -> bool.
Variable isspace : N -> bool.
Hypothesis isprintable_ascii : ascii_isprintable isprintable.
Hypothesis isspace_ascii : ascii_isspace isspace.

Lemma space_among_printable (c : N) :
  (32 <= c <= 126)%N -> isspace c = (c =? 32)%N.
Proof.
  intros Hc. rewrite isspace_ascii by lia.
  destruct (N.eqb_spec c 32) as [->|Hne]; [reflexivity|].
  destruct (N.leb_spec 9 c), (N.leb_spec c 13), (N.leb_spec 28 c),
    (N.leb_spec c 32); cbn; try reflexivity; lia.
Qed.

Lemma filtered_is_printable (raw_data : list Byte.byte) :
  Forall (fun c => (32 <= c <= 126)%N)
    (filter isprintable
       (filter (fun c => negb (c =? 10)%N)
          (filter (fun c => negb (c =? 13)%N)
             (filter (fun c => negb (c =? 0)%N)
                (filter (fun c => (c <=? 127)%N) (decode raw_data)))))).
Proof.
  apply Forall_forall. intros c Hc.
  apply filter_In in Hc. destruct Hc as [Hc Hp].
  apply filter_In in Hc. destruct Hc as [Hc _].
  apply filter_In in Hc. destruct Hc as [Hc _].
  apply filter_In in Hc. destruct Hc as [Hc _].
  apply filter_In in Hc. destruct Hc as [_ Ha].
  apply N.leb_le in Ha. rewrite (isprintable_ascii c Ha) in Hp.
  apply andb_true_iff in Hp. destruct Hp as [H1 H2].
  apply N.leb_le in H1. apply N.leb_le in H2. lia.
Qed.

Lemma strip_is_clean (s : Ingest.text) :
  Forall (fun c => (32 <= c <= 126)%N) s ->
  clean_text (Ingest.strip isspace s).
Proof.
  intros Hs. unfold Ingest.strip.
  set (l1 := Ingest.drop_while isspace s).
  assert (H1 : Forall (fun c => (32 <= c <= 126)%N) l1)
    by now apply Forall_drop_while.
  set (d := Ingest.drop_while isspace (rev l1)).
  assert (Hd : Forall (fun c => (32 <= c <= 126)%N) d).
  { apply Forall_drop_while. now apply Forall_rev. }
  split; [now apply Forall_rev|]. split.
  - (* the head of the result is the head of [l1] *)
    destruct (drop_while_suffix isspace (rev l1)) as [p [Hp _]].
    fold d in Hp.
    assert (Hl1 : l1 = rev d ++ rev p).
    { rewrite <- (rev_involutive l1), Hp, rev_app_distr. reflexivity. }
    intros Hhd.
    pose proof (hd_error_app_left (rev d) (rev p) _ Hhd) as Hhd1.
    rewrite <- Hl1 in Hhd1. unfold l1 in Hhd1.
    apply drop_while_head in Hhd1.
    rewrite space_among_printable in Hhd1 by lia. discriminate.
  - rewrite rev_involutive. intros Hhd. unfold d in Hhd.
    apply drop_while_head in Hhd.
    rewrite space_among_printable in Hhd by lia. discriminate.
Qed.

Lemma clean_raw_data_is_clean (raw_data : list Byte.byte) :
  clean_text (Ingest.clean_raw_data decode isprintable isspace raw_data).
Proof.
  unfold Ingest.clean_raw_data. apply strip_is_clean.
  apply filtered_is_printable.
Qed.

Lemma not_space_head (s : Ingest.text) :
  Forall (fun c => (32 <= c <= 126)%N) s ->
  hd_error s <> Some 32%N ->
  forall x, hd_error s = Some x -> isspace x = false.
Proof.
  intros Hall Hhd x Hx.
  assert (Hin : In x s) by (destruct s; inversion Hx; now left).
  rewrite Forall_forall in Hall. specialize (Hall x Hin).
  rewrite space_among_printable by exact Hall.
  apply N.eqb_neq. intros ->. now apply Hhd.
Qed.

Lemma clean_text_passes (raw_data : list Byte.byte) :
  clean_text (decode raw_data) ->
  Ingest.clean_raw_data decode isprintable isspace raw_data = decode raw_data.
Proof.
  intros (Hall & Hhd & Hlast). unfold Ingest.clean_raw_data.
  set (s := decode raw_data) in *.
  assert (Hin : forall c, In c s -> (32 <= c <= 126)%N)
    by now apply Forall_forall.
  rewrite (filter_all_kept (fun c => (c <=? 127)%N) s)
    by (intros c Hc; specialize (Hin c Hc); apply N.leb_le; lia).
  rewrite (filter_all_kept (fun c => negb (c =? 0)%N) s)
    by (intros c Hc; specialize (Hin c Hc);
        destruct (N.eqb_spec c 0); [lia | reflexivity]).
  rewrite (filter_all_kept (fun c => negb (c =? 13)%N) s)
    by (intros c Hc; specialize (Hin c Hc);
        destruct (N.eqb_spec c 13); [lia | reflexivity]).
  rewrite (filter_all_kept (fun c => negb (c =? 10)%N) s)
    by (intros c Hc; specialize (Hin c Hc);
        destruct (N.eqb_spec c 10); [lia | reflexivity]).
  rewrite (filter_all_kept isprintable s).
  2:{ intros c Hc. specialize (Hin c Hc).
      rewrite isprintable_ascii by lia.
      apply andb_true_iff. split; apply N.leb_le; lia. }
  unfold Ingest.strip.
  rewrite (drop_while_nothing isspace s (not_space_head s Hall Hhd)).
  rewrite (drop_while_nothing isspace (rev s)
             (not_space_head (rev s) (Forall_rev Hall) Hlast)).
  apply rev_involutive.
Qed.

End CleanRawData.

(** X19: whatever the bytes of the request, [clean_raw_data] returns
    printable ASCII only (code points 32 to 126: no control character, no
    newline, nothing outside ASCII) with no space at either end. *)
Theorem X19_cleaned_body_is_trimmed_printable_ascii
    (decode : list Byte.byte -> Ingest.text) (isprintable isspace : N -> bool)
    (raw_data : list Byte.byte) :
  ascii_isprintable isprintable ->
  ascii_isspace isspace ->
  let cleaned := Ingest.clean_raw_data decode isprintable isspace raw_data in
  Forall (fun c => (32 <= c <= 126)%N) cleaned /\
  hd_error cleaned <> Some 32%N /\
  hd_error (rev cleaned) <> Some 32%N.
Proof.
  intros Hp Hs.
  exact (clean_raw_data_is_clean decode isprintable isspace Hp Hs raw_data).
Qed.

(** X20: a body that decodes to printable ASCII without a space at either
    end goes through [clean_raw_data] unchanged; so cleaning what has been
    cleaned changes nothing. *)
Theorem X20_clean_body_is_left_alone
    (decode : list Byte.byte -> Ingest.text) (isprintable isspace : N -> bool)
    (raw_data : list Byte.byte) :
  ascii_isprintable isprintable ->
  ascii_isspace isspace ->
  (clean_text (decode raw_data) ->
   Ingest.clean_raw_data decode isprintable isspace raw_data
   = decode raw_data) /\
  (forall again,
     decode again
     = Ingest.clean_raw_data decode isprintable isspace raw_data ->
     Ingest.clean_raw_data decode isprintable isspace again
     = Ingest.clean_raw_data decode isprintable isspace raw_data).
Proof.
  intros Hp Hs. split.
  - apply (clean_text_passes decode isprintable isspace Hp Hs).
  - intros again Hagain. rewrite <- Hagain.
    apply (clean_text_passes decode isprintable isspace Hp Hs).
    rewrite Hagain.
    apply (clean_raw_data_is_clean decode isprintable isspace Hp Hs).
Qed.

(** ** The ingestion endpoint *)

Section Endpoint.

Variable decode : list Byte.byte -> Ingest.text.
Variable isprintable : N -> bool.
Variable isspace : N -> bool.
Variable loads : Ingest.text -> option Ingest.json.
Variable reformat_timestamp : string -> option string.
Variable accepts : string -> list Ingest.json -> bool.

Local Abbreviation receive :=
  (Ingest.receive_ohlc_data decode isprintable isspace loads
     reformat_timestamp accepts).
Local Abbreviation cleaned :=
  (Ingest.clean_raw_data decode isprintable isspace).

Lemma insert_rows_run (id : Z) (l : list (string * list Ingest.json))
    (s : Ingest.server) :
  Ingest.rows
    (fold_left (fun st nc => Ingest.insert_row accepts (fst nc) id (snd nc) st)
       l s)
  = Ingest.rows s
    ++ map (fun nc => (fst nc, (id, snd nc)))
         (filter (fun nc => accepts (fst nc) (snd nc)) l) /\
  Ingest.ohlc_auto_increment
    (fold_left (fun st nc => Ingest.insert_row accepts (fst nc) id (snd nc) st)
       l s)
  = Ingest.ohlc_auto_increment s /\
  Ingest.news_threads
    (fold_left (fun st nc => Ingest.insert_row accepts (fst nc) id (snd nc) st)
       l s)
  = Ingest.news_threads s.
Proof.
  revert s. induction l as [|[name cols] l IH]; intros s; cbn [fold_left].
  - cbn. now rewrite app_nil_r.
  - destruct (IH (Ingest.insert_row accepts name id cols s)) as (Hr & Hc & Ht).
    cbn [fst snd]. rewrite Hr, Hc, Ht. unfold Ingest.insert_row.
    cbn [fst snd filter].
    destruct (accepts name cols); cbn [Ingest.rows Ingest.ohlc_auto_increment
                                       Ingest.news_threads map].
    + rewrite <- app_assoc. now repeat split.
    + now repeat split.
Qed.

(** The endpoint on a payload that passes every check. *)
Lemma receive_accepted (raw_data : list Byte.byte) (s : Ingest.server)
    (data : list (string * Ingest.json)) (stamp timestamp_str : string)
    (currency_pair : Ingest.json) :
  loads (cleaned raw_data) = Some (Ingest.JObj data) ->
  forallb Ingest.truthy (map (fun k => Ingest.get k data) required_keys)
  = true ->
  Ingest.get "timestamp" data = Ingest.JStr stamp ->
  reformat_timestamp stamp = Some timestamp_str ->
  Ingest.first_six (Ingest.get "currency_pair" data) = Some currency_pair ->
  accepts "ohlc_data" (ohlc_columns data timestamp_str currency_pair) = true ->
  Ingest.ohlc_auto_increment s <> 0%Z ->
  let r := receive raw_data s in
  fst r = (200%Z, ("status", "success")) /\
  Ingest.rows (snd r)
  = Ingest.rows s
    ++ stored_rows accepts (Ingest.ohlc_auto_increment s) data timestamp_str
         currency_pair /\
  Ingest.ohlc_auto_increment (snd r) = (Ingest.ohlc_auto_increment s + 1)%Z /\
  Ingest.news_threads (snd r) = S (Ingest.news_threads s).
Proof.
  intros Hl Hall Hts Hre Hcp Hacc Hid r. unfold r, Ingest.receive_ohlc_data.
  rewrite Hl.
  change (forallb Ingest.truthy _)
    with (forallb Ingest.truthy
            (map (fun k => Ingest.get k data) required_keys)).
  rewrite Hall. cbn [negb]. rewrite Hts, Hre, Hcp.
  unfold Ingest.insert_ohlc_data.
  change [Ingest.JStr timestamp_str; Ingest.get "open" data;
          Ingest.get "high" data; Ingest.get "low" data;
          Ingest.get "close" data; Ingest.get "volume" data; currency_pair]
    with (ohlc_columns data timestamp_str currency_pair).
  rewrite Hacc. apply Z.eqb_neq in Hid. rewrite Hid.
  set (id := Ingest.ohlc_auto_increment s).
  match goal with
  | |- context [Ingest.insert_rsi_data _ _ _ _ ?st] => set (s1 := st)
  end.
  match goal with
  | |- context [Ingest.insert_fibonacci_data ?a ?i ?x1 ?x2 ?x3 ?x4 ?x5 ?s6] =>
      change (Ingest.insert_fibonacci_data a i x1 x2 x3 x4 x5 s6)
        with (fold_left (fun acc nc => Ingest.insert_row accepts (fst nc) id
                                         (snd nc) acc)
                (indicator_columns data) s1)
  end.
  destruct (insert_rows_run id (indicator_columns data) s1) as (Hr & Hc & Ht).
  cbn [fst snd Ingest.rows Ingest.ohlc_auto_increment Ingest.news_threads].
  rewrite Hr, Hc, Ht. unfold s1, stored_rows.
  cbn [Ingest.rows Ingest.ohlc_auto_increment Ingest.news_threads].
  rewrite <- app_assoc. now repeat split.
Qed.

(** X21: validation comes before every write.  With the AUTO_INCREMENT
    counter of [ohlc_data] above zero, the endpoint answers 200, 400 or
    500, and whenever the answer is not 200 it has stored no row, left the
    counter alone and started no news thread. *)
Theorem X21_nothing_is_stored_unless_200 (raw_data : list Byte.byte)
    (s : Ingest.server) :
  Ingest.ohlc_auto_increment s <> 0%Z ->
  let r := receive raw_data s in
  fst (fst r) = 200%Z \/
  ((fst (fst r) = 400%Z \/ fst (fst r) = 500%Z) /\
   Ingest.rows (snd r) = Ingest.rows s /\
   Ingest.ohlc_auto_increment (snd r) = Ingest.ohlc_auto_increment s /\
   Ingest.news_threads (snd r) = Ingest.news_threads s).
Proof.
  intros Hid r. unfold r, Ingest.receive_ohlc_data.
  destruct (loads (cleaned raw_data)) as [v|]; [|right; cbn; auto].
  destruct v as [|b|q|str|items|data]; try (right; cbn; auto; fail).
  match goal with
  | |- context [negb ?b] => destruct b
  end; cbn [negb]; [|right; cbn; auto].
  destruct (Ingest.get "timestamp" data) as [|b|q|stamp|items|fields];
    try (right; cbn; auto; fail).
  destruct (reformat_timestamp stamp) as [timestamp_str|];
    [|right; cbn; auto].
  destruct (Ingest.first_six (Ingest.get "currency_pair" data))
    as [currency_pair|]; [|right; cbn; auto].
  unfold Ingest.insert_ohlc_data.
  match goal with
  | |- context [accepts "ohlc_data" ?c] => destruct (accepts "ohlc_data" c)
  end; [|right; cbn; auto].
  apply Z.eqb_neq in Hid. rewrite Hid. left. reflexivity.
Qed.

(** X22: a JSON object in which one of the twenty-one required keys is
    missing or carries a value Python counts as false (null, false, 0,
    0.0, an empty string, an empty list or object) is refused with
    400 'Invalid data'; the only effect is the line on the terminal.  A
    snapshot with a reading or a volume of exactly 0 is therefore never
    stored. *)
Theorem X22_falsy_required_field_is_refused (raw_data : list Byte.byte)
    (s : Ingest.server) (data : list (string * Ingest.json)) (key : string) :
  loads (cleaned raw_data) = Some (Ingest.JObj data) ->
  In key required_keys ->
  Ingest.truthy (Ingest.get key data) = false ->
  receive raw_data s
  = ((400%Z, ("error", "Invalid data")),
     Ingest.say Ingest.MissingOrInvalidFields s).
Proof.
  intros Hl Hkey Hfalse. unfold Ingest.receive_ohlc_data. rewrite Hl.
  change (forallb Ingest.truthy _)
    with (forallb Ingest.truthy
            (map (fun k => Ingest.get k data) required_keys)).
  assert (Hall : forallb Ingest.truthy
                   (map (fun k => Ingest.get k data) required_keys) = false).
  { destruct (forallb Ingest.truthy
                (map (fun k => Ingest.get k data) required_keys)) eqn:E;
      [|reflexivity].
    rewrite forallb_forall in E.
    rewrite (E (Ingest.get key data)) in Hfalse; [discriminate|].
    apply in_map_iff. now exists key. }
  now rewrite Hall.
Qed.

(** X23: a payload that passes the checks is stored whole under one
    identifier.  The answer is 200 'success'; the OHLC row gets the value
    of the AUTO_INCREMENT counter, the reformatted timestamp and the
    first six characters of the currency pair; each of the six indicator
    rows that the database accepts follows under the same identifier, in
    the order RSI, MACD, SMA, Bollinger, EMA, Fibonacci, with the periods
    14, 14, 20, 14 and the deviation 2 where the payload has no such key;
    the counter advances by one and one news thread is started. *)
Theorem X23_valid_payload_is_stored_under_one_id (raw_data : list Byte.byte)
    (s : Ingest.server) (data : list (string * Ingest.json))
    (stamp timestamp_str pair : string) :
  loads (cleaned raw_data) = Some (Ingest.JObj data) ->
  forallb Ingest.truthy (map (fun k => Ingest.get k data) required_keys)
  = true ->
  Ingest.get "timestamp" data = Ingest.JStr stamp ->
  reformat_timestamp stamp = Some timestamp_str ->
  Ingest.get "currency_pair" data = Ingest.JStr pair ->
  accepts "ohlc_data"
    (ohlc_columns data timestamp_str (Ingest.JStr (substring 0 6 pair)))
  = true ->
  Ingest.ohlc_auto_increment s <> 0%Z ->
  let r := receive raw_data s in
  let id := Ingest.ohlc_auto_increment s in
  fst r = (200%Z, ("status", "success")) /\
  Ingest.rows (snd r)
  = Ingest.rows s
    ++ ("ohlc_data",
        (id, ohlc_columns data timestamp_str
               (Ingest.JStr (substring 0 6 pair))))
       :: map (fun nc => (fst nc, (id, snd nc)))
            (filter (fun nc => accepts (fst nc) (snd nc))
               (indicator_columns data)) /\
  Ingest.ohlc_auto_increment (snd r) = (id + 1)%Z /\
  Ingest.news_threads (snd r) = S (Ingest.news_threads s).
Proof.
  intros Hl Hall Hts Hre Hcp Hacc Hid.
  assert (Hsix : Ingest.first_six (Ingest.get "currency_pair" data)
                 = Some (Ingest.JStr (substring 0 6 pair)))
    by now rewrite Hcp.
  exact (receive_accepted raw_data s data stamp timestamp_str _
           Hl Hall Hts Hre Hsix Hacc Hid).
Qed.

Lemma table_after_append (name : string) (s s' : Ingest.server)
    (more : list (string * Ingest.row)) :
  Ingest.rows s' = Ingest.rows s ++ more ->
  Ingest.table name s'
  = Ingest.table name s
    ++ map snd (filter (fun r => (fst r =? name)%string) more).
Proof.
  intros H. unfold Ingest.table. now rewrite H, filter_app, map_app.
Qed.

(** X24: a failed indicator INSERT is swallowed.  When the database
    refuses one of the six indicator rows of an otherwise valid payload,
    the endpoint still answers 200 'success' and starts the news thread,
    although the table of that indicator has no row for the snapshot. *)
Theorem X24_failed_indicator_insert_still_answers_200
    (raw_data : list Byte.byte) (s : Ingest.server)
    (data : list (string * Ingest.json)) (stamp timestamp_str pair : string)
    (name : string) (columns : list Ingest.json) :
  loads (cleaned raw_data) = Some (Ingest.JObj data) ->
  forallb Ingest.truthy (map (fun k => Ingest.get k data) required_keys)
  = true ->
  Ingest.get "timestamp" data = Ingest.JStr stamp ->
  reformat_timestamp stamp = Some timestamp_str ->
  Ingest.get "currency_pair" data = Ingest.JStr pair ->
  accepts "ohlc_data"
    (ohlc_columns data timestamp_str (Ingest.JStr (substring 0 6 pair)))
  = true ->
  Ingest.ohlc_auto_increment s <> 0%Z ->
  In (name, columns) (indicator_columns data) ->
  accepts name columns = false ->
  let r := receive raw_data s in
  fst r = (200%Z, ("status", "success")) /\
  Ingest.news_threads (snd r) = S (Ingest.news_threads s) /\
  Ingest.table name (snd r) = Ingest.table name s.
Proof.
  intros Hl Hall Hts Hre Hcp Hacc Hid Hin Hrej r.
  assert (Hsix : Ingest.first_six (Ingest.get "currency_pair" data)
                 = Some (Ingest.JStr (substring 0 6 pair)))
    by now rewrite Hcp.
  destruct (receive_accepted raw_data s data stamp timestamp_str _
              Hl Hall Hts Hre Hsix Hacc Hid) as (Hresp & Hrows & _ & Hthr).
  fold r in Hresp, Hrows, Hthr.
  split; [exact Hresp|]. split; [exact Hthr|].
  rewrite (table_after_append name s (snd r) _ Hrows).
  rewrite <- (app_nil_r (Ingest.table name s)) at 2. f_equal.
  unfold stored_rows.
  unfold indicator_columns in Hin |- *.
  cbn [In] in Hin.
  repeat (destruct Hin as [Hin|Hin];
          [inversion Hin; subst name columns; clear Hin;
           cbn [filter fst snd]; rewrite Hrej;
           repeat match goal with
                  | |- context [accepts ?n ?c] =>
                      lazymatch n with
                      | _ => destruct (accepts n c)
                      end
                  end; reflexivity|]).
  destruct Hin.
Qed.

Lemma find_app_none {A : Type} (f : A -> bool) (l m : list A) :
  find f l = None -> find f (l ++ m) = find f m.
Proof.
  induction l as [|x l IH]; cbn; [reflexivity|].
  destruct (f x); [discriminate | exact IH].
Qed.

Lemma fetchone_fresh (name : string) (id : Z) (s : Ingest.server) :
  (forall r, In r (Ingest.rows s) -> fst (snd r) <> id) ->
  find (fun r : Ingest.row => (fst r =? id)%Z) (Ingest.table name s) = None.
Proof.
  intros Hfresh.
  destruct (find (fun r : Ingest.row => (fst r =? id)%Z)
              (Ingest.table name s)) as [r|] eqn:E; [|reflexivity].
  apply find_some in E. destruct E as [Hin Heq].
  unfold Ingest.table in Hin. apply in_map_iff in Hin.
  destruct Hin as [tr [<- Hin]]. apply filter_In in Hin.
  destruct Hin as [Hin _]. apply Z.eqb_eq in Heq.
  now elim (Hfresh tr Hin).
Qed.

(** X25: what the endpoint stores, the readers return.  After a 200 for
    a payload whose seven rows the database accepts, on tables that hold
    no row of the new identifier, [get_fibonacci_retracement] returns the
    five levels of the payload under the keys level_23_6 to level_100,
    and [get_technical_indicators] returns its readings under the keys
    SMA, RSI, RSI_period, MACD, MACD_signal, MACD_histogram,
    Bollinger_upper, Bollinger_middle, Bollinger_lower and EMA. *)
Theorem X25_readers_return_what_was_posted (raw_data : list Byte.byte)
    (s : Ingest.server) (data : list (string * Ingest.json))
    (stamp timestamp_str pair : string) :
  loads (cleaned raw_data) = Some (Ingest.JObj data) ->
  forallb Ingest.truthy (map (fun k => Ingest.get k data) required_keys)
  = true ->
  Ingest.get "timestamp" data = Ingest.JStr stamp ->
  reformat_timestamp stamp = Some timestamp_str ->
  Ingest.get "currency_pair" data = Ingest.JStr pair ->
  accepts "ohlc_data"
    (ohlc_columns data timestamp_str (Ingest.JStr (substring 0 6 pair)))
  = true ->
  forallb (fun nc => accepts (fst nc) (snd nc)) (indicator_columns data)
  = true ->
  Ingest.ohlc_auto_increment s <> 0%Z ->
  (forall r, In r (Ingest.rows s) ->
             fst (snd r) <> Ingest.ohlc_auto_increment s) ->
  let s' := snd (receive raw_data s) in
  let id := Ingest.ohlc_auto_increment s in
  Readers.get_fibonacci_retracement id s'
  = [ ("level_23_6", Ingest.get "fib_23_6" data);
      ("level_38_2", Ingest.get "fib_38_2" data);
      ("level_50_0", Ingest.get "fib_50" data);
      ("level_61_8", Ingest.get "fib_61_8" data);
      ("level_100", Ingest.get "fib_100" data) ] /\
  Readers.get_technical_indicators id s'
  = [ ("SMA", Ingest.get "sma" data);
      ("RSI", Ingest.get "rsi" data);
      ("RSI_period", Ingest.get_default "rsi_period" (Ingest.JNum 14) data);
      ("MACD", Ingest.get "macd_value" data);
      ("MACD_signal", Ingest.get "macd_signal" data);
      ("MACD_histogram", Ingest.get "macd_histogram" data);
      ("Bollinger_upper", Ingest.get "upper_band" data);
      ("Bollinger_middle", Ingest.get "middle_band" data);
      ("Bollinger_lower", Ingest.get "lower_band" data);
      ("EMA", Ingest.get "ema_value" data) ].
Proof.
  intros Hl Hall Hts Hre Hcp Hacc Hsix' Hid Hfresh s' id.
  assert (Hsix : Ingest.first_six (Ingest.get "currency_pair" data)
                 = Some (Ingest.JStr (substring 0 6 pair)))
    by now rewrite Hcp.
  destruct (receive_accepted raw_data s data stamp timestamp_str _
              Hl Hall Hts Hre Hsix Hacc Hid) as (_ & Hrows & _).
  fold s' id in Hrows. unfold stored_rows in Hrows.
  rewrite (forallb_filter_id _ _ Hsix') in Hrows.
  assert (Hfetch : forall name,
            Readers.fetchone name id s'
            = option_map snd
                (find (fun r : Ingest.row => (fst r =? id)%Z)
                   (map snd
                      (filter (fun r => (fst r =? name)%string)
                         (("ohlc_data",
                           (id, ohlc_columns data timestamp_str
                                  (Ingest.JStr (substring 0 6 pair))))
                          :: map (fun nc => (fst nc, (id, snd nc)))
                               (indicator_columns data)))))).
  { intros name. unfold Readers.fetchone.
    rewrite (table_after_append name s s' _ Hrows).
    now rewrite (find_app_none _ _ _ (fetchone_fresh name id s Hfresh)). }
  unfold Readers.get_fibonacci_retracement, Readers.get_technical_indicators.
  rewrite !Hfetch. unfold indicator_columns.
  cbn [map filter fst snd String.eqb Ascii.eqb Bool.eqb find option_map].
  rewrite !Z.eqb_refl. cbn [option_map snd]. split; reflexivity.
Qed.

End Endpoint.

(** ** The calendar scraper *)

Section ScraperFacts.

Variable reformat_time : string -> option string.
Variable combine_date_time : string -> string -> option string.

Local Abbreviation step := (Scraper.read_row reformat_time).

Local Abbreviation cursor_ok := (scraper_invariant reformat_time).

Lemma read_row_ok (c : Scraper.cursor) (row : Scraper.calendar_row) :
  cursor_ok c ->
  cursor_ok (step c row) /\
  (List.length (Scraper.news_data (step c row))
   <= S (List.length (Scraper.news_data c)))%nat.
Proof.
  intros (Hdate & Hitems & Hprinted). unfold Scraper.read_row.
  set (cd := if negb (Scraper.date_text row =? "")%string
             then Some (Scraper.date_text row)
             else Scraper.current_date c).
  assert (Hcd : forall d, cd = Some d -> d <> "").
  { unfold cd. destruct (String.eqb_spec (Scraper.date_text row) "")
      as [Heq|Hne]; cbn [negb].
    - exact Hdate.
    - intros d Hd. inversion Hd; subst. exact Hne. }
  destruct cd as [date|] eqn:Ecd.
  2:{ split; [now repeat split | lia]. }
  assert (Hne : date <> "") by now apply Hcd.
  assert (Hdate' : forall d, Some date = Some d -> d <> "")
    by (intros d Hd; inversion Hd; now subst).
  match goal with
  | |- context [reformat_time ?t] =>
      destruct (reformat_time t) as [formatted|] eqn:Ere
  end.
  - match goal with
    | |- context [if ?b then _ else _] => destruct b eqn:Eskip
    end.
    + split; [now repeat split | cbn; lia].
    + apply orb_false_iff in Eskip. destruct Eskip as [Eskip Ecur].
      apply orb_false_iff in Eskip. destruct Eskip as [Eev Eimp].
      split.
      * repeat split; cbn [Scraper.current_date Scraper.news_data
                           Scraper.printed]; try assumption.
        apply Forall_app. split; [exact Hitems|].
        constructor; [|constructor].
        unfold complete_item; cbn.
        split; [exact Hne|]. split; [now apply String.eqb_neq|].
        split; [now apply String.eqb_neq|]. split.
        -- intros Hin.
           assert (Hex : existsb (String.eqb (Scraper.event_text row))
                           ["Edit"; "Copy"; "Delete"] = true).
           { apply existsb_exists.
             exists (Scraper.event_text row). split.
             - destruct Hin as [H|[H|[H|[]]]]; rewrite <- H; cbn; auto.
             - apply String.eqb_refl. }
           rewrite Hex in Eev. discriminate.
        -- eexists. exact Ere.
      * cbn [Scraper.news_data]. rewrite length_app. cbn. lia.
  - split; [|cbn; lia].
    repeat split; cbn [Scraper.current_date Scraper.news_data
                       Scraper.printed]; try assumption.
    apply Forall_app. split; [exact Hprinted|].
    constructor; [eexists; reflexivity | constructor].
Qed.

Lemma fold_read_row_ok (rows : list Scraper.calendar_row)
    (c : Scraper.cursor) :
  cursor_ok c ->
  cursor_ok (fold_left step rows c) /\
  (List.length (Scraper.news_data (fold_left step rows c))
   <= List.length (Scraper.news_data c) + List.length rows)%nat.
Proof.
  revert c. induction rows as [|row rows IH]; intros c Hc; cbn [fold_left].
  - split; [exact Hc | lia].
  - destruct (read_row_ok c row Hc) as [Hc' Hlen].
    destruct (IH _ Hc') as [Hok Hlen']. split; [exact Hok|].
    cbn [List.length]. lia.
Qed.

Lemma fold_read_row_undated (rows : list Scraper.calendar_row)
    (c : Scraper.cursor) :
  Scraper.current_date c = None ->
  Forall (fun row => Scraper.date_text row = "") rows ->
  fold_left step rows c = c.
Proof.
  revert c. induction rows as [|row rows IH]; intros c Hnone Hall;
    cbn [fold_left]; [reflexivity|].
  inversion Hall as [|x l Hrow Hrest]; subst.
  assert (Hstep : step c row = c).
  { unfold Scraper.read_row. rewrite Hrow. cbn. now rewrite Hnone. }
  rewrite Hstep. now apply IH.
Qed.

(** X26: every item the scraper builds is complete: it carries a date
    (rows without a date cell take the date of the last dated row above
    them), an impact and a currency other than 'N/A', an event that is
    not one of the buttons Edit, Copy, Delete, and a time that went
    through the reformatting; there is at most one item per row; and
    rows above the first dated row give no item. *)
Theorem X26_scraped_items_are_complete (rows : list Scraper.calendar_row) :
  let items := Scraper.news_data (Scraper.read_rows reformat_time rows) in
  Forall (complete_item reformat_time) items /\
  (List.length items <= List.length rows)%nat /\
  (Forall (fun row => Scraper.date_text row = "") rows -> items = []).
Proof.
  intros items. unfold items, Scraper.read_rows.
  set (c0 := {| Scraper.current_date := None;
                Scraper.current_time := "00:00";
                Scraper.news_data := []; Scraper.printed := [] |}).
  assert (H0 : cursor_ok c0).
  { repeat split; cbn; try constructor. intros d Hd. discriminate Hd. }
  destruct (fold_read_row_ok rows c0 H0) as [(_ & Hitems & _) Hlen].
  split; [exact Hitems|]. split; [exact Hlen|].
  intros Hall. now rewrite (fold_read_row_undated rows c0 eq_refl Hall).
Qed.

(** X27: [fetch_news_with_selenium] never returns a non-empty list: it
    returns the empty list when the page has no row and nothing
    otherwise, having inserted the news itself.  So the caller
    [fetch_news_with_selenium_and_store] never inserts and never prints
    its success message: its whole effect is that of the call. *)
Theorem X27_store_wrapper_adds_nothing
    (page : option (list Scraper.calendar_row)) (s : Scraper.session) :
  let r := Scraper.fetch_news_with_selenium reformat_time combine_date_time
             page s in
  (fst r = None \/ fst r = Some []) /\
  Scraper.fetch_news_with_selenium_and_store reformat_time combine_date_time
    page s = snd r /\
  exists lines,
    Scraper.terminal (snd r) = Scraper.terminal s ++ lines /\
    ~ In Scraper.NewsSavedToDatabase lines.
Proof.
  intros r. unfold r, Scraper.fetch_news_with_selenium_and_store,
              Scraper.fetch_news_with_selenium.
  destruct page as [[|row rows]|]; cbn [fst snd Scraper.terminal].
  - split; [now right|]. split; [reflexivity|].
    eexists. split; [reflexivity|]. intros [H|[]]. discriminate H.
  - split; [now left|]. split; [reflexivity|].
    eexists. split; [reflexivity|].
    set (c0 := {| Scraper.current_date := None;
                  Scraper.current_time := "00:00";
                  Scraper.news_data := []; Scraper.printed := [] |}).
    assert (H0 : cursor_ok c0).
    { repeat split; cbn; try constructor. intros d Hd. discriminate Hd. }
    destruct (fold_read_row_ok (row :: rows) c0 H0) as [(_ & _ & Hpr) _].
    intros Hin. rewrite Forall_forall in Hpr.
    destruct (Hpr _ Hin) as [t Ht]. discriminate Ht.
  - split; [now left|]. split; [reflexivity|].
    eexists. split; [reflexivity|]. intros [H|[]]. discriminate H.
Qed.

End ScraperFacts.

(** X28: fetching the same calendar page again stores nothing new: after
    one run of [fetch_news_with_selenium] on a page, a second run on the
    same page, with the same parsers, leaves the table [news_data] as
    the first run left it. *)
Theorem X28_same_page_twice_stores_once
    (reformat_time : string -> option string)
    (combine_date_time : string -> string -> option string)
    (page : option (list Scraper.calendar_row)) (s : Scraper.session) :
  let once := snd (Scraper.fetch_news_with_selenium reformat_time
                     combine_date_time page s) in
  let twice := snd (Scraper.fetch_news_with_selenium reformat_time
                      combine_date_time page once) in
  DataCollector.news_data (Scraper.database twice)
  = DataCollector.news_data (Scraper.database once).
Proof.
  intros once twice. unfold twice, once, Scraper.fetch_news_with_selenium.
  destruct page as [[|row rows]|]; cbn [snd Scraper.database];
    [reflexivity | | reflexivity].
  destruct (Scraper.news_data
              (Scraper.read_rows reformat_time (row :: rows)))
    as [|item items] eqn:E; [reflexivity|].
  apply absorbed_list_keeps_table.
  apply insert_news_data_absorbs_all.
Qed.

(** ** Witnesses for the ingestion statements *)

Lemma cases_isprintable : ascii_isprintable Cases.isprintable.
Proof. intros c _. reflexivity. Qed.

Lemma cases_isspace : ascii_isspace Cases.isspace.
Proof. intros c _. reflexivity. Qed.

Lemma X19_cleaned_body_is_trimmed_printable_ascii_witness :
  (ascii_isprintable Cases.isprintable /\ ascii_isspace Cases.isspace) /\
  Forall (fun c => (32 <= c <= 126)%N)
    (Ingest.clean_raw_data Cases.decode Cases.isprintable Cases.isspace
       Cases.body).
Proof.
  split; [split; [exact cases_isprintable | exact cases_isspace]|].
  exact (proj1 (X19_cleaned_body_is_trimmed_printable_ascii Cases.decode
                  Cases.isprintable Cases.isspace Cases.body
                  cases_isprintable cases_isspace)).
Defined.

Lemma X20_clean_body_is_left_alone_witness :
  (ascii_isprintable Cases.isprintable /\ ascii_isspace Cases.isspace /\
   clean_text (Cases.decode [Byte.x70])) /\
  Ingest.clean_raw_data Cases.decode Cases.isprintable Cases.isspace
    [Byte.x70]
  = Cases.decode [Byte.x70].
Proof.
  assert (Hc : clean_text (Cases.decode [Byte.x70])).
  { split; [|split]; cbn.
    - constructor; [lia | constructor].
    - discriminate.
    - discriminate. }
  split; [split; [exact cases_isprintable | split;
                  [exact cases_isspace | exact Hc]]|].
  exact (proj1 (X20_clean_body_is_left_alone Cases.decode Cases.isprintable
                  Cases.isspace [Byte.x70] cases_isprintable cases_isspace)
           Hc).
Defined.

Lemma X21_nothing_is_stored_unless_200_witness :
  Ingest.ohlc_auto_increment Cases.new_server <> 0%Z /\
  (fst (fst (Ingest.receive_ohlc_data Cases.decode Cases.isprintable
               Cases.isspace Cases.loads Cases.reformat_timestamp
               Cases.accept_all [Byte.x7b] Cases.new_server)) = 200%Z \/
   ((fst (fst (Ingest.receive_ohlc_data Cases.decode Cases.isprintable
                 Cases.isspace Cases.loads Cases.reformat_timestamp
                 Cases.accept_all [Byte.x7b] Cases.new_server)) = 400%Z \/
     fst (fst (Ingest.receive_ohlc_data Cases.decode Cases.isprintable
                 Cases.isspace Cases.loads Cases.reformat_timestamp
                 Cases.accept_all [Byte.x7b] Cases.new_server)) = 500%Z) /\
    Ingest.rows
      (snd (Ingest.receive_ohlc_data Cases.decode Cases.isprintable
              Cases.isspace Cases.loads Cases.reformat_timestamp
              Cases.accept_all [Byte.x7b] Cases.new_server))
    = Ingest.rows Cases.new_server /\
    Ingest.ohlc_auto_increment
      (snd (Ingest.receive_ohlc_data Cases.decode Cases.isprintable
              Cases.isspace Cases.loads Cases.reformat_timestamp
              Cases.accept_all [Byte.x7b] Cases.new_server))
    = Ingest.ohlc_auto_increment Cases.new_server /\
    Ingest.news_threads
      (snd (Ingest.receive_ohlc_data Cases.decode Cases.isprintable
              Cases.isspace Cases.loads Cases.reformat_timestamp
              Cases.accept_all [Byte.x7b] Cases.new_server))
    = Ingest.news_threads Cases.new_server)).
Proof.
  assert (H : Ingest.ohlc_auto_increment Cases.new_server <> 0%Z)
    by discriminate.
  split; [exact H|].
  exact (X21_nothing_is_stored_unless_200 Cases.decode Cases.isprintable
           Cases.isspace Cases.loads Cases.reformat_timestamp
           Cases.accept_all [Byte.x7b] Cases.new_server H).
Defined.

Lemma X22_falsy_required_field_is_refused_witness :
  (Cases.loads_flat
     (Ingest.clean_raw_data Cases.decode Cases.isprintable Cases.isspace
        Cases.body) = Some (Ingest.JObj Cases.flat_payload) /\
   In "macd_histogram" required_keys /\
   Ingest.truthy (Ingest.get "macd_histogram" Cases.flat_payload) = false) /\
  Ingest.receive_ohlc_data Cases.decode Cases.isprintable Cases.isspace
    Cases.loads_flat Cases.reformat_timestamp Cases.accept_all Cases.body
    Cases.new_server
  = ((400%Z, ("error", "Invalid data")),
     Ingest.say Ingest.MissingOrInvalidFields Cases.new_server).
Proof.
  assert (H1 : Cases.loads_flat
                 (Ingest.clean_raw_data Cases.decode Cases.isprintable
                    Cases.isspace Cases.body)
               = Some (Ingest.JObj Cases.flat_payload)) by reflexivity.
  assert (H2 : In "macd_histogram" required_keys)
    by (unfold required_keys; cbn; auto 15).
  assert (H3 : Ingest.truthy (Ingest.get "macd_histogram" Cases.flat_payload)
               = false) by reflexivity.
  split; [now repeat split|].
  exact (X22_falsy_required_field_is_refused Cases.decode Cases.isprintable
           Cases.isspace Cases.loads_flat Cases.reformat_timestamp
           Cases.accept_all Cases.body Cases.new_server Cases.flat_payload
           "macd_histogram" H1 H2 H3).
Defined.

Lemma X23_valid_payload_is_stored_under_one_id_witness :
  (Cases.loads
     (Ingest.clean_raw_data Cases.decode Cases.isprintable Cases.isspace
        Cases.body) = Some (Ingest.JObj Cases.payload) /\
   forallb Ingest.truthy
     (map (fun k => Ingest.get k Cases.payload) required_keys) = true /\
   Ingest.get "timestamp" Cases.payload = Ingest.JStr "2024.01.05 13:30" /\
   Cases.reformat_timestamp "2024.01.05 13:30" = Some "2024.01.05 13:30:00" /\
   Ingest.get "currency_pair" Cases.payload = Ingest.JStr "EURUSDm" /\
   Ingest.ohlc_auto_increment Cases.new_server <> 0%Z) /\
  fst (Ingest.receive_ohlc_data Cases.decode Cases.isprintable Cases.isspace
         Cases.loads Cases.reformat_timestamp Cases.accept_all Cases.body
         Cases.new_server)
  = (200%Z, ("status", "success")).
Proof.
  assert (H1 : Cases.loads
                 (Ingest.clean_raw_data Cases.decode Cases.isprintable
                    Cases.isspace Cases.body)
               = Some (Ingest.JObj Cases.payload)) by reflexivity.
  assert (H2 : forallb Ingest.truthy
                 (map (fun k => Ingest.get k Cases.payload) required_keys)
               = true) by reflexivity.
  assert (H3 : Ingest.get "timestamp" Cases.payload
               = Ingest.JStr "2024.01.05 13:30") by reflexivity.
  assert (H4 : Cases.reformat_timestamp "2024.01.05 13:30"
               = Some "2024.01.05 13:30:00") by reflexivity.
  assert (H5 : Ingest.get "currency_pair" Cases.payload
               = Ingest.JStr "EURUSDm") by reflexivity.
  assert (H6 : Ingest.ohlc_auto_increment Cases.new_server <> 0%Z)
    by discriminate.
  split; [now repeat split|].
  exact (proj1 (X23_valid_payload_is_stored_under_one_id Cases.decode
                  Cases.isprintable Cases.isspace Cases.loads
                  Cases.reformat_timestamp Cases.accept_all Cases.body
                  Cases.new_server Cases.payload "2024.01.05 13:30"
                  "2024.01.05 13:30:00" "EURUSDm" H1 H2 H3 H4 H5 eq_refl H6)).
Defined.

(** The currency pair of the stored OHLC row is cut to six characters. *)
Example stored_pair_is_trimmed :
  map (fun r => nth 6 (snd (snd r)) Ingest.JNull)
    (filter (fun r => (fst r =? "ohlc_data")%string)
       (Ingest.rows
          (snd (Ingest.receive_ohlc_data Cases.decode Cases.isprintable
                  Cases.isspace Cases.loads Cases.reformat_timestamp
                  Cases.accept_all Cases.body Cases.new_server))))
  = [Ingest.JStr "EURUSD"].
Proof. reflexivity. Qed.

Lemma X24_failed_indicator_insert_still_answers_200_witness :
  (In ("rsi_data",
       [Ingest.get "rsi" Cases.payload;
        Ingest.get_default "rsi_period" (Ingest.JNum 14) Cases.payload])
      (indicator_columns Cases.payload) /\
   Cases.refuse_rsi "rsi_data"
     [Ingest.get "rsi" Cases.payload;
      Ingest.get_default "rsi_period" (Ingest.JNum 14) Cases.payload]
   = false) /\
  fst (Ingest.receive_ohlc_data Cases.decode Cases.isprintable Cases.isspace
         Cases.loads Cases.reformat_timestamp Cases.refuse_rsi Cases.body
         Cases.new_server)
  = (200%Z, ("status", "success")) /\
  Ingest.table "rsi_data"
    (snd (Ingest.receive_ohlc_data Cases.decode Cases.isprintable
            Cases.isspace Cases.loads Cases.reformat_timestamp
            Cases.refuse_rsi Cases.body Cases.new_server))
  = Ingest.table "rsi_data" Cases.new_server.
Proof.
  assert (Hin : In ("rsi_data",
                    [Ingest.get "rsi" Cases.payload;
                     Ingest.get_default "rsi_period" (Ingest.JNum 14)
                       Cases.payload])
                   (indicator_columns Cases.payload)) by now left.
  assert (Hrej : Cases.refuse_rsi "rsi_data"
                   [Ingest.get "rsi" Cases.payload;
                    Ingest.get_default "rsi_period" (Ingest.JNum 14)
                      Cases.payload] = false) by reflexivity.
  assert (H6 : Ingest.ohlc_auto_increment Cases.new_server <> 0%Z)
    by discriminate.
  split; [now split|].
  destruct (X24_failed_indicator_insert_still_answers_200 Cases.decode
              Cases.isprintable Cases.isspace Cases.loads
              Cases.reformat_timestamp Cases.refuse_rsi Cases.body
              Cases.new_server Cases.payload "2024.01.05 13:30"
              "2024.01.05 13:30:00" "EURUSDm" "rsi_data" _
              eq_refl eq_refl eq_refl eq_refl eq_refl eq_refl H6 Hin Hrej)
    as (Hresp & _ & Htable).
  split; [exact Hresp | exact Htable].
Defined.

Lemma X25_readers_return_what_was_posted_witness :
  (forallb (fun nc => Cases.accept_all (fst nc) (snd nc))
     (indicator_columns Cases.payload) = true /\
   Ingest.ohlc_auto_increment Cases.new_server <> 0%Z /\
   (forall r, In r (Ingest.rows Cases.new_server) ->
              fst (snd r) <> Ingest.ohlc_auto_increment Cases.new_server)) /\
  Py.get "level_38_2"
    (Readers.get_fibonacci_retracement
       (Ingest.ohlc_auto_increment Cases.new_server)
       (snd (Ingest.receive_ohlc_data Cases.decode Cases.isprintable
               Cases.isspace Cases.loads Cases.reformat_timestamp
               Cases.accept_all Cases.body Cases.new_server)))
  = Some (Ingest.JNum (10910 # 10000)).
Proof.
  assert (H6 : Ingest.ohlc_auto_increment Cases.new_server <> 0%Z)
    by discriminate.
  assert (Hf : forall r, In r (Ingest.rows Cases.new_server) ->
                 fst (snd r) <> Ingest.ohlc_auto_increment Cases.new_server)
    by (intros r []).
  split; [repeat split; assumption|].
  rewrite (proj1 (X25_readers_return_what_was_posted Cases.decode
                    Cases.isprintable Cases.isspace Cases.loads
                    Cases.reformat_timestamp Cases.accept_all Cases.body
                    Cases.new_server Cases.payload "2024.01.05 13:30"
                    "2024.01.05 13:30:00" "EURUSDm"
                    eq_refl eq_refl eq_refl eq_refl eq_refl eq_refl eq_refl
                    H6 Hf)).
  reflexivity.
Defined.
